(** * deph: a shallow embedding of the import collector, the source
      parser helpers, the PyPI probe and the isolating renderer.

    Python values are modelled as the code uses them:
    - [str] is [string], a sequence of code points below 256, compared
      code point by code point as Python compares [str];
    - a [dict] is an association list in insertion order (Python keeps
      that order and the renderer iterates over it);
    - [None] is [None] of an option type;
    - a raised exception is a constructor of the result type;
    - what the interpreter and the network provide ([ast.parse],
      [ast.unparse], [textwrap.dedent], [requests.get],
      [sys.stdlib_module_names], the installed-distributions table) is a
      parameter of the function that calls it. *)

From Stdlib Require Import List String Ascii Bool Arith ZArith Lia.
From Stdlib Require Import Sorted Permutation.
From Equations Require Import Equations.
Import ListNotations.

Set Warnings "-register-all".
Local Open Scope list_scope.
Local Open Scope string_scope.

(* ===================================================================== *)
(** * Part I: the program                                                 *)
(* ===================================================================== *)

(** ** Python strings *)

Module PyStr.

(** The line feed, ["\n"]. *)
Definition nl : string := String (ascii_of_nat 10) EmptyString.

(** [str.isspace] on one code point below 256. *)
Definition isspace (c : ascii) : bool :=
  let n := nat_of_ascii c in
  (((9 <=? n) && (n <=? 13)) || ((28 <=? n) && (n <=? 32))
   || (n =? 133) || (n =? 160))%nat.

(** A string is truthy when it is not empty. *)
Definition truthy (s : string) : bool :=
  match s with EmptyString => false | String _ _ => true end.

(** [s.rstrip()]: the longest trailing run of white space is removed. *)
Fixpoint rstrip (s : string) : string :=
  match s with
  | EmptyString => EmptyString
  | String c r =>
      match rstrip r with
      | EmptyString => if isspace c then EmptyString else String c EmptyString
      | String d r' => String c (String d r')
      end
  end.

(** [s.lstrip()]. *)
Fixpoint lstrip (s : string) : string :=
  match s with
  | EmptyString => EmptyString
  | String c r => if isspace c then lstrip r else s
  end.

(** [s.strip()]. *)
Definition strip (s : string) : string := rstrip (lstrip s).

(** [sep.join(parts)]. *)
Definition join (sep : string) (parts : list string) : string :=
  String.concat sep parts.

(** [needle in hay] on strings. *)
Fixpoint contains (needle hay : string) : bool :=
  String.prefix needle hay ||
  match hay with
  | EmptyString => false
  | String _ r => contains needle r
  end.

(** [s.split(sep, 1)] for a one-character separator: the part before the
    first separator and, when there is a separator, the part after it. *)
Fixpoint split1 (sep : ascii) (s : string) : string * option string :=
  match s with
  | EmptyString => (EmptyString, None)
  | String c r =>
      if Ascii.eqb c sep then (EmptyString, Some r)
      else let (h, t) := split1 sep r in (String c h, t)
  end.

(** [str(x)] of an optional string, as an f-string renders it. *)
Definition str_of_opt (o : option string) : string :=
  match o with Some s => s | None => "None" end.

(** [t] occurs in [s]. *)
Definition infix_of (t s : string) : Prop :=
  exists pre post, s = pre ++ t ++ post.

(** [x in xs] on a list of strings. *)
Definition mem (x : string) (xs : list string) : bool :=
  existsb (String.eqb x) xs.

End PyStr.

(** ** helper.py *)

Module Helper.

(** What [requests.get(url, timeout=5)] does: it returns a response with
    a status code or raises. *)
Inductive get_outcome : Type :=
| Response (status_code : Z)
| RaisesTimeout
| RaisesConnectionError
| RaisesOther.

(** [Response.raise_for_status] of the requests library raises
    [HTTPError] for the client and server error codes and returns
    otherwise. *)
Definition raise_for_status (status_code : Z) : bool :=
  ((400 <=? status_code) && (status_code <? 600))%Z.

Definition pypi_url (pkg : string) : string :=
  "https://pypi.org/pypi/" ++ pkg ++ "/json".

(** [is_on_pypi]: both [except] clauses return [False]. *)
Definition is_on_pypi (requests_get : string -> get_outcome) (pkg : string) : bool :=
  match requests_get (pypi_url pkg) with
  | Response status_code =>
      if raise_for_status status_code then false else true
  | RaisesTimeout => false
  | RaisesConnectionError => false
  | RaisesOther => false
  end.

End Helper.

(** ** The syntax tree of the [ast] module *)

Module Ast.

(** The value of an [ast.Constant]. *)
Inductive constant : Type :=
| CStr (s : string)
| CBytes (s : string)
| CInt (n : Z)
| CBool (b : bool)
| CNone.

(** Expressions.  The collector looks at calls, at the expression called
    and at constant arguments; every other expression class is
    [OtherExpr] with its sub-expressions. *)
Inductive expr : Type :=
| Name (id : string)
| Attribute (value : expr) (attr : string)
| Constant (value : constant)
| Call (func : expr) (args : list expr) (keywords : list (option string * expr))
| OtherExpr (children : list expr).

(** [ast.alias]. *)
Record alias : Type := mk_alias {
  alias_name : string;
  alias_asname : option string
}.

(** Statements.  A compound statement that is not a definition ([if],
    [for], [while], [with], [try], ...) is [Compound] with its child
    statements in field order; a simple statement that is none of the
    first three is [Simple].  Expressions hold no statement, so the
    fields that hold expressions only are left out of the definitions
    and of [Compound]. *)
Inductive stmt : Type :=
| Import (names : list alias)
| ImportFrom (module : option string) (names : list alias) (level : nat)
| Assign (targets : list expr) (value : expr)
| FunctionDef (name : string) (body : list stmt)
| AsyncFunctionDef (name : string) (body : list stmt)
| ClassDef (name : string) (body : list stmt)
| Compound (blocks : list stmt)
| Simple.

(** The child statements of a statement, as [ast.iter_child_nodes]
    yields them. *)
Definition children (s : stmt) : list stmt :=
  match s with
  | FunctionDef _ body => body
  | AsyncFunctionDef _ body => body
  | ClassDef _ body => body
  | Compound blocks => blocks
  | Import _ => []
  | ImportFrom _ _ _ => []
  | Assign _ _ => []
  | Simple => []
  end.

Fixpoint size (s : stmt) : nat :=
  match s with
  | FunctionDef _ body => S (list_sum (map size body))
  | AsyncFunctionDef _ body => S (list_sum (map size body))
  | ClassDef _ body => S (list_sum (map size body))
  | Compound blocks => S (list_sum (map size blocks))
  | Import _ => 1
  | ImportFrom _ _ _ => 1
  | Assign _ _ => 1
  | Simple => 1
  end.

Definition forest_size (l : list stmt) : nat := list_sum (map size l).

Lemma size_children (s : stmt) : size s = S (forest_size (children s)).
Proof. destruct s; reflexivity. Qed.

Lemma forest_size_app (l1 l2 : list stmt) :
  forest_size (l1 ++ l2) = forest_size l1 + forest_size l2.
Proof. unfold forest_size. rewrite map_app, list_sum_app. reflexivity. Qed.

(** [ast.walk] from the point where the root [Module] has been taken off
    the queue: the first node of the queue is yielded and its children
    are put at the end of the queue. *)
Equations? walk (todo : list stmt) : list stmt by wf (forest_size todo) lt :=
  walk [] := [];
  walk (node :: rest) := node :: walk (rest ++ children node).
Proof.
  rewrite forest_size_app. unfold forest_size at 3. simpl.
  rewrite (size_children node). fold (forest_size rest). lia.
Qed.

End Ast.

(** ** parser.py *)

Module Parser.
Import Ast.

Inductive exn : Type :=
| AttributeError
| ValueError
| RecursionError
| MemoryError.

Inductive outcome (A : Type) : Type :=
| Returns (a : A)
| Raises (e : exn).
Arguments Returns {A} a.
Arguments Raises {A} e.

(** What [ast.parse(src)] does: a module body, a [SyntaxError], or
    another exception. *)
Inductive parse_outcome : Type :=
| Parsed (body : list stmt)
| ParseSyntaxError
| ParseRaises (e : exn).

(** The object passed in; [name_attr] is [obj.__name__] when the object
    has that attribute. *)
Record PyObject : Type := mk_obj { name_attr : option string }.

(** Evaluating [obj.__name__]. *)
Definition get_name (obj : PyObject) : outcome string :=
  match name_attr obj with
  | Some n => Returns n
  | None => Raises AttributeError
  end.

(** [alias.asname or alias.name]. *)
Definition bound_name (a : alias) : string :=
  match alias_asname a with
  | Some s => if PyStr.truthy s then s else alias_name a
  | None => alias_name a
  end.

(** The inner loop over [node.names]; [Returns true] stands for
    [return True]. *)
Fixpoint match_aliases (obj : PyObject) (names : list alias) : outcome bool :=
  match names with
  | [] => Returns false
  | a :: rest =>
      match get_name obj with
      | Raises e => Raises e
      | Returns n =>
          if bound_name a =? n then Returns true else match_aliases obj rest
      end
  end.

Definition match_def (obj : PyObject) (name : string) : outcome bool :=
  match get_name obj with
  | Raises e => Raises e
  | Returns n => Returns (name =? n)
  end.

(** The body of the loop over [ast.walk(tree)] for one node. *)
Definition check_node (obj : PyObject) (node : stmt) : outcome bool :=
  match node with
  | Import names => match_aliases obj names
  | ImportFrom _ names _ => match_aliases obj names
  | ClassDef name _ => match_def obj name
  | FunctionDef name _ => match_def obj name
  | AsyncFunctionDef name _ => match_def obj name
  | Assign _ _ => Returns false
  | Compound _ => Returns false
  | Simple => Returns false
  end.

Fixpoint scan (obj : PyObject) (nodes : list stmt) : outcome bool :=
  match nodes with
  | [] => Returns false
  | node :: rest =>
      match check_node obj node with
      | Raises e => Raises e
      | Returns true => Returns true
      | Returns false => scan obj rest
      end
  end.

(** [is_defined_in_source]: only [SyntaxError] is caught. *)
Definition is_defined_in_source
  (ast_parse : string -> parse_outcome) (obj : PyObject) (src : string)
  : outcome bool :=
  match ast_parse src with
  | ParseSyntaxError => Returns false
  | ParseRaises e => Raises e
  | Parsed body => scan obj (walk body)
  end.

End Parser.

(** ** types: the items the collector produces and the renderer reads *)

Module Types.

(** A [dict] with string keys, in insertion order. *)
Definition dict (V : Type) : Type := list (string * V).

(** [d[k] = v]: an existing key keeps its place, a new key goes last. *)
Fixpoint dict_set {V : Type} (k : string) (v : V) (d : dict V) : dict V :=
  match d with
  | [] => [(k, v)]
  | (k', v') :: rest =>
      if k' =? k then (k, v) :: rest else (k', v') :: dict_set k v rest
  end.

(** [d.get(k)]. *)
Fixpoint dict_get {V : Type} (k : string) (d : dict V) : option V :=
  match d with
  | [] => None
  | (k', v) :: rest => if k' =? k then Some v else dict_get k rest
  end.

Definition keys {V : Type} (d : dict V) : list string := map fst d.
Definition values {V : Type} (d : dict V) : list V := map snd d.

(** [ImportItem(names, module, package_name, submodule, code, level,
    is_dynamic, use_star)], the fields in the order of the constructor
    calls of the collector. *)
Record ImportItem : Type := mk_ImportItem {
  names : dict string;
  module : option string;
  package_name : option string;
  submodule : option string;
  code : string;
  level : option nat;
  is_dynamic : bool;
  use_star : bool
}.

(** The fields of a [DefItem] that the renderer reads. *)
Record DefItem : Type := mk_DefItem {
  def_type : string;
  def_node : option Ast.stmt;
  def_pruned : option Ast.stmt;
  def_code : string
}.

(** The field of a [VarsItem] that the renderer reads. *)
Record VarsItem : Type := mk_VarsItem {
  var_code : string
}.

End Types.

(** ** visitors/imported.py *)

Module Imported.
Import Ast Types.

(** The three lists of an [ImportCollector]. *)
Record Collector : Type := mk_Collector {
  _imported_alias : list string;
  _import_items : list ImportItem;
  _dynamic_ref : list string
}.

Definition init : Collector := mk_Collector [] [] [].

Definition add_item (it : ImportItem) (c : Collector) : Collector :=
  mk_Collector (_imported_alias c) (_import_items c ++ [it]) (_dynamic_ref c).

Definition add_alias (a : string) (c : Collector) : Collector :=
  mk_Collector (_imported_alias c ++ [a]) (_import_items c) (_dynamic_ref c).

Definition add_dynamic_ref (a : string) (c : Collector) : Collector :=
  mk_Collector (_imported_alias c) (_import_items c) (_dynamic_ref c ++ [a]).

(** [_parse_submodule]. *)
Definition _parse_submodule (module : string) : string * option string :=
  match PyStr.split1 "." module with
  | (top, Some rest) => (top, Some rest)
  | (_, None) => (module, None)
  end.

(** [_parse_alias]: the alias is recorded, and tracked when the imported
    name belongs to the import machinery. *)
Definition _parse_alias (a : alias) (c : Collector) : (string * string) * Collector :=
  let _name := alias_name a in
  let _alias :=
    match alias_asname a with
    | Some s => if PyStr.truthy s then s else _name
    | None => _name
    end in
  let c1 := add_alias _alias c in
  let c2 :=
    if PyStr.contains "importlib" _name || PyStr.contains "import_module" _name
    then add_dynamic_ref _alias c1 else c1 in
  ((_alias, _name), c2).

(** The name of the function called, when the callee is an attribute or
    a name. *)
Definition func_name_of (func : expr) : option string :=
  match func with
  | Attribute _ attr => Some attr
  | Name id => Some id
  | Constant _ => None
  | Call _ _ _ => None
  | OtherExpr _ => None
  end.

(** [_parse_func_name]: the call itself when it is a dynamic import. *)
Definition _parse_func_name (c : Collector) (node : expr) : option expr :=
  match node with
  | Call func args _ =>
      match func_name_of func with
      | None => None
      | Some func_name =>
          if PyStr.mem func_name (_dynamic_ref c)
             || PyStr.contains "__import__" func_name
             || PyStr.contains "import_module" func_name
          then
            match args with
            | Constant (CStr _) :: _ => Some node
            | _ => None
            end
          else None
      end
  | _ => None
  end.

Section Visitor.

(** [helper.is_stdlib], the table [PACKAGE_DISTRIBUTIONS],
    [ast.unparse] ([None] when it raises) and [textwrap.dedent]. *)
Variable is_stdlib : string -> bool.
Variable PACKAGE_DISTRIBUTIONS : dict string.
Variable ast_unparse : stmt -> option string.
Variable dedent : string -> string.

(** [_package_name]. *)
Definition _package_name (module_name : option string) : option string :=
  match module_name with
  | None => None
  | Some m =>
      if is_stdlib m then Some m
      else match dict_get m PACKAGE_DISTRIBUTIONS with
           | Some dist => Some dist
           | None => Some m
           end
  end.

(** The loop of [visit_Import] from index [i] on. *)
Fixpoint import_loop (i : nat) (aliases : list alias) (nms : dict string)
  (module submodule : option string) (c : Collector)
  : dict string * option string * option string * Collector :=
  match aliases with
  | [] => (nms, module, submodule, c)
  | a :: rest =>
      let '((asname, name), c') := _parse_alias a c in
      let '(module', submodule') :=
        if (i =? 0)%nat
        then let (top, sub) := PyStr.split1 "." name in (Some top, sub)
        else (module, submodule) in
      import_loop (S i) rest (dict_set asname name nms) module' submodule' c'
  end.

(** [visit_Import]; [None] when [ast.unparse] raises. *)
Definition visit_Import (node : stmt) (c : Collector) : option Collector :=
  match node with
  | Import aliases =>
      let '(nms, module, submodule, c') := import_loop 0 aliases [] None None c in
      match ast_unparse node with
      | None => None
      | Some text =>
          Some (add_item (mk_ImportItem nms module (_package_name module)
                            submodule text None false false) c')
      end
  | _ => Some c
  end.

(** The loop of [visit_ImportFrom]. *)
Fixpoint from_loop (aliases : list alias) (nms : dict string) (use_star : bool)
  (module submodule : option string) (c : Collector)
  : dict string * bool * Collector :=
  match aliases with
  | [] => (nms, use_star, c)
  | a :: rest =>
      let '((asname, name), c') := _parse_alias a c in
      if negb use_star && PyStr.contains "*" asname
      then
        let asname' :=
          asname ++ "_" ++ PyStr.str_of_opt module ++ "."
                 ++ PyStr.str_of_opt submodule in
        from_loop rest (dict_set asname' name nms) true module submodule c'
      else from_loop rest (dict_set asname name nms) use_star module submodule c'
  end.

(** [visit_ImportFrom]; [None] when [ast.unparse] raises. *)
Definition visit_ImportFrom (node : stmt) (c : Collector) : option Collector :=
  match node with
  | ImportFrom node_module aliases node_level =>
      let '(module, submodule) :=
        match node_module with
        | Some m =>
            if PyStr.truthy m
            then let (top, sub) := _parse_submodule m in (Some top, sub)
            else (None, None)
        | None => (None, None)
        end in
      let '(nms, use_star, c') := from_loop aliases [] false module submodule c in
      match ast_unparse node with
      | None => None
      | Some text =>
          Some (add_item (mk_ImportItem nms module (_package_name module)
                            submodule text (Some node_level) false use_star) c')
      end
  | _ => Some c
  end.

(** The loop over the keywords of the call: a [package] keyword with a
    string literal replaces module and sub-module. *)
Fixpoint keyword_loop (keywords : list (option string * expr))
  (module : string) (submodule : option string) : string * option string :=
  match keywords with
  | [] => (module, submodule)
  | (Some arg, Constant (CStr pkg_name)) :: rest =>
      if arg =? "package"
      then let (m, s) := _parse_submodule pkg_name in keyword_loop rest m s
      else keyword_loop rest module submodule
  | _ :: rest => keyword_loop rest module submodule
  end.

(** [visit_Assign]; [Some c] unchanged stands for the early [return]s,
    [None] for [ast.unparse] raising. *)
Definition visit_Assign (node : stmt) (c : Collector) : option Collector :=
  match node with
  | Assign [Name asname] (Call func args keywords) =>
      match _parse_func_name c (Call func args keywords) with
      | Some (Call _ fargs fkeywords) =>
          match fargs with
          | Constant (CStr name) :: _ =>
              let (module0, submodule0) := _parse_submodule name in
              let (module, submodule) := keyword_loop fkeywords module0 submodule0 in
              match ast_unparse node with
              | None => None
              | Some text =>
                  let code := dedent text in
                  Some (add_item
                          (mk_ImportItem [(asname, name)] (Some module)
                             (_package_name (Some module)) submodule code
                             None true false)
                          (add_alias asname c))
              end
          | _ => Some c
          end
      | _ => Some c
      end
  | _ => Some c
  end.

(** [NodeVisitor.visit]: the three handlers do not descend; every other
    node gets [generic_visit], which visits the children in order. *)
Fixpoint visit (node : stmt) (c : Collector) {struct node} : option Collector :=
  let visit_all :=
    fix visit_all (l : list stmt) (c : Collector) {struct l} : option Collector :=
      match l with
      | [] => Some c
      | s :: rest =>
          match visit s c with
          | Some c' => visit_all rest c'
          | None => None
          end
      end in
  match node with
  | Import _ => visit_Import node c
  | ImportFrom _ _ _ => visit_ImportFrom node c
  | Assign _ _ => visit_Assign node c
  | FunctionDef _ body => visit_all body c
  | AsyncFunctionDef _ body => visit_all body c
  | ClassDef _ body => visit_all body c
  | Compound blocks => visit_all blocks c
  | Simple => Some c
  end.

(** [ImportCollector(tree)] for a module with the given body. *)
Fixpoint visit_body (body : list stmt) (c : Collector) : option Collector :=
  match body with
  | [] => Some c
  | s :: rest =>
      match visit s c with
      | Some c' => visit_body rest c'
      | None => None
      end
  end.

Definition ImportCollector (body : list stmt) : option Collector :=
  visit_body body init.

End Visitor.

(** The [imported] property. *)
Definition imported (c : Collector) : dict ImportItem :=
  fold_left
    (fun acc cmd => fold_left (fun acc' a => dict_set a cmd acc') (keys (names cmd)) acc)
    (_import_items c) [].

End Imported.

(** ** isolator.py *)

Module Isolator.
Import Ast Types.

(** *** The built-ins the renderer calls *)

(** [list.sort] and [sorted] are stable: an element stays in front of
    the later elements that are not smaller.  [lt] is Python's [<]. *)
Fixpoint insert_by {A : Type} (lt : A -> A -> bool) (x : A) (l : list A) : list A :=
  match l with
  | [] => [x]
  | y :: r => if lt y x then y :: insert_by lt x r else x :: y :: r
  end.

Fixpoint sort_by {A : Type} (lt : A -> A -> bool) (l : list A) : list A :=
  match l with
  | [] => []
  | x :: r => insert_by lt x (sort_by lt r)
  end.

(** [sorted] on strings. *)
Definition sorted_str (l : list string) : list string := sort_by String.ltb l.

(** The elements of a set of strings; [sorted] fixes their order. *)
Definition set_of (l : list string) : list string := nodup string_dec l.

(** The Python values that reach the requirement fields: [None], a
    string, or a set of package names (each a string or [None]). *)
Inductive pyval : Type :=
| VNone
| VStr (s : string)
| VSet (elems : list (option string)).

Definition opt_eqb (a b : option string) : bool :=
  match a, b with
  | None, None => true
  | Some x, Some y => x =? y
  | _, _ => false
  end.

Definition subset (a b : list (option string)) : bool :=
  forallb (fun x => existsb (opt_eqb x) b) a.

(** [a < b]: strings by code points, sets by strict inclusion; every
    other pair raises [TypeError] ([None]). *)
Definition py_lt (a b : pyval) : option bool :=
  match a, b with
  | VStr x, VStr y => Some (x <? y)
  | VSet x, VSet y => Some (subset x y && negb (subset y x))
  | _, _ => None
  end.

Fixpoint py_insert (x : pyval) (l : list pyval) : option (list pyval) :=
  match l with
  | [] => Some [x]
  | y :: r =>
      match py_lt y x with
      | None => None
      | Some true => option_map (cons y) (py_insert x r)
      | Some false => Some (x :: y :: r)
      end
  end.

(** [sorted(xs)] on values; [None] when a comparison raises. *)
Fixpoint py_sorted (l : list pyval) : option (list pyval) :=
  match l with
  | [] => Some []
  | x :: r =>
      match py_sorted r with
      | None => None
      | Some r' => py_insert x r'
      end
  end.

(** [{item.package_name for item in items}]. *)
Fixpoint opt_nodup (l : list (option string)) : list (option string) :=
  match l with
  | [] => []
  | x :: r => if existsb (opt_eqb x) r then opt_nodup r else x :: opt_nodup r
  end.

Definition package_names (items : list ImportItem) : pyval :=
  VSet (opt_nodup (map package_name items)).

(** *** The renderer *)

(** The two options of an [Isolator]. *)
Record Isolator : Type := mk_Isolator {
  sort_imports : bool;
  keep_dynamic_imports : bool
}.

(** The report of the analyzer; a key that is missing is an empty
    value. *)
Record Report : Type := mk_Report {
  imports : dict (dict ImportItem);
  typehints : dict string;
  vars : dict (list VarsItem);
  def_items : list DefItem;
  rep_unbound : list string
}.

(** The bundle returned. *)
Record AttrDefaultDict : Type := mk_result {
  source : string;
  reqs_pypi : list pyval;
  reqs_unknown : list pyval;
  unbound : list string;
  warnings : list string
}.

(** What a call can change or depend on outside its arguments: what has
    been written to [sys.stderr], and what the network answers. *)
Record World : Type := mk_World {
  stderr : string;
  requests_get : string -> Helper.get_outcome
}.

(** [print(message, file=sys.stderr)]. *)
Definition print_stderr (message : string) (w : World) : World :=
  mk_World (stderr w ++ message ++ PyStr.nl) (requests_get w).

(** The sort key of an import item. *)
Definition sort_key (it : ImportItem) : bool * string * string :=
  (is_dynamic it, PyStr.str_of_opt (module it), code it).

(** [<] on the key tuples: the first component that differs decides. *)
Definition key_lt (a b : bool * string * string) : bool :=
  let '(d1, m1, c1) := a in
  let '(d2, m2, c2) := b in
  if Bool.eqb d1 d2
  then if m1 =? m2 then c1 <? c2 else m1 <? m2
  else negb d1 && d2.

Definition item_lt (a b : ImportItem) : bool := key_lt (sort_key a) (sort_key b).

(** The items of all modules, in the order of the two dictionaries. *)
Definition flatten_imports (imports_by_module : dict (dict ImportItem)) : list ImportItem :=
  flat_map (fun alias_map => values alias_map) (values imports_by_module).

(** The loop of [_collect_import_lines] with its two accumulators. *)
Fixpoint emit_lines (keep : bool) (items : list ImportItem)
  (seen lines : list string) : list string :=
  match items with
  | [] => lines
  | imp :: rest =>
      if is_dynamic imp && negb keep then emit_lines keep rest seen lines
      else
        let line := PyStr.rstrip (code imp) in
        if PyStr.truthy line && negb (PyStr.mem line seen)
        then emit_lines keep rest (line :: seen) (lines ++ [line])
        else emit_lines keep rest seen lines
  end.

Definition _collect_import_lines (self : Isolator)
  (imports_by_module : dict (dict ImportItem)) : list string :=
  let items := flatten_imports imports_by_module in
  let items := if sort_imports self then sort_by item_lt items else items in
  emit_lines (keep_dynamic_imports self) items [] [].

Definition _collect_vars_lines (vars_by_module : dict (list VarsItem)) : list string :=
  flat_map
    (fun module_name =>
       match dict_get module_name vars_by_module with
       | Some items =>
           filter PyStr.truthy (map (fun v => PyStr.rstrip (var_code v)) items)
       | None => []
       end)
    (sorted_str (keys vars_by_module)).

Definition is_def_node (n : stmt) : bool :=
  match n with
  | ClassDef _ _ => true
  | FunctionDef _ _ => true
  | AsyncFunctionDef _ _ => true
  | _ => false
  end.

Definition is_class (d : DefItem) : bool := def_type d =? "class".

(** The first part of the heading of the warning. *)
Definition warning_head : string :=
  "Unresolved names detected. These may need to be provided at runtime "
  ++ "or via stub definitions:" ++ PyStr.nl ++ " - ".

(** [_collect_warnings]. *)
Definition _collect_warnings (unbound : list string) (w : World)
  : list string * World :=
  let unbound_names := sorted_str (set_of (filter PyStr.truthy unbound)) in
  match unbound_names with
  | [] => ([], w)
  | _ :: _ =>
      let warning_message :=
        warning_head ++ PyStr.join (PyStr.nl ++ " - ") unbound_names in
      ([warning_message], print_stderr warning_message w)
  end.

(** The three lists of [_extract_package_requirements]. *)
Record Requirements : Type := mk_Requirements {
  on_pypi : list ImportItem;
  stdlib : list ImportItem;
  unknown : list ImportItem
}.

(** The [TYPE_CHECKING] lines around the import lines. *)
Definition typehint_import (entry : string * string) : string :=
  let (name, asname) := entry in
  if negb (name =? asname) then name ++ " as " ++ asname else name.

Definition with_typehints (typehints : dict string) (import_lines : list string)
  : list string :=
  match typehints with
  | [] => import_lines
  | _ :: _ =>
      ("from __future__ import annotations" :: import_lines)
      ++ [ "from typing import TYPE_CHECKING";
           "if TYPE_CHECKING:";
           "    " ++ "from typing import "
                  ++ PyStr.join ", " (map typehint_import typehints) ]
  end.

(** [sections[key] = sep.join(lines)] under [if lines:], read back with
    [sections.get(key, "")]. *)
Definition section (sep : string) (lines : list string) : string :=
  match lines with
  | [] => ""
  | _ :: _ => PyStr.join sep lines
  end.

Section Render.

(** [helper.is_stdlib] and [ast.unparse] ([None] when it raises). *)
Variable is_stdlib : string -> bool.
Variable ast_unparse : stmt -> option string.

Definition _unparse_or_fallback (di : DefItem) : string :=
  let node :=
    match def_pruned di with
    | Some n => Some n
    | None => def_node di
    end in
  let fallback :=
    let s := PyStr.strip (def_code di) in
    if PyStr.truthy s then s else "# <unparseable definition>" in
  match node with
  | Some n =>
      if is_def_node n
      then match ast_unparse n with
           | Some text => text
           | None => fallback
           end
      else fallback
  | None => fallback
  end.

Definition _collect_def_lines (items : list DefItem) : list string :=
  let classes := filter is_class items in
  let funcs := filter (fun d => negb (is_class d)) items in
  map _unparse_or_fallback classes ++ map _unparse_or_fallback funcs.

(** One turn of the loop of [_extract_package_requirements]. *)
Definition classify (w : World) (acc : Requirements) (impitem : ImportItem)
  : Requirements :=
  match package_name impitem with
  | None => mk_Requirements (on_pypi acc) (stdlib acc) (unknown acc ++ [impitem])
  | Some pname =>
      if negb (PyStr.truthy pname)
      then mk_Requirements (on_pypi acc) (stdlib acc) (unknown acc ++ [impitem])
      else if negb (is_stdlib pname)
      then if Helper.is_on_pypi (requests_get w) pname
           then mk_Requirements (on_pypi acc ++ [impitem]) (stdlib acc) (unknown acc)
           else mk_Requirements (on_pypi acc) (stdlib acc) (unknown acc ++ [impitem])
      else mk_Requirements (on_pypi acc) (stdlib acc ++ [impitem]) (unknown acc)
  end.

Definition _extract_package_requirements (report : Report) (w : World)
  : Requirements :=
  fold_left (classify w) (flatten_imports (imports report))
    (mk_Requirements [] [] []).

(** The text before the final [rstrip]. *)
Definition final_code (self : Isolator) (report : Report) : string :=
  let import_lines :=
    with_typehints (typehints report)
      (_collect_import_lines self (imports report)) in
  let var_lines := _collect_vars_lines (vars report) in
  let def_lines := _collect_def_lines (def_items report) in
  let ordered_sections :=
    [ section PyStr.nl import_lines;
      section PyStr.nl var_lines;
      section (PyStr.nl ++ PyStr.nl) def_lines ] in
  PyStr.join (PyStr.nl ++ PyStr.nl) (filter PyStr.truthy ordered_sections).

(** [isolate_from_report].  The two requirement sets are each followed
    by a comma in the source, so each is a tuple of one set, and
    [sorted] is applied to that tuple.  [None] when [sorted] raises. *)
Definition isolate_from_report (self : Isolator) (report : Report) (w : World)
  : option (AttrDefaultDict * World) :=
  let '(warns, w') := _collect_warnings (rep_unbound report) w in
  let requirements := _extract_package_requirements report w' in
  let reqs_pypi_tuple := [package_names (on_pypi requirements)] in
  let reqs_unknown_tuple := [package_names (unknown requirements)] in
  match py_sorted reqs_pypi_tuple, py_sorted reqs_unknown_tuple with
  | Some sorted_pypi, Some sorted_unknown =>
      Some (mk_result (PyStr.rstrip (final_code self report) ++ PyStr.nl)
              sorted_pypi sorted_unknown (rep_unbound report) warns, w')
  | _, _ => None
  end.

(** [isolate]: the analyzer ([None] when it raises) and then the
    renderer. *)
Definition isolate {Target : Type}
  (analyze_many : list Target -> option Report)
  (self : Isolator) (targets : list Target) (w : World)
  : option (AttrDefaultDict * World) :=
  match analyze_many targets with
  | None => None
  | Some report => isolate_from_report self report w
  end.

End Render.

End Isolator.

(* ===================================================================== *)
(** * Part II: what the statements use                                    *)
(* ===================================================================== *)

(** ** Orders: the comparisons behind Python's [<] *)

(** A comparison that decides a total order. *)
Class TotalCmp {A : Type} (cmp : A -> A -> comparison) : Prop := {
  cmp_eq : forall a b, cmp a b = Eq -> a = b;
  cmp_refl : forall a, cmp a a = Eq;
  cmp_antisym : forall a b, cmp a b = CompOpp (cmp b a);
  cmp_trans : forall a b c, cmp a b = Lt -> cmp b c = Lt -> cmp a c = Lt
}.

(** [False < True]. *)
Definition bool_compare (a b : bool) : comparison :=
  match a, b with
  | false, true => Lt
  | true, false => Gt
  | _, _ => Eq
  end.

(** Tuples compare by their first components that differ. *)
Definition lex {A B : Type} (cmpA : A -> A -> comparison)
  (cmpB : B -> B -> comparison) (x y : A * B) : comparison :=
  match cmpA (fst x) (fst y) with
  | Eq => cmpB (snd x) (snd y)
  | Lt => Lt
  | Gt => Gt
  end.

(** The strict order of a comparison, as a test. *)
Definition ltb_of {A : Type} (cmp : A -> A -> comparison) (a b : A) : bool :=
  match cmp a b with Lt => true | _ => false end.

(** [a] may stand before [b] in a list sorted by [lt]. *)
Definition le_of {A : Type} (lt : A -> A -> bool) (a b : A) : Prop := lt b a = false.

(** Definitions that only the statements below use: what a sentence of
    the specification says, written as a function on the same data, and
    the sample inputs. *)

Module Stated.
Import Ast Types.

(** The name [n] is bound by the statement or by a statement nested in
    it at any depth: as the name of a definition or as the bound alias
    of an import. *)
Fixpoint defines (n : string) (s : stmt) : bool :=
  match s with
  | Import names => existsb (fun a => Parser.bound_name a =? n) names
  | ImportFrom _ names _ => existsb (fun a => Parser.bound_name a =? n) names
  | FunctionDef name body => (name =? n) || existsb (defines n) body
  | AsyncFunctionDef name body => (name =? n) || existsb (defines n) body
  | ClassDef name body => (name =? n) || existsb (defines n) body
  | Compound blocks => existsb (defines n) blocks
  | Assign _ _ => false
  | Simple => false
  end.

(** The same for the node alone, without its children. *)
Definition binds (n : string) (s : stmt) : bool :=
  match s with
  | Import names => existsb (fun a => Parser.bound_name a =? n) names
  | ImportFrom _ names _ => existsb (fun a => Parser.bound_name a =? n) names
  | FunctionDef name _ => name =? n
  | AsyncFunctionDef name _ => name =? n
  | ClassDef name _ => name =? n
  | Compound _ => false
  | Assign _ _ => false
  | Simple => false
  end.

(** The alias [*_m.<sub>] of a star import from the module named [m]:
    [m] up to its first dot, and what follows that dot. *)
Definition star_parts (m : string) : option string * option string :=
  if PyStr.truthy m
  then let (top, sub) := Imported._parse_submodule m in (Some top, sub)
  else (None, None).

Definition star_alias (m : string) : string :=
  "*_" ++ PyStr.str_of_opt (fst (star_parts m)) ++ "."
       ++ PyStr.str_of_opt (snd (star_parts m)).

(** The alias node of [import *]. *)
Definition star : alias := mk_alias "*" None.

(** The item recorded for [from m import *]. *)
Definition star_item (is_stdlib : string -> bool) (table : dict string)
  (m : string) (lvl : nat) (text : string) : ImportItem :=
  mk_ImportItem [(star_alias m, "*")] (fst (star_parts m))
    (Imported._package_name is_stdlib table (fst (star_parts m)))
    (snd (star_parts m)) text (Some lvl) false true.

(** The item recorded for a star import that names no module, as
    [from . import *]. *)
Definition star_item_nameless (lvl : nat) (text : string) : ImportItem :=
  mk_ImportItem [("*_None.None", "*")] None None None text (Some lvl) false true.

(** The module [a] and the module [a] of the current package, each
    imported with a star, and the texts of the two statements. *)
Definition two_stars : list stmt :=
  [ImportFrom (Some "a") [star] 0; ImportFrom (Some "a") [star] 1].

Definition unparse_stars (node : stmt) : option string :=
  match node with
  | ImportFrom (Some _) _ 0 => Some "from a import *"
  | ImportFrom (Some _) _ _ => Some "from .a import *"
  | _ => None
  end.


(** The test of [_parse_func_name] on the name of the function. *)
Definition name_test (c : Imported.Collector) (func : expr) : bool :=
  match Imported.func_name_of func with
  | None => false
  | Some func_name =>
      PyStr.mem func_name (Imported._dynamic_ref c)
      || PyStr.contains "__import__" func_name
      || PyStr.contains "import_module" func_name
  end.

(** The string literal of the last keyword [package=...] of a call. *)
Fixpoint package_override (keywords : list (option string * expr)) : option string :=
  match keywords with
  | [] => None
  | (Some arg, Constant (CStr p)) :: rest =>
      match package_override rest with
      | Some q => Some q
      | None => if arg =? "package" then Some p else None
      end
  | _ :: rest => package_override rest
  end.

(** Module and sub-module of a dynamic import of the literal [lit]. *)
Definition dynamic_parts (lit : string) (keywords : list (option string * expr))
  : string * option string :=
  match package_override keywords with
  | Some p => Imported._parse_submodule p
  | None => Imported._parse_submodule lit
  end.

(** The item recorded for [asname = f(lit, ...)]. *)
Definition dynamic_item (is_stdlib : string -> bool) (table : dict string)
  (asname lit : string) (keywords : list (option string * expr)) (code : string)
  : ImportItem :=
  mk_ImportItem [(asname, lit)] (Some (fst (dynamic_parts lit keywords)))
    (Imported._package_name is_stdlib table (Some (fst (dynamic_parts lit keywords))))
    (snd (dynamic_parts lit keywords)) code None true false.








(** The line of an import item, and the test for a static import. *)
Definition line_of (it : ImportItem) : string := PyStr.rstrip (code it).

Definition static (it : ImportItem) : bool := negb (is_dynamic it).

(** The items whose line the loop of [_collect_import_lines] appends. *)
Fixpoint emit_items (keep : bool) (items : list ImportItem) (seen : list string)
  : list ImportItem :=
  match items with
  | [] => []
  | imp :: rest =>
      if is_dynamic imp && negb keep then emit_items keep rest seen
      else if PyStr.truthy (line_of imp) && negb (PyStr.mem (line_of imp) seen)
      then imp :: emit_items keep rest (line_of imp :: seen)
      else emit_items keep rest seen
  end.

(** The imports of a report without the dynamic items. *)
Definition drop_dynamic (imports_by_module : dict (dict ImportItem))
  : dict (dict ImportItem) :=
  map (fun entry => (fst entry, filter (fun kv => static (snd kv)) (snd entry)))
    imports_by_module.

Definition without_dynamic (report : Isolator.Report) : Isolator.Report :=
  Isolator.mk_Report (drop_dynamic (Isolator.imports report))
    (Isolator.typehints report) (Isolator.vars report)
    (Isolator.def_items report) (Isolator.rep_unbound report).

(** The import item is in the report: under some module, for some
    alias. *)
Definition in_report (it : ImportItem) (report : Isolator.Report) : Prop :=
  exists m d a, In (m, d) (Isolator.imports report) /\ In (a, it) d.

(** The node of a definition that is rendered: the pruned one when there
    is one. *)
Definition rendered_node (d : DefItem) : option stmt :=
  match def_pruned d with
  | Some n => Some n
  | None => def_node d
  end.

(** The node is a class or a function. *)
Definition is_definition (n : stmt) : bool :=
  match n with
  | ClassDef _ _ | FunctionDef _ _ | AsyncFunctionDef _ _ => true
  | Import _ | ImportFrom _ _ _ | Assign _ _ | Compound _ | Simple => false
  end.

(** The definition is in the text: as the unparser writes its node, when
    that is a class or a function and the unparser does not raise,
    white space at the end apart; and otherwise as its stored code
    without the white space around it, or as the placeholder comment
    when the stored code is blank. *)
Definition definition_in (ast_unparse : stmt -> option string) (d : DefItem)
  (src : string) : Prop :=
  (forall n text,
      rendered_node d = Some n -> is_definition n = true ->
      ast_unparse n = Some text -> PyStr.infix_of (PyStr.rstrip text) src)
  /\ ((forall n, rendered_node d = Some n ->
                 is_definition n = false \/ ast_unparse n = None) ->
      PyStr.infix_of
        (if PyStr.truthy (PyStr.strip (def_code d)) then PyStr.strip (def_code d)
         else "# <unparseable definition>")
        src).

(** A report whose only import is dynamic, with one function that uses
    it. *)
Definition dynamic_only : Isolator.Report :=
  Isolator.mk_Report
    [("sample", [("_json", mk_ImportItem [("_json", "json")] (Some "json")
                             (Some "json") None
                             "_json = importlib.import_module('json')" None
                             true false)])]
    [] []
    [ mk_DefItem "function" None None "def f(): return _json" ]
    [].

(** The key the import statements are sorted by: whether the import is
    dynamic, the name of the top-level module, and the full text of the
    statement.  An item without module stands under the word [None]. *)
Definition module_name (it : ImportItem) : string :=
  match module it with
  | Some m => m
  | None => "None"
  end.

Definition key_of (it : ImportItem) : bool * string * string :=
  (is_dynamic it, module_name it, code it).

(** The comparison of two keys: [False] before [True], then the module
    names, then the texts, strings being compared by their code
    points. *)
Definition key_compare : bool * string * string -> bool * string * string -> comparison :=
  lex (lex bool_compare String.compare) String.compare.

(** An item may stand before another in the sorted list: its key is not
    above the key of the other. *)
Definition key_le (a b : ImportItem) : Prop :=
  key_compare (key_of a) (key_of b) <> Gt.

(** A network on which every request is answered with the given status. *)
Definition answers (status_code : Z) (url : string) : Helper.get_outcome :=
  Helper.Response status_code.

(** The blank line between two sections: two line feeds. *)
Definition nl2 : string := PyStr.nl ++ PyStr.nl.

(** The four parts of the rendered text. *)
Definition imports_text (self : Isolator.Isolator) (report : Isolator.Report) : string :=
  PyStr.join PyStr.nl
    (Isolator.with_typehints (Isolator.typehints report)
       (Isolator._collect_import_lines self (Isolator.imports report))).

Definition vars_text (report : Isolator.Report) : string :=
  PyStr.join PyStr.nl (Isolator._collect_vars_lines (Isolator.vars report)).

Definition class_lines (ast_unparse : stmt -> option string)
  (report : Isolator.Report) : list string :=
  map (Isolator._unparse_or_fallback ast_unparse)
    (filter Isolator.is_class (Isolator.def_items report)).

Definition func_lines (ast_unparse : stmt -> option string)
  (report : Isolator.Report) : list string :=
  map (Isolator._unparse_or_fallback ast_unparse)
    (filter (fun d => negb (Isolator.is_class d)) (Isolator.def_items report)).

(** The source field of what a call returns, when it returns. *)
Definition source_of (res : option (Isolator.AttrDefaultDict * Isolator.World))
  : option string :=
  match res with
  | Some (r, _) => Some (Isolator.source r)
  | None => None
  end.

(** Sample inputs: the default options, a world where nothing has been
    written and every probe is answered with 404, an unparser that
    always raises, and three reports. *)
Definition default_isolator : Isolator.Isolator := Isolator.mk_Isolator true true.

Definition quiet_world : Isolator.World := Isolator.mk_World "" (answers 404).

Definition unparse_raises (node : stmt) : option string := None.

Definition two_functions : Isolator.Report :=
  Isolator.mk_Report [] [] []
    [ mk_DefItem "function" None None "def f(): return 1";
      mk_DefItem "function" None None "def g(): return 2" ]
    [].

Definition empty_name_unbound : Isolator.Report :=
  Isolator.mk_Report [] [] [] [] [""].

Definition numpy_report : Isolator.Report :=
  Isolator.mk_Report
    [("sample", [("np", mk_ImportItem [("np", "numpy")] (Some "numpy")
                          (Some "numpy") None "import numpy as np" None
                          false false)])]
    [] [] [] [].

(** A report with an import, a variable, a class and a function, the
    definitions given by their stored code. *)
Definition full_report : Isolator.Report :=
  Isolator.mk_Report
    [("sample", [("os", mk_ImportItem [("os", "os")] (Some "os") (Some "os")
                          None "import os" None false false)])]
    []
    [("sample", [mk_VarsItem "LIMIT = 3"])]
    [ mk_DefItem "function" None None "def f(): return LIMIT";
      mk_DefItem "class" None None "class C: pass" ]
    [].

(** The tree of the source text [import os]. *)
Definition tree_import_os : list stmt := [Import [mk_alias "os" None]].

(** An object without a [__name__], such as a [functools.partial]. *)
Definition nameless : Parser.PyObject := Parser.mk_obj None.

(** A parser that knows the text [import os] only. *)
Definition parse_import_os (src : string) : Parser.parse_outcome :=
  if src =? "import os" then Parser.Parsed tree_import_os
  else Parser.ParseSyntaxError.

End Stated.

(* ===================================================================== *)
(** * Part III: the properties                                            *)
(* ===================================================================== *)

(** ** helper.py: the PyPI probe *)

Section PyPI.
Import Helper.

Variable requests_get : string -> get_outcome.

(** The probe answers [True] exactly on a response whose status is not
    an error status. *)
Lemma is_on_pypi_true_iff (pkg : string) :
  is_on_pypi requests_get pkg = true <->
  exists status_code,
    requests_get (pypi_url pkg) = Response status_code /\
    raise_for_status status_code = false.
Proof.
  unfold is_on_pypi. split.
  - destruct (requests_get (pypi_url pkg)) as [st | | |] eqn:E; try discriminate.
    destruct (raise_for_status st) eqn:R; try discriminate.
    intros _. exists st. split; [reflexivity | exact R].
  - intros [st [E R]]. rewrite E, R. reflexivity.
Qed.

(** Status 200 gives [True]; a raised exception gives [False]. *)
Lemma is_on_pypi_200 (pkg : string) :
  requests_get (pypi_url pkg) = Response 200 -> is_on_pypi requests_get pkg = true.
Proof. unfold is_on_pypi. intros ->. reflexivity. Qed.

End PyPI.

(** C9.  The probe of a name whose request is answered with status 204
    returns [True], although the status is not 200: only the statuses
    from 400 to 599 make [raise_for_status] raise. *)
Theorem is_on_pypi_status_204 :
  Helper.is_on_pypi (Stated.answers 204) "requests" = true
  /\ Helper.is_on_pypi (Stated.answers 304) "requests" = true
  /\ Helper.is_on_pypi (Stated.answers 200) "requests" = true
  /\ Helper.is_on_pypi (Stated.answers 404) "requests" = false.
Proof. repeat split; reflexivity. Qed.

(** ** parser.py: [is_defined_in_source] *)

Section IsDefined.
Import Ast Parser Stated.

Lemma match_aliases_named (n : string) (names : list alias) :
  match_aliases (mk_obj (Some n)) names
  = Returns (existsb (fun a => bound_name a =? n) names).
Proof.
  induction names as [| a rest IH]; simpl; [reflexivity |].
  unfold get_name; simpl.
  destruct (bound_name a =? n); [reflexivity | exact IH].
Qed.

Lemma check_node_named (n : string) (node : stmt) :
  check_node (mk_obj (Some n)) node = Returns (binds n node).
Proof.
  destruct node; simpl; try reflexivity; apply match_aliases_named.
Qed.

Lemma scan_named (n : string) (nodes : list stmt) :
  scan (mk_obj (Some n)) nodes = Returns (existsb (binds n) nodes).
Proof.
  induction nodes as [| node rest IH]; simpl; [reflexivity |].
  rewrite check_node_named.
  destruct (binds n node); [reflexivity | exact IH].
Qed.

Lemma defines_children (n : string) (s : stmt) :
  defines n s = binds n s || existsb (defines n) (children s).
Proof.
  destruct s; simpl; try reflexivity; now rewrite orb_false_r.
Qed.

(** The walk meets a binding node exactly when some statement of the
    queue defines the name at some depth. *)
Lemma walk_binds (n : string) (todo : list stmt) :
  existsb (binds n) (walk todo) = existsb (defines n) todo.
Proof.
  funelim (walk todo); [reflexivity |].
  simpl. rewrite H, existsb_app, (defines_children n node).
  destruct (binds n node), (existsb (defines n) rest),
    (existsb (defines n) (children node)); reflexivity.
Qed.

(** A nameless object makes the first binding node raise. *)
Lemma scan_nameless_import (names : list alias) (rest : list stmt) (a : alias) :
  scan nameless (Import (a :: names) :: rest) = Raises AttributeError.
Proof. reflexivity. Qed.

End IsDefined.

(** C10, as amended.  For an object that has a [__name__] and a source
    on which the parser returns or raises [SyntaxError], the function
    returns and does not raise: [False] on the syntax error, and
    otherwise [True] exactly when the name is bound, at any depth of the
    tree, by a definition or by an import alias.  Another exception of
    the parser is passed on. *)
Theorem is_defined_in_source_named :
  forall (ast_parse : string -> Parser.parse_outcome) (n src : string),
    Parser.is_defined_in_source ast_parse (Parser.mk_obj (Some n)) src
    = match ast_parse src with
      | Parser.ParseSyntaxError => Parser.Returns false
      | Parser.Parsed body => Parser.Returns (existsb (Stated.defines n) body)
      | Parser.ParseRaises e => Parser.Raises e
      end.
Proof.
  intros ast_parse n src. unfold Parser.is_defined_in_source.
  destruct (ast_parse src) as [body | | e]; try reflexivity.
  rewrite scan_named, walk_binds. reflexivity.
Qed.

(** C10, as stated, fails: on the text [import os] and an object without
    [__name__] the function raises [AttributeError]. *)
Lemma is_defined_in_source_raises :
  Parser.is_defined_in_source Stated.parse_import_os Stated.nameless "import os"
  = Parser.Raises Parser.AttributeError.
Proof. reflexivity. Qed.

(** ** isolator.py: the requirement fields *)

Section Requirements.
Import Types Isolator.

Variable is_stdlib : string -> bool.
Variable ast_unparse : Ast.stmt -> option string.

(** [sorted] of a tuple of one element compares nothing. *)
Lemma py_sorted_one (x : pyval) : py_sorted [x] = Some [x].
Proof. reflexivity. Qed.

(** The renderer returns on every report, and what it returns is built
    from the parts computed before. *)
Lemma isolate_from_report_returns (self : Isolator) (report : Report) (w : World) :
  isolate_from_report is_stdlib ast_unparse self report w
  = let ww := _collect_warnings (rep_unbound report) w in
    let requirements := _extract_package_requirements is_stdlib report (snd ww) in
    Some (mk_result (PyStr.rstrip (final_code ast_unparse self report) ++ PyStr.nl)
            [package_names (on_pypi requirements)]
            [package_names (unknown requirements)]
            (rep_unbound report) (fst ww),
          snd ww).
Proof.
  unfold isolate_from_report.
  destruct (_collect_warnings (rep_unbound report) w) as [warns w'].
  rewrite !py_sorted_one. reflexivity.
Qed.

End Requirements.

(** C1.  On every report both requirement fields are a list of exactly
    one element, a set, and so never a list of strings: for the report
    with no import they are [[set()]] and not the empty list, and with
    one import of [numpy] found on PyPI the first is [[{'numpy'}]]. *)
Theorem reqs_fields_hold_one_set :
  forall (is_stdlib : string -> bool) (ast_unparse : Ast.stmt -> option string)
         (self : Isolator.Isolator) (report : Isolator.Report) (w : Isolator.World),
  exists r w',
    Isolator.isolate_from_report is_stdlib ast_unparse self report w = Some (r, w')
    /\ (exists names, Isolator.reqs_pypi r = [Isolator.VSet names])
    /\ (exists names, Isolator.reqs_unknown r = [Isolator.VSet names])
    /\ (forall l : list string, Isolator.reqs_pypi r <> map Isolator.VStr l)
    /\ (forall l : list string, Isolator.reqs_unknown r <> map Isolator.VStr l).
Proof.
  intros is_stdlib ast_unparse self report w.
  rewrite isolate_from_report_returns. cbv zeta.
  eexists; eexists. split; [reflexivity |]. simpl.
  repeat split.
  - eexists; reflexivity.
  - eexists; reflexivity.
  - intros [| x l]; simpl; discriminate.
  - intros [| x l]; simpl; discriminate.
Qed.

(** ** Strings: splitting at the first dot *)

Section Split.
Import PyStr.

Lemma split1_some (sep : ascii) (m h t : string) :
  split1 sep m = (h, Some t) -> m = h ++ String sep t.
Proof.
  revert h t. induction m as [| c r IH]; simpl; intros h t E; [discriminate |].
  destruct (Ascii.eqb_spec c sep) as [-> | N].
  - injection E as <- <-. reflexivity.
  - destruct (split1 sep r) as [h' t'] eqn:S. injection E as Eh Et. subst h t'.
    simpl. f_equal. apply IH. reflexivity.
Qed.

Lemma split1_none (sep : ascii) (m h : string) :
  split1 sep m = (h, None) -> h = m.
Proof.
  revert h. induction m as [| c r IH]; simpl; intros h E.
  - injection E as <-. reflexivity.
  - destruct (Ascii.eqb c sep); [discriminate |].
    destruct (split1 sep r) as [h' t'] eqn:S. injection E as Eh Et. subst h t'.
    f_equal. apply IH. reflexivity.
Qed.

(** A separator put after a part without separator is the first one. *)
Lemma split1_append (sep : ascii) (m h t : string) :
  split1 sep m = (h, None) -> split1 sep (m ++ String sep t) = (m, Some t).
Proof.
  revert h. induction m as [| c r IH]; simpl; intros h E.
  - rewrite Ascii.eqb_refl. reflexivity.
  - destruct (Ascii.eqb c sep); [discriminate |].
    destruct (split1 sep r) as [h' t'] eqn:S. injection E as Eh Et. subst h t'.
    rewrite (IH h' eq_refl). reflexivity.
Qed.

Lemma contains_char_split1 (sep : ascii) (m : string) :
  contains (String sep EmptyString) m = false -> split1 sep m = (m, None).
Proof.
  induction m as [| c r IH]; simpl; [reflexivity |].
  intros H. apply orb_false_iff in H. destruct H as [P C].
  destruct (Ascii.eqb_spec c sep) as [-> | N].
  - destruct (ascii_dec sep sep) as [_ | F]; [| contradiction].
    destruct r; discriminate.
  - rewrite (IH C). reflexivity.
Qed.

End Split.

(** ** visitors/imported.py: star imports *)

Section StarImport.
Import Ast Types Imported Stated.

Variable is_stdlib : string -> bool.
Variable PACKAGE_DISTRIBUTIONS : dict string.
Variable ast_unparse : stmt -> option string.

(** What the visitor does on [from m import *], whatever the level:
    the alias [*] is recorded, one item is appended, and nothing is
    tracked. *)
Lemma visit_ImportFrom_star (m : string) (lvl : nat) (c : Collector) :
  visit_ImportFrom is_stdlib PACKAGE_DISTRIBUTIONS ast_unparse
    (ImportFrom (Some m) [star] lvl) c
  = match ast_unparse (ImportFrom (Some m) [star] lvl) with
    | None => None
    | Some text =>
        Some (mk_Collector
                (_imported_alias c ++ ["*"])
                (_import_items c
                 ++ [star_item is_stdlib PACKAGE_DISTRIBUTIONS m lvl text])
                (_dynamic_ref c))
    end.
Proof.
  unfold visit_ImportFrom, star_item, star_alias, star_parts.
  destruct (PyStr.truthy m).
  - destruct (_parse_submodule m) as [top sub]. reflexivity.
  - reflexivity.
Qed.

(** The same on a star import that names no module. *)
Lemma visit_ImportFrom_star_nameless (lvl : nat) (c : Collector) :
  visit_ImportFrom is_stdlib PACKAGE_DISTRIBUTIONS ast_unparse
    (ImportFrom None [star] lvl) c
  = match ast_unparse (ImportFrom None [star] lvl) with
    | None => None
    | Some text =>
        Some (mk_Collector
                (_imported_alias c ++ ["*"])
                (_import_items c ++ [star_item_nameless lvl text])
                (_dynamic_ref c))
    end.
Proof. reflexivity. Qed.

Lemma star_parts_dotted (top s : string) :
  PyStr.contains "." top = false ->
  star_parts (top ++ "." ++ s) = (Some top, Some s).
Proof.
  intros H. unfold star_parts, _parse_submodule.
  change (top ++ "." ++ s) with (top ++ String "." s).
  rewrite (split1_append "." top top s (contains_char_split1 _ _ H)).
  destruct top; reflexivity.
Qed.

Lemma star_parts_single (m : string) :
  m <> "" -> PyStr.contains "." m = false -> star_parts m = (Some m, None).
Proof.
  intros N H. unfold star_parts, _parse_submodule.
  rewrite (contains_char_split1 _ _ H).
  destruct m; [contradiction | reflexivity].
Qed.

Lemma truthy_not_empty (s : string) : s <> "" -> PyStr.truthy s = true.
Proof. destruct s; [contradiction | reflexivity]. Qed.

Lemma star_prefix_inj (x y : string) : "*_" ++ x = "*_" ++ y -> x = y.
Proof. simpl. intros E. injection E as E. exact E. Qed.

(** Two module names with the same alias are the same name, unless the
    part after the first dot of one of them is the word [None], which no
    parsed import has, [None] being a keyword. *)
Lemma star_alias_inj (m m' : string) :
  m <> "" -> m' <> "" ->
  snd (star_parts m) <> Some "None" ->
  snd (star_parts m') <> Some "None" ->
  star_alias m = star_alias m' -> m = m'.
Proof.
  intros N N'. unfold star_alias, star_parts, _parse_submodule.
  rewrite (truthy_not_empty m N), (truthy_not_empty m' N').
  destruct (PyStr.split1 "." m) as [h [t |]] eqn:S;
    destruct (PyStr.split1 "." m') as [h' [t' |]] eqn:S';
    cbn [fst snd PyStr.str_of_opt]; intros Ht Ht' E;
    apply star_prefix_inj in E.
  - rewrite (split1_some _ _ _ _ S), (split1_some _ _ _ _ S'). exact E.
  - exfalso. apply Ht.
    assert (M : m = m' ++ String "." "None")
      by (rewrite (split1_some _ _ _ _ S); exact E).
    rewrite M, (split1_append "." _ _ "None" S') in S.
    injection S as _ S. rewrite S. reflexivity.
  - exfalso. apply Ht'.
    assert (M : m' = m ++ String "." "None")
      by (rewrite (split1_some _ _ _ _ S'); symmetry; exact E).
    rewrite M, (split1_append "." _ _ "None" S) in S'.
    injection S' as _ S'. rewrite S'. reflexivity.
  - assert (Q : PyStr.split1 "." (m ++ String "." "None")
                = PyStr.split1 "." (m' ++ String "." "None"))
      by (f_equal; exact E).
    rewrite (split1_append "." _ _ "None" S),
      (split1_append "." _ _ "None" S') in Q.
    injection Q as Q. exact Q.
Qed.

End StarImport.

(** C5, as amended.  On [from m import *], at any level, the visitor
    records the alias [*] and appends one item (when the statement can
    be unparsed) that is static, has [use_star = True], the level and
    the text of the statement, and whose only alias is [*_m.<sub>], [m]
    being the name up to its first dot and [<sub>] the rest: [*_m.s] for
    the module [m.s], and [*_m.None] for a module [m] of one segment,
    whose sub-module is [None]; a star import that names no module gets
    [*_None.None].  The level is no part of the alias.  Two module names
    with the same alias are equal, the names whose sub-module is the
    keyword [None] left out. *)
Theorem star_import_synthesized_alias :
  forall (is_stdlib : string -> bool) (table : Types.dict string)
         (ast_unparse : Ast.stmt -> option string)
         (m : string) (lvl : nat) (c : Imported.Collector),
    Imported.visit_ImportFrom is_stdlib table ast_unparse
      (Ast.ImportFrom (Some m) [Stated.star] lvl) c
    = match ast_unparse (Ast.ImportFrom (Some m) [Stated.star] lvl) with
      | None => None
      | Some text =>
          Some (Imported.mk_Collector
                  (Imported._imported_alias c ++ ["*"])
                  (Imported._import_items c
                   ++ [Stated.star_item is_stdlib table m lvl text])
                  (Imported._dynamic_ref c))
      end
    /\ Imported.visit_ImportFrom is_stdlib table ast_unparse
         (Ast.ImportFrom None [Stated.star] lvl) c
       = match ast_unparse (Ast.ImportFrom None [Stated.star] lvl) with
         | None => None
         | Some text =>
             Some (Imported.mk_Collector
                     (Imported._imported_alias c ++ ["*"])
                     (Imported._import_items c
                      ++ [Stated.star_item_nameless lvl text])
                     (Imported._dynamic_ref c))
         end
    /\ (forall text,
          Types.use_star (Stated.star_item is_stdlib table m lvl text) = true
          /\ Types.is_dynamic (Stated.star_item is_stdlib table m lvl text) = false
          /\ Types.level (Stated.star_item is_stdlib table m lvl text) = Some lvl
          /\ Types.code (Stated.star_item is_stdlib table m lvl text) = text
          /\ Types.names (Stated.star_item is_stdlib table m lvl text)
             = [(Stated.star_alias m, "*")])
    /\ (forall top s,
          PyStr.contains "." top = false -> m = top ++ "." ++ s ->
          Stated.star_alias m = "*_" ++ top ++ "." ++ s)
    /\ (m <> "" -> PyStr.contains "." m = false ->
        Stated.star_alias m = "*_" ++ m ++ ".None")
    /\ (forall m',
          m <> "" -> m' <> "" ->
          snd (Stated.star_parts m) <> Some "None" ->
          snd (Stated.star_parts m') <> Some "None" ->
          Stated.star_alias m = Stated.star_alias m' -> m = m').
Proof.
  intros is_stdlib table ast_unparse m lvl c.
  split; [apply visit_ImportFrom_star |].
  split; [apply visit_ImportFrom_star_nameless |].
  split; [intros text; repeat split; reflexivity |].
  split; [| split].
  - intros top s H ->. unfold Stated.star_alias.
    rewrite (star_parts_dotted top s H). reflexivity.
  - intros N H. unfold Stated.star_alias.
    rewrite (star_parts_single m N H). reflexivity.
  - intros m'. apply star_alias_inj.
Qed.

Lemma star_import_synthesized_alias_witness :
  Stated.star_alias "os.path" = "*_os.path"
  /\ Stated.star_alias "math" = "*_math.None"
  /\ (Stated.star_alias "os.path" = Stated.star_alias "math" -> "os.path" = "math").
Proof.
  destruct (star_import_synthesized_alias (fun _ => true) []
              (fun _ => Some "from os.path import *") "os.path" 0 Imported.init)
    as (_ & _ & _ & D & _ & U).
  destruct (star_import_synthesized_alias (fun _ => true) []
              (fun _ => Some "from math import *") "math" 0 Imported.init)
    as (_ & _ & _ & _ & S & _).
  split; [| split].
  - apply (D "os" "path"); reflexivity.
  - apply S; [discriminate | reflexivity].
  - apply U; simpl; discriminate.
Defined.

(** C5, as stated, fails: the star aliases are not unique across
    modules.  The module [a] and the module [a] of the current package
    ([from a import *] and [from .a import *]) get the same alias
    [*_a.None], so the dictionary [imported] has one entry for the two,
    that of the second statement. *)
Lemma star_aliases_collide :
  exists c it0 it1,
    Imported.ImportCollector (fun _ => false) [] Stated.unparse_stars
      (fun text => text) Stated.two_stars = Some c
    /\ Imported._import_items c = [it0; it1]
    /\ Types.code it0 = "from a import *" /\ Types.level it0 = Some 0%nat
    /\ Types.code it1 = "from .a import *" /\ Types.level it1 = Some 1%nat
    /\ Types.keys (Types.names it0) = ["*_a.None"]
    /\ Types.keys (Types.names it1) = ["*_a.None"]
    /\ Types.keys (Imported.imported c) = ["*_a.None"]
    /\ Types.dict_get "*_a.None" (Imported.imported c) = Some it1.
Proof.
  eexists. eexists. eexists.
  split; [reflexivity |].
  split; [reflexivity |].
  repeat split; reflexivity.
Qed.

(** ** visitors/imported.py: dynamic imports *)

Section DynamicImport.
Import Ast Types Imported Stated.

Variable is_stdlib : string -> bool.
Variable PACKAGE_DISTRIBUTIONS : dict string.
Variable ast_unparse : stmt -> option string.
Variable dedent : string -> string.

Lemma mem_In (x : string) (l : list string) : PyStr.mem x l = true <-> In x l.
Proof using.
  unfold PyStr.mem. rewrite existsb_exists. split.
  - intros [y [Hy E]]. apply String.eqb_eq in E. subst y. exact Hy.
  - intros H. exists x. split; [exact H | apply String.eqb_refl].
Qed.

(** The keyword loop keeps the last [package] literal. *)
Lemma keyword_loop_override (keywords : list (option string * expr))
  (module : string) (submodule : option string) :
  keyword_loop keywords module submodule
  = match package_override keywords with
    | Some p => _parse_submodule p
    | None => (module, submodule)
    end.
Proof using.
  revert module submodule.
  induction keywords as [| [arg value] rest IH]; intros module submodule;
    [reflexivity |].
  destruct arg as [arg |]; [| simpl; apply IH].
  destruct value as [id | v attr | k | f a kw | ch]; try (simpl; apply IH).
  destruct k as [p | p | n | b |]; try (simpl; apply IH).
  simpl. destruct (arg =? "package").
  - destruct (_parse_submodule p) as [m s] eqn:P. rewrite IH.
    destruct (package_override rest); [reflexivity | symmetry; exact P].
  - rewrite IH. destruct (package_override rest); reflexivity.
Qed.

(** What the visitor does on [asname = func(args, keywords)]. *)
Lemma visit_Assign_call (asname : string) (func : expr) (args : list expr)
  (keywords : list (option string * expr)) (c : Collector) :
  let node := Assign [Name asname] (Call func args keywords) in
  visit_Assign is_stdlib PACKAGE_DISTRIBUTIONS ast_unparse dedent node c
  = match args with
    | Constant (CStr lit) :: _ =>
        if name_test c func
        then match ast_unparse node with
             | None => None
             | Some text =>
                 Some (add_item
                         (dynamic_item is_stdlib PACKAGE_DISTRIBUTIONS asname lit
                            keywords (dedent text))
                         (add_alias asname c))
             end
        else Some c
    | _ => Some c
    end.
Proof.
  intros node. unfold node, visit_Assign, _parse_func_name, name_test.
  destruct (func_name_of func) as [fn |].
  2:{ destruct args as [| [| | [] | |] ?]; reflexivity. }
  destruct (PyStr.mem fn (_dynamic_ref c) || PyStr.contains "__import__" fn
            || PyStr.contains "import_module" fn).
  2:{ destruct args as [| [| | [] | |] ?]; reflexivity. }
  destruct args as [| [id | v attr | k | f a kw | ch] rest]; try reflexivity.
  destruct k as [lit | p | n | b |]; try reflexivity.
  unfold dynamic_item, dynamic_parts.
  destruct (_parse_submodule lit) as [m0 s0] eqn:P.
  rewrite keyword_loop_override.
  destruct (package_override keywords) as [p |].
  - destruct (_parse_submodule p) as [m s]. reflexivity.
  - reflexivity.
Qed.



End DynamicImport.




(** ** Strings: appending, stripping, joining *)

Section Strings.
Import PyStr.

Lemma append_assoc (a b c : string) : (a ++ b) ++ c = a ++ b ++ c.
Proof. induction a as [| x a IH]; simpl; [reflexivity | now rewrite IH]. Qed.

Lemma append_nil_r (a : string) : a ++ "" = a.
Proof. induction a as [| x a IH]; simpl; [reflexivity | now rewrite IH]. Qed.

Lemma infix_of_refl (s : string) : infix_of s s.
Proof. exists "", "". simpl. now rewrite append_nil_r. Qed.

Lemma infix_of_empty (s : string) : infix_of "" s.
Proof. exists "", s. reflexivity. Qed.

Lemma infix_of_trans (a b c : string) : infix_of a b -> infix_of b c -> infix_of a c.
Proof.
  intros [p [q ->]] [p' [q' ->]]. exists (p' ++ p), (q ++ q').
  now rewrite !append_assoc.
Qed.

Lemma infix_of_app_l (t a b : string) : infix_of t a -> infix_of t (a ++ b).
Proof.
  intros [p [q ->]]. exists p, (q ++ b). now rewrite !append_assoc.
Qed.

Lemma infix_of_app_r (t a b : string) : infix_of t b -> infix_of t (a ++ b).
Proof.
  intros [p [q ->]]. exists (a ++ p), q. now rewrite !append_assoc.
Qed.

(** What is stripped is a suffix. *)
Lemma rstrip_prefix (s : string) : exists w, s = rstrip s ++ w.
Proof.
  induction s as [| c r [w IH]]; [exists ""; reflexivity |].
  simpl. destruct (rstrip r) as [| d r'] eqn:R.
  - destruct (isspace c).
    + exists (String c r). reflexivity.
    + exists w. simpl in IH. simpl. now rewrite <- IH.
  - exists w. simpl. simpl in IH. now rewrite <- IH.
Qed.

(** Stripping a concatenation. *)
Lemma rstrip_app (a b : string) :
  rstrip (a ++ b)
  = match rstrip b with
    | EmptyString => rstrip a
    | String _ _ => a ++ rstrip b
    end.
Proof.
  induction a as [| c a IH]; simpl.
  - destruct (rstrip b); reflexivity.
  - rewrite IH. destruct (rstrip b) as [| e r] eqn:B.
    + reflexivity.
    + destruct a; reflexivity.
Qed.

Lemma rstrip_idem (s : string) : rstrip (rstrip s) = rstrip s.
Proof.
  induction s as [| c r IH]; [reflexivity |].
  simpl. destruct (rstrip r) as [| d r'] eqn:R.
  - destruct (isspace c) eqn:W; simpl; [reflexivity | now rewrite W].
  - simpl in IH |- *. now rewrite IH.
Qed.

(** A part of a text is, stripped, a part of the stripped text. *)
Lemma infix_of_rstrip (t s : string) :
  infix_of t s -> infix_of (rstrip t) (rstrip s).
Proof.
  intros [pre [post ->]]. rewrite rstrip_app.
  destruct (rstrip (t ++ post)) as [| x X] eqn:E.
  - rewrite rstrip_app in E. destruct (rstrip post).
    + rewrite E. apply infix_of_empty.
    + destruct t; discriminate.
  - rewrite <- E. apply infix_of_app_r. rewrite rstrip_app.
    destruct (rstrip post) as [| y Y].
    + apply infix_of_refl.
    + destruct (rstrip_prefix t) as [w Hw].
      exists "", (w ++ String y Y). simpl. rewrite <- append_assoc, <- Hw.
      reflexivity.
Qed.

Lemma join_cons (sep x : string) (l : list string) :
  join sep (x :: l) = match l with [] => x | _ :: _ => x ++ sep ++ join sep l end.
Proof. reflexivity. Qed.

(** Each part is in the joined text. *)
Lemma infix_of_join (sep x : string) (l : list string) :
  In x l -> infix_of x (join sep l).
Proof.
  induction l as [| y l IH]; [contradiction |].
  intros [-> | H]; rewrite join_cons; destruct l as [| z l].
  - apply infix_of_refl.
  - apply infix_of_app_l, infix_of_refl.
  - contradiction.
  - apply infix_of_app_r, infix_of_app_r, IH, H.
Qed.

(** After the first part, each part follows the separator. *)
Lemma infix_of_join_sep (sep x : string) (l : list string) :
  In x l -> infix_of (sep ++ x) (sep ++ join sep l).
Proof.
  induction l as [| y l IH]; [contradiction |].
  intros [-> | H]; rewrite join_cons; destruct l as [| z l].
  - apply infix_of_refl.
  - exists "", (sep ++ join sep (z :: l)). simpl. now rewrite append_assoc.
  - contradiction.
  - apply infix_of_app_r, infix_of_app_r, IH, H.
Qed.

Lemma join_app (sep : string) (l1 l2 : list string) :
  l1 <> [] -> l2 <> [] ->
  join sep (l1 ++ l2)%list = join sep l1 ++ sep ++ join sep l2.
Proof.
  intros N1 N2. induction l1 as [| x l1 IH]; [contradiction |].
  destruct l1 as [| y l1].
  - simpl. destruct l2; [contradiction | reflexivity].
  - change (join sep ((x :: y :: l1) ++ l2)%list)
      with (x ++ sep ++ join sep ((y :: l1) ++ l2)%list).
    rewrite IH by discriminate.
    rewrite (join_cons sep x (y :: l1)). now rewrite !append_assoc.
Qed.

Lemma truthy_true (s : string) : truthy s = true <-> s <> "".
Proof. destruct s; simpl; split; congruence. Qed.

End Strings.

(** ** Orders: the comparisons are total orders *)

Lemma ascii_compare_refl (a : ascii) : Ascii.compare a a = Eq.
Proof. unfold Ascii.compare. apply N.compare_refl. Qed.

Lemma ascii_compare_trans (a b c : ascii) :
  Ascii.compare a b = Lt -> Ascii.compare b c = Lt -> Ascii.compare a c = Lt.
Proof.
  unfold Ascii.compare. rewrite !N.compare_lt_iff. apply N.lt_trans.
Qed.

#[global] Instance string_TotalCmp : TotalCmp String.compare.
Proof.
  split.
  - apply String.compare_eq_iff.
  - induction a as [| c a IH]; simpl; [reflexivity |].
    now rewrite ascii_compare_refl.
  - apply String.compare_antisym.
  - induction a as [| x a IH]; intros [| y b] [| z c]; simpl; try congruence.
    destruct (Ascii.compare x y) eqn:XY; try discriminate;
      destruct (Ascii.compare y z) eqn:YZ; try discriminate; intros H1 H2.
    + apply Ascii.compare_eq_iff in XY, YZ. subst y z.
      rewrite ascii_compare_refl. eapply IH; eassumption.
    + apply Ascii.compare_eq_iff in XY. subst y. now rewrite YZ.
    + apply Ascii.compare_eq_iff in YZ. subst z. now rewrite XY.
    + now rewrite (ascii_compare_trans x y z XY YZ).
Qed.

#[global] Instance bool_TotalCmp : TotalCmp bool_compare.
Proof.
  split.
  - intros [] []; simpl; congruence.
  - intros []; reflexivity.
  - intros [] []; reflexivity.
  - intros [] [] []; simpl; congruence.
Qed.

#[global] Instance lex_TotalCmp {A B : Type} (cmpA : A -> A -> comparison)
  (cmpB : B -> B -> comparison) `{!TotalCmp cmpA} `{!TotalCmp cmpB} :
  TotalCmp (lex cmpA cmpB).
Proof.
  split.
  - intros [a b] [a' b']. unfold lex. simpl.
    destruct (cmpA a a') eqn:E; try discriminate.
    intros H. apply cmp_eq in E, H. now subst.
  - intros [a b]. unfold lex. simpl. now rewrite !cmp_refl.
  - intros [a b] [a' b']. unfold lex. simpl.
    rewrite (cmp_antisym a a'). destruct (cmpA a' a); simpl; try reflexivity.
    apply cmp_antisym.
  - intros [a b] [a' b'] [a'' b'']. unfold lex. simpl.
    destruct (cmpA a a') eqn:E1; try discriminate;
      destruct (cmpA a' a'') eqn:E2; try discriminate; intros H1 H2.
    + apply cmp_eq in E1, E2. subst. rewrite cmp_refl.
      eapply cmp_trans; eassumption.
    + apply cmp_eq in E1. subst. now rewrite E2.
    + apply cmp_eq in E2. subst. now rewrite E1.
    + now rewrite (cmp_trans _ _ _ E1 E2).
Qed.

Section Orders.

Context {A : Type} (cmp : A -> A -> comparison) `{!TotalCmp cmp}.

Lemma ltb_of_asym (a b : A) : ltb_of cmp a b = true -> ltb_of cmp b a = false.
Proof.
  unfold ltb_of. rewrite (cmp_antisym b a). destruct (cmp a b); simpl; congruence.
Qed.

Lemma ltb_of_negtrans (a b c : A) :
  ltb_of cmp b a = false -> ltb_of cmp c b = false -> ltb_of cmp c a = false.
Proof.
  unfold ltb_of. intros H1 H2.
  destruct (cmp c a) eqn:CA; try reflexivity. exfalso.
  destruct (cmp c b) eqn:CB; try discriminate.
  - apply cmp_eq in CB. subst c. rewrite CA in H1. discriminate.
  - destruct (cmp b a) eqn:BA; try discriminate.
    + apply cmp_eq in BA. subst b. rewrite CA in CB. discriminate.
    + rewrite (cmp_antisym c b) in CB. rewrite (cmp_antisym b a) in BA.
      destruct (cmp b c) eqn:BC; try discriminate.
      destruct (cmp a b) eqn:AB; try discriminate.
      pose proof (cmp_trans _ _ _ AB BC) as AC.
      rewrite (cmp_antisym c a), AC in CA. discriminate.
Qed.

End Orders.

(** ** Sorting: [list.sort] and [sorted] *)

Section Sorting.

Context {A : Type} (lt : A -> A -> bool).

Let le_of := le_of lt.

Lemma insert_by_perm (x : A) (l : list A) :
  Permutation (Isolator.insert_by lt x l) (x :: l).
Proof.
  induction l as [| y r IH]; simpl; [apply Permutation_refl |].
  destruct (lt y x); [| apply Permutation_refl].
  eapply Permutation_trans; [apply perm_skip, IH | apply perm_swap].
Qed.

Lemma sort_by_perm (l : list A) : Permutation (Isolator.sort_by lt l) l.
Proof.
  induction l as [| x r IH]; simpl; [apply perm_nil |].
  eapply Permutation_trans; [apply insert_by_perm | apply perm_skip, IH].
Qed.

Lemma sort_by_In (x : A) (l : list A) : In x (Isolator.sort_by lt l) <-> In x l.
Proof.
  split; apply Permutation_in;
    [apply sort_by_perm | apply Permutation_sym, sort_by_perm].
Qed.

Hypothesis lt_asym : forall a b, lt a b = true -> lt b a = false.
Hypothesis lt_negtrans :
  forall a b c, lt b a = false -> lt c b = false -> lt c a = false.

Lemma insert_by_sorted (x : A) (l : list A) :
  StronglySorted le_of l -> StronglySorted le_of (Isolator.insert_by lt x l).
Proof.
  induction 1 as [| y r S IH F]; simpl.
  - constructor; [constructor | constructor].
  - destruct (lt y x) eqn:E.
    + constructor; [exact IH |].
      eapply Permutation_Forall; [apply Permutation_sym, insert_by_perm |].
      constructor; [apply lt_asym, E | exact F].
    + constructor; [constructor; assumption |].
      constructor; [exact E |].
      eapply Forall_impl; [| exact F].
      intros z Hz. unfold le_of in *. eapply lt_negtrans; eassumption.
Qed.

Lemma sort_by_sorted (l : list A) : StronglySorted le_of (Isolator.sort_by lt l).
Proof.
  induction l as [| x r IH]; simpl; [constructor | now apply insert_by_sorted].
Qed.

Lemma filter_sorted (p : A -> bool) (l : list A) :
  StronglySorted le_of l -> StronglySorted le_of (filter p l).
Proof.
  induction 1 as [| y r S IH F]; simpl; [constructor |].
  destruct (p y); [| exact IH].
  constructor; [exact IH |].
  apply Forall_forall. intros z Hz. apply filter_In in Hz.
  rewrite Forall_forall in F. apply F, Hz.
Qed.

(** Filtering a sorted list and inserting commute. *)
Lemma filter_insert_by (p : A -> bool) (x : A) (l : list A) :
  StronglySorted le_of l ->
  filter p (Isolator.insert_by lt x l)
  = if p x then Isolator.insert_by lt x (filter p l) else filter p l.
Proof.
  induction 1 as [| y r S IH F]; simpl.
  - destruct (p x); reflexivity.
  - destruct (lt y x) eqn:E; simpl.
    + rewrite IH. destruct (p y), (p x); simpl; try rewrite E; reflexivity.
    + destruct (p x) eqn:Px; [| reflexivity].
      destruct (p y) eqn:Py; simpl; [now rewrite E |].
      f_equal. destruct (filter p r) as [| z r'] eqn:R; [reflexivity |].
      simpl. assert (Hz : In z r).
      { assert (Q : In z (filter p r)) by (rewrite R; left; reflexivity).
        apply filter_In in Q. apply Q. }
      rewrite Forall_forall in F. specialize (F z Hz). unfold le_of in F.
      now rewrite (lt_negtrans x y z E F).
Qed.

(** Sorting and filtering commute, the sort being stable. *)
Lemma filter_sort_by (p : A -> bool) (l : list A) :
  filter p (Isolator.sort_by lt l) = Isolator.sort_by lt (filter p l).
Proof.
  induction l as [| x r IH]; simpl; [reflexivity |].
  rewrite filter_insert_by by apply sort_by_sorted.
  destruct (p x); simpl; now rewrite IH.
Qed.

End Sorting.

(** ** isolator.py: the import lines *)

Section ImportLines.
Import Types Isolator Stated.

Lemma key_lt_compare (a b : bool * string * string) :
  key_lt a b = ltb_of key_compare a b.
Proof.
  destruct a as [[d1 m1] c1], b as [[d2 m2] c2].
  unfold key_lt, ltb_of, key_compare, lex. simpl.
  destruct d1, d2; simpl; try reflexivity;
    (destruct (String.eqb_spec m1 m2) as [-> | N];
     [ rewrite (cmp_refl (cmp := String.compare)); reflexivity
     | unfold String.ltb; destruct (String.compare m1 m2) eqn:E; try reflexivity;
       apply String.compare_eq_iff in E; contradiction ]).
Qed.

Lemma item_lt_asym (a b : ImportItem) : item_lt a b = true -> item_lt b a = false.
Proof.
  unfold item_lt. rewrite !key_lt_compare.
  apply (ltb_of_asym key_compare).
Qed.

Lemma item_lt_negtrans (a b c : ImportItem) :
  item_lt b a = false -> item_lt c b = false -> item_lt c a = false.
Proof.
  unfold item_lt. rewrite !key_lt_compare.
  apply (ltb_of_negtrans key_compare).
Qed.

(** The key that the code sorts by is the key of the item. *)
Lemma sort_key_key_of (it : ImportItem) : sort_key it = key_of it.
Proof.
  unfold sort_key, key_of, module_name, PyStr.str_of_opt.
  destruct (module it); reflexivity.
Qed.

(** An item that is not below another one has a key that is not below
    the key of the other. *)
Lemma item_lt_key_le (a b : ImportItem) : item_lt b a = false -> key_le a b.
Proof.
  unfold item_lt, key_le.
  rewrite key_lt_compare, (sort_key_key_of a), (sort_key_key_of b).
  unfold ltb_of. rewrite (cmp_antisym (cmp := key_compare) (key_of a) (key_of b)).
  destruct (key_compare (key_of b) (key_of a)); simpl; congruence.
Qed.

Lemma StronglySorted_impl {A : Type} (R R' : A -> A -> Prop) (l : list A) :
  (forall a b, R a b -> R' a b) -> StronglySorted R l -> StronglySorted R' l.
Proof.
  intros H. induction 1 as [| x r S IH F]; constructor; [exact IH |].
  eapply Forall_impl; [| exact F]. intros y. apply H.
Qed.

(** The sorted items are in the order of their keys. *)
Lemma sort_items_sorted (items : list ImportItem) :
  StronglySorted key_le (sort_by item_lt items).
Proof.
  eapply StronglySorted_impl;
    [| apply (sort_by_sorted item_lt item_lt_asym item_lt_negtrans)].
  intros a b. apply item_lt_key_le.
Qed.

(** The lines appended are the lines of [emit_items]. *)
Lemma emit_lines_items (keep : bool) (items : list ImportItem)
  (seen lines : list string) :
  emit_lines keep items seen lines
  = (lines ++ map line_of (emit_items keep items seen))%list.
Proof.
  revert seen lines. induction items as [| imp rest IH]; intros seen lines; simpl.
  - now rewrite app_nil_r.
  - destruct (is_dynamic imp && negb keep); [apply IH |].
    fold (line_of imp).
    destruct (PyStr.truthy (line_of imp) && negb (PyStr.mem (line_of imp) seen)).
    + rewrite IH. simpl. now rewrite <- app_assoc.
    + apply IH.
Qed.

(** Each item that gives a line is one of the items, has a line that is
    not empty and not yet seen, and is static when dynamic imports are
    dropped. *)
Lemma emit_items_spec (keep : bool) (items : list ImportItem) (seen : list string) :
  Forall (fun it => In it items /\ line_of it <> ""
                    /\ ~ In (line_of it) seen
                    /\ (keep = false -> is_dynamic it = false))
    (emit_items keep items seen).
Proof.
  revert seen. induction items as [| imp rest IH]; intros seen; simpl;
    [constructor |].
  assert (Weak : forall seen',
             (forall x, In x seen -> In x seen') ->
             Forall (fun it => In it (imp :: rest) /\ line_of it <> ""
                               /\ ~ In (line_of it) seen
                               /\ (keep = false -> is_dynamic it = false))
               (emit_items keep rest seen')).
  { intros seen' Sub. eapply Forall_impl; [| apply (IH seen')].
    intros it (I & L & S & K). repeat split; auto. now right. }
  destruct (is_dynamic imp && negb keep) eqn:D; [apply Weak; auto |].
  destruct (PyStr.truthy (line_of imp) && negb (PyStr.mem (line_of imp) seen)) eqn:T.
  - apply andb_true_iff in T. destruct T as [T M].
    constructor.
    + repeat split.
      * now left.
      * now apply truthy_true.
      * intros H. apply mem_In in H. rewrite H in M. discriminate.
      * intros ->. rewrite andb_true_r in D. exact D.
    + apply Weak. intros x H. now right.
  - apply Weak; auto.
Qed.

(** No line is given twice. *)
Lemma emit_items_NoDup (keep : bool) (items : list ImportItem) (seen : list string) :
  NoDup (map line_of (emit_items keep items seen)).
Proof.
  revert seen. induction items as [| imp rest IH]; intros seen; simpl;
    [constructor |].
  destruct (is_dynamic imp && negb keep); [apply IH |].
  destruct (PyStr.truthy (line_of imp) && negb (PyStr.mem (line_of imp) seen));
    [| apply IH].
  simpl. constructor; [| apply IH].
  intros H. apply in_map_iff in H. destruct H as [it [E H]].
  pose proof (emit_items_spec keep rest (line_of imp :: seen)) as F.
  rewrite Forall_forall in F. destruct (F it H) as (_ & _ & S & _).
  apply S. left. symmetry. exact E.
Qed.

(** The items that give a line keep the order of the items. *)
Lemma emit_items_sorted (R : ImportItem -> ImportItem -> Prop) (keep : bool)
  (items : list ImportItem) (seen : list string) :
  StronglySorted R items -> StronglySorted R (emit_items keep items seen).
Proof.
  intros S. revert seen. induction S as [| imp rest S IH F]; intros seen; simpl;
    [constructor |].
  destruct (is_dynamic imp && negb keep); [apply IH |].
  destruct (PyStr.truthy (line_of imp) && negb (PyStr.mem (line_of imp) seen));
    [| apply IH].
  constructor; [apply IH |].
  apply Forall_forall. intros it H.
  pose proof (emit_items_spec keep rest (line_of imp :: seen)) as G.
  rewrite Forall_forall in G. destruct (G it H) as (I & _).
  rewrite Forall_forall in F. apply F, I.
Qed.

(** Every kept item with a line that is not empty has its line in the
    output, or its line was seen before. *)
Lemma emit_items_complete (keep : bool) (items : list ImportItem)
  (seen : list string) (it : ImportItem) :
  In it items ->
  keep = true \/ is_dynamic it = false ->
  line_of it <> "" ->
  In (line_of it) seen \/ In (line_of it) (map line_of (emit_items keep items seen)).
Proof.
  intros I K L. revert seen.
  induction items as [| imp rest IH]; intros seen; [contradiction |].
  simpl. destruct I as [-> | I].
  - assert (D : is_dynamic it && negb keep = false).
    { destruct K as [-> | ->]; [apply andb_false_r | reflexivity]. }
    rewrite D. apply truthy_true in L. rewrite L. simpl.
    destruct (PyStr.mem (line_of it) seen) eqn:M; simpl.
    + left. now apply mem_In.
    + right. now left.
  - destruct (is_dynamic imp && negb keep); [now apply IH |].
    destruct (PyStr.truthy (line_of imp) && negb (PyStr.mem (line_of imp) seen)).
    + destruct (IH I (line_of imp :: seen)) as [[E | H] | H].
      * right. left. exact E.
      * now left.
      * right. right. exact H.
    + now apply IH.
Qed.

(** With dynamic imports dropped, the dynamic items could as well be
    absent. *)
Lemma emit_lines_drop (keep : bool) (items : list ImportItem)
  (seen lines : list string) :
  emit_lines false items seen lines
  = emit_lines keep (filter static items) seen lines.
Proof.
  revert seen lines. induction items as [| imp rest IH]; intros seen lines;
    [reflexivity |].
  simpl. unfold static at 1. destruct (is_dynamic imp) eqn:D; simpl.
  - apply IH.
  - rewrite D. simpl.
    destruct (PyStr.truthy (PyStr.rstrip (code imp))
              && negb (PyStr.mem (PyStr.rstrip (code imp)) seen)); apply IH.
Qed.

Lemma flatten_drop_dynamic (imports_by_module : dict (dict ImportItem)) :
  flatten_imports (drop_dynamic imports_by_module)
  = filter static (flatten_imports imports_by_module).
Proof.
  unfold flatten_imports, drop_dynamic, values.
  induction imports_by_module as [| [k d] rest IH]; [reflexivity |].
  simpl. rewrite filter_app, IH. f_equal.
  clear. induction d as [| [a it] d IH]; [reflexivity |].
  simpl. destruct (static it); simpl; now rewrite IH.
Qed.

(** The import lines with [keep_dynamic_imports = False] are the import
    lines of the report without its dynamic items. *)
Lemma collect_import_lines_drop (sort keep : bool)
  (imports_by_module : dict (dict ImportItem)) :
  _collect_import_lines (mk_Isolator sort false) imports_by_module
  = _collect_import_lines (mk_Isolator sort keep) (drop_dynamic imports_by_module).
Proof.
  unfold _collect_import_lines. simpl. rewrite flatten_drop_dynamic.
  destruct sort.
  - rewrite (emit_lines_drop keep).
    now rewrite (filter_sort_by item_lt item_lt_asym item_lt_negtrans).
  - apply emit_lines_drop.
Qed.

(** A list sorted by the keys has its static items first. *)
Lemma sorted_static_first (its : list ImportItem) :
  StronglySorted key_le its ->
  its = (filter static its ++ filter is_dynamic its)%list.
Proof.
  induction 1 as [| x r S IH F]; [reflexivity |].
  simpl. unfold static at 1. destruct (is_dynamic x) eqn:D; simpl.
  - assert (All : Forall (fun y => is_dynamic y = true) r).
    { eapply Forall_impl; [| exact F]. intros y H.
      unfold key_le, key_compare, key_of, lex in H. cbn [fst snd] in H.
      rewrite D in H.
      destruct (is_dynamic y); [reflexivity |].
      exfalso. apply H. reflexivity. }
    assert (E1 : filter static r = []).
    { clear - All. induction All as [| y r Hy _ IH']; [reflexivity |].
      simpl. unfold static at 1. now rewrite Hy. }
    assert (E2 : filter is_dynamic r = r).
    { clear - All. induction All as [| y r Hy _ IH']; [reflexivity |].
      simpl. rewrite Hy. now f_equal. }
    now rewrite E1, E2.
  - now rewrite <- IH.
Qed.

End ImportLines.

(** ** isolator.py: the rendered text *)

Section Rendering.
Import Types Isolator Stated.

Variable is_stdlib : string -> bool.
Variable ast_unparse : Ast.stmt -> option string.

Lemma section_join (sep : string) (lines : list string) :
  section sep lines = PyStr.join sep lines.
Proof using. destruct lines; reflexivity. Qed.

(** The text before the final strip, by its four parts. *)
Lemma final_code_parts (self : Isolator) (report : Report) :
  final_code ast_unparse self report
  = PyStr.join nl2
      (filter PyStr.truthy
         [ imports_text self report; vars_text report;
           PyStr.join nl2 (class_lines ast_unparse report
                           ++ func_lines ast_unparse report) ]).
Proof.
  unfold final_code. rewrite !section_join. reflexivity.
Qed.

(** A section is a part of the text. *)
Lemma infix_of_sections (sep sec : string) (l : list string) :
  In sec l -> PyStr.infix_of sec (PyStr.join sep (filter PyStr.truthy l)).
Proof using.
  intros H. destruct (PyStr.truthy sec) eqn:T.
  - apply infix_of_join. apply filter_In. split; assumption.
  - destruct sec; [apply infix_of_empty | discriminate].
Qed.

Lemma with_typehints_incl (th : dict string) (l : list string) (x : string) :
  In x l -> In x (with_typehints th l).
Proof using.
  intros H. destruct th; simpl; [exact H |].
  right. apply in_or_app. left. exact H.
Qed.

(** An import line is a part of the text. *)
Lemma import_line_in_final (self : Isolator) (report : Report) (x : string) :
  In x (_collect_import_lines self (imports report)) ->
  PyStr.infix_of x (final_code ast_unparse self report).
Proof.
  intros H. rewrite final_code_parts.
  eapply infix_of_trans; [| apply infix_of_sections; left; reflexivity].
  apply infix_of_join, with_typehints_incl, H.
Qed.

Lemma def_line_collected (items : list DefItem) (d : DefItem) :
  In d items ->
  In (_unparse_or_fallback ast_unparse d) (_collect_def_lines ast_unparse items).
Proof.
  intros H. unfold _collect_def_lines. apply in_or_app.
  destruct (is_class d) eqn:C; [left | right]; apply in_map, filter_In;
    split; try assumption. now rewrite C.
Qed.

(** A rendered definition is a part of the text. *)
Lemma def_line_in_final (self : Isolator) (report : Report) (d : DefItem) :
  In d (def_items report) ->
  PyStr.infix_of (_unparse_or_fallback ast_unparse d)
    (final_code ast_unparse self report).
Proof.
  intros H. unfold final_code.
  eapply infix_of_trans;
    [| apply infix_of_sections; right; right; left; reflexivity].
  rewrite section_join. apply infix_of_join, def_line_collected, H.
Qed.

(** The text does not depend on the dynamic items once they are
    dropped. *)
Lemma final_code_drop (sort keep : bool) (report : Report) :
  final_code ast_unparse (mk_Isolator sort false) report
  = final_code ast_unparse (mk_Isolator sort keep) (without_dynamic report).
Proof.
  unfold final_code. simpl.
  now rewrite (collect_import_lines_drop sort keep).
Qed.

(** What is in the text is, stripped, in the source returned. *)
Lemma infix_of_source (t code : string) :
  PyStr.infix_of t code ->
  PyStr.infix_of (PyStr.rstrip t) (PyStr.rstrip code ++ PyStr.nl).
Proof using. intros H. apply infix_of_app_l, infix_of_rstrip, H. Qed.

Lemma join_two_nonempty (sep : string) (l1 l2 : list string) :
  sep <> "" -> l1 <> [] -> l2 <> [] -> PyStr.join sep (l1 ++ l2)%list <> "".
Proof using.
  intros Hs N1 N2. rewrite join_app by assumption.
  destruct (PyStr.join sep l1); simpl; [| discriminate].
  destruct sep; [contradiction | discriminate].
Qed.

(** The source returned by [isolate_from_report]. *)
Lemma source_of_isolate (self : Isolator) (report : Report) (w : World) :
  source_of (isolate_from_report is_stdlib ast_unparse self report w)
  = Some (PyStr.rstrip (final_code ast_unparse self report) ++ PyStr.nl).
Proof. rewrite isolate_from_report_returns. reflexivity. Qed.

(** The items of the report are the items that the renderer goes
    through. *)
Lemma in_report_flatten (it : ImportItem) (report : Report) :
  in_report it report <-> In it (flatten_imports (imports report)).
Proof using.
  unfold in_report, flatten_imports, values. rewrite in_flat_map. split.
  - intros (m & d & a & Hd & Ha). exists d. split.
    + apply in_map_iff. exists (m, d). split; [reflexivity | exact Hd].
    + apply in_map_iff. exists (a, it). split; [reflexivity | exact Ha].
  - intros (d & Hd & Ha).
    apply in_map_iff in Hd. destruct Hd as ([m d'] & E & Hd). simpl in E. subst d'.
    apply in_map_iff in Ha. destruct Ha as ([a it'] & E & Ha). simpl in E. subst it'.
    exists m, d, a. split; assumption.
Qed.

(** What a definition is rendered as. *)
Lemma unparse_or_fallback_node (d : DefItem) (n : Ast.stmt) (text : string) :
  rendered_node d = Some n -> is_definition n = true ->
  ast_unparse n = Some text ->
  _unparse_or_fallback ast_unparse d = text.
Proof.
  unfold _unparse_or_fallback, rendered_node. intros N D U. rewrite N.
  assert (Q : is_def_node n = true) by (destruct n; try discriminate; reflexivity).
  rewrite Q, U. reflexivity.
Qed.

Lemma unparse_or_fallback_stored (d : DefItem) :
  (forall n, rendered_node d = Some n ->
             is_definition n = false \/ ast_unparse n = None) ->
  _unparse_or_fallback ast_unparse d
  = if PyStr.truthy (PyStr.strip (def_code d)) then PyStr.strip (def_code d)
    else "# <unparseable definition>".
Proof.
  unfold _unparse_or_fallback, rendered_node. intros H.
  destruct (match def_pruned d with Some n => Some n | None => def_node d end)
    as [n |]; [| reflexivity].
  destruct (H n eq_refl) as [D | U].
  - assert (Q : is_def_node n = false) by (destruct n; try discriminate; reflexivity).
    rewrite Q. reflexivity.
  - destruct (is_def_node n); [rewrite U |]; reflexivity.
Qed.

(** Every definition of the report is in the source. *)
Lemma definition_in_source (self : Isolator) (report : Report) (d : DefItem) :
  In d (def_items report) ->
  definition_in ast_unparse d
    (PyStr.rstrip (final_code ast_unparse self report) ++ PyStr.nl).
Proof.
  intros I.
  pose proof (infix_of_source _ _ (def_line_in_final self report d I)) as F.
  split.
  - intros n text N D U.
    rewrite (unparse_or_fallback_node d n text N D U) in F. exact F.
  - intros H. rewrite (unparse_or_fallback_stored d H) in F.
    destruct (PyStr.truthy (PyStr.strip (def_code d))).
    + unfold PyStr.strip in F |- *. rewrite rstrip_idem in F. exact F.
    + exact F.
Qed.

(** The line of every item that is kept is in the import lines and in
    the source. *)
Lemma kept_line_in_source (sort keep : bool) (report : Report) (it : ImportItem) :
  in_report it report ->
  keep = true \/ is_dynamic it = false ->
  PyStr.infix_of (line_of it)
    (PyStr.rstrip (final_code ast_unparse (mk_Isolator sort keep) report)
     ++ PyStr.nl)
  /\ (line_of it <> "" ->
      In (line_of it)
        (_collect_import_lines (mk_Isolator sort keep) (imports report))).
Proof.
  intros I K. apply (proj1 (in_report_flatten it report)) in I.
  assert (L : line_of it <> "" ->
              In (line_of it)
                (_collect_import_lines (mk_Isolator sort keep) (imports report))).
  { intros N. unfold _collect_import_lines.
    cbn [sort_imports keep_dynamic_imports].
    rewrite emit_lines_items. cbn [app].
    match goal with
    | |- In _ (map _ (emit_items _ ?l _)) =>
        destruct (emit_items_complete keep l [] it) as [H | H]
    end; try assumption; try contradiction.
    destruct sort; [apply (proj2 (sort_by_In item_lt _ _)) |]; exact I. }
  split; [| exact L].
  destruct (PyStr.truthy (line_of it)) eqn:T.
  - apply truthy_true in T. unfold line_of at 1. rewrite <- rstrip_idem.
    apply infix_of_source, import_line_in_final, L, T.
  - destruct (line_of it); [apply infix_of_empty | discriminate].
Qed.

(** With dynamic imports dropped, every import line is the line of a
    static item of the report. *)
Lemma dropped_lines_static (sort : bool) (report : Report) (line : string) :
  In line (_collect_import_lines (mk_Isolator sort false) (imports report)) ->
  exists it, in_report it report /\ is_dynamic it = false /\ line_of it = line.
Proof using.
  intros H. unfold _collect_import_lines in H.
  cbn [sort_imports keep_dynamic_imports] in H.
  rewrite emit_lines_items in H. cbn [app] in H.
  apply in_map_iff in H. destruct H as [it [E H]].
  match type of H with
  | In _ (emit_items _ ?l _) => pose proof (emit_items_spec false l []) as F
  end.
  rewrite Forall_forall in F. destruct (F it H) as (I & _ & _ & K).
  exists it. split; [| split; [apply K; reflexivity | exact E]].
  apply (proj2 (in_report_flatten it report)).
  destruct sort; [apply (proj1 (sort_by_In item_lt _ _)) in I |]; exact I.
Qed.

End Rendering.

(** C3.  With [sort_imports = True] the import lines are the lines of a
    list of items of the report that is sorted by the key (is_dynamic,
    name of the top-level module, text of the statement), [False]
    before [True] and the strings by their code points: no line occurs
    twice, the lines of the static items come before the lines of the
    dynamic ones, and every item that is kept and has a line that is not
    blank has its line among them. *)
Theorem import_lines_sorted_and_deduplicated :
  forall (keep : bool) (imports_by_module : Types.dict (Types.dict Types.ImportItem)),
  exists its : list Types.ImportItem,
    let lines :=
      Isolator._collect_import_lines (Isolator.mk_Isolator true keep)
        imports_by_module in
    lines = map Stated.line_of its
    /\ NoDup lines
    /\ StronglySorted Stated.key_le its
    /\ lines = (map Stated.line_of (filter Stated.static its)
                ++ map Stated.line_of (filter Types.is_dynamic its))%list
    /\ Forall (fun it =>
                 In it (Isolator.flatten_imports imports_by_module)
                 /\ Stated.line_of it <> ""
                 /\ (keep = false -> Types.is_dynamic it = false)) its
    /\ (forall it,
          In it (Isolator.flatten_imports imports_by_module) ->
          keep = true \/ Types.is_dynamic it = false ->
          Stated.line_of it <> "" ->
          In (Stated.line_of it) lines).
Proof.
  intros keep imports_by_module.
  set (items := Isolator.flatten_imports imports_by_module).
  exists (Stated.emit_items keep (Isolator.sort_by Isolator.item_lt items) []).
  assert (L : Isolator._collect_import_lines (Isolator.mk_Isolator true keep)
                imports_by_module
              = map Stated.line_of
                  (Stated.emit_items keep (Isolator.sort_by Isolator.item_lt items) []))
    by (unfold Isolator._collect_import_lines; simpl; apply emit_lines_items).
  assert (S : StronglySorted Stated.key_le
                (Stated.emit_items keep (Isolator.sort_by Isolator.item_lt items) []))
    by (apply emit_items_sorted, sort_items_sorted).
  cbv zeta. rewrite L. repeat split.
  - apply emit_items_NoDup.
  - exact S.
  - rewrite <- map_app. f_equal. apply sorted_static_first, S.
  - eapply Forall_impl; [| apply emit_items_spec].
    intros it (I & N & _ & K). repeat split; try assumption.
    apply (proj1 (sort_by_In Isolator.item_lt _ _)). exact I.
  - intros it I K N.
    destruct (emit_items_complete keep (Isolator.sort_by Isolator.item_lt items) [] it)
      as [H | H]; try assumption.
    + apply (proj2 (sort_by_In Isolator.item_lt _ _)). exact I.
    + contradiction.
Qed.

(** C7.  With [keep_dynamic_imports = False] the source is the source of
    the report without its dynamic import items, every import line is
    the line of a static item of the report, and the line of every
    static item is in the source; with [keep_dynamic_imports = True] the
    line of every import item of the report, the dynamic ones included,
    is in the source; and with either setting every definition of the
    report is in the source: as the unparser writes its node, or as its
    stored code when there is no node to unparse. *)
Theorem dynamic_imports_kept_or_dropped :
  forall (is_stdlib : string -> bool) (ast_unparse : Ast.stmt -> option string)
         (sort : bool) (report : Isolator.Report) (w : Isolator.World),
    (exists src,
        Stated.source_of
          (Isolator.isolate_from_report is_stdlib ast_unparse
             (Isolator.mk_Isolator sort false) report w) = Some src
        /\ (forall keep,
              Stated.source_of
                (Isolator.isolate_from_report is_stdlib ast_unparse
                   (Isolator.mk_Isolator sort keep)
                   (Stated.without_dynamic report) w) = Some src)
        /\ (forall line,
              In line (Isolator._collect_import_lines
                         (Isolator.mk_Isolator sort false)
                         (Isolator.imports report)) ->
              exists it,
                Stated.in_report it report
                /\ Types.is_dynamic it = false
                /\ Stated.line_of it = line)
        /\ (forall it,
              Stated.in_report it report -> Types.is_dynamic it = false ->
              PyStr.infix_of (Stated.line_of it) src
              /\ (Stated.line_of it <> "" ->
                  In (Stated.line_of it)
                    (Isolator._collect_import_lines
                       (Isolator.mk_Isolator sort false)
                       (Isolator.imports report))))
        /\ (forall d, In d (Isolator.def_items report) ->
              Stated.definition_in ast_unparse d src))
    /\ (exists src,
          Stated.source_of
            (Isolator.isolate_from_report is_stdlib ast_unparse
               (Isolator.mk_Isolator sort true) report w) = Some src
          /\ (forall it,
                Stated.in_report it report ->
                PyStr.infix_of (Stated.line_of it) src
                /\ (Stated.line_of it <> "" ->
                    In (Stated.line_of it)
                      (Isolator._collect_import_lines
                         (Isolator.mk_Isolator sort true)
                         (Isolator.imports report))))
          /\ (forall d, In d (Isolator.def_items report) ->
                Stated.definition_in ast_unparse d src)).
Proof.
  intros is_stdlib ast_unparse sort report w.
  split.
  - eexists. split; [apply source_of_isolate |].
    split; [| split; [| split]].
    + intros keep. rewrite source_of_isolate.
      now rewrite (final_code_drop ast_unparse sort keep).
    + apply dropped_lines_static.
    + intros it I D. apply kept_line_in_source; [exact I | right; exact D].
    + intros d H. apply definition_in_source, H.
  - eexists. split; [apply source_of_isolate |]. split.
    + intros it I. apply kept_line_in_source; [exact I | left; reflexivity].
    + intros d H. apply definition_in_source, H.
Qed.

(** A function whose only dependency is a dynamic import, rendered with
    [keep_dynamic_imports = False]: the source is the function alone. *)
Lemma dynamic_imports_kept_or_dropped_witness :
  Stated.source_of
    (Isolator.isolate_from_report (fun _ => true) Stated.unparse_raises
       (Isolator.mk_Isolator true false) Stated.dynamic_only Stated.quiet_world)
  = Some ("def f(): return _json" ++ PyStr.nl)
  /\ PyStr.infix_of "def f(): return _json" ("def f(): return _json" ++ PyStr.nl).
Proof.
  destruct (dynamic_imports_kept_or_dropped (fun _ => true) Stated.unparse_raises
              true Stated.dynamic_only Stated.quiet_world)
    as [(src & E & _ & _ & _ & D) _].
  assert (S : Stated.source_of
                (Isolator.isolate_from_report (fun _ => true) Stated.unparse_raises
                   (Isolator.mk_Isolator true false) Stated.dynamic_only
                   Stated.quiet_world)
              = Some ("def f(): return _json" ++ PyStr.nl)) by reflexivity.
  split; [exact S |].
  rewrite S in E. injection E as E.
  assert (H : forall n,
             Stated.rendered_node
               (Types.mk_DefItem "function" None None "def f(): return _json")
             = Some n ->
             Stated.is_definition n = false \/ Stated.unparse_raises n = None)
    by (intros n N; discriminate N).
  assert (Q := proj2 (D _ (or_introl eq_refl)) H).
  rewrite <- E in Q. exact Q.
Defined.

(** C4, as amended.  The source is the text of the sections that are not
    empty, in the order imports, variables, definitions, joined by one
    blank line, stripped of trailing white space and ended by one line
    feed; the definitions are the classes and then the functions, joined
    by one blank line (two line feeds) as well. *)
Theorem rendered_sections_in_order :
  forall (is_stdlib : string -> bool) (ast_unparse : Ast.stmt -> option string)
         (self : Isolator.Isolator) (report : Isolator.Report) (w : Isolator.World),
  exists src,
    Stated.source_of
      (Isolator.isolate_from_report is_stdlib ast_unparse self report w) = Some src
    /\ src = PyStr.rstrip
               (PyStr.join Stated.nl2
                  (filter PyStr.truthy
                     [ Stated.imports_text self report;
                       Stated.vars_text report;
                       PyStr.join Stated.nl2
                         (Stated.class_lines ast_unparse report
                          ++ Stated.func_lines ast_unparse report) ]))
             ++ PyStr.nl
    /\ (exists body, src = body ++ PyStr.nl /\ PyStr.rstrip body = body)
    /\ (Stated.imports_text self report <> "" ->
        Stated.vars_text report <> "" ->
        Stated.class_lines ast_unparse report <> [] ->
        Stated.func_lines ast_unparse report <> [] ->
        src = PyStr.rstrip
                (Stated.imports_text self report ++ Stated.nl2
                 ++ Stated.vars_text report ++ Stated.nl2
                 ++ PyStr.join Stated.nl2 (Stated.class_lines ast_unparse report)
                 ++ Stated.nl2
                 ++ PyStr.join Stated.nl2 (Stated.func_lines ast_unparse report))
              ++ PyStr.nl).
Proof.
  intros is_stdlib ast_unparse self report w.
  eexists. split; [apply source_of_isolate |].
  rewrite final_code_parts. split; [reflexivity |]. split.
  - eexists. split; [reflexivity | apply rstrip_idem].
  - intros HI HV HC HF.
    assert (HD : PyStr.join Stated.nl2
                   (Stated.class_lines ast_unparse report
                    ++ Stated.func_lines ast_unparse report) <> "")
      by (apply join_two_nonempty; [discriminate | assumption | assumption]).
    apply truthy_true in HI, HV, HD. simpl filter. rewrite HI, HV, HD.
    rewrite (join_app Stated.nl2 _ _ HC HF).
    unfold PyStr.join at 1. simpl String.concat. reflexivity.
Qed.

Lemma rendered_sections_in_order_witness :
  Stated.source_of
    (Isolator.isolate_from_report (fun _ => true) Stated.unparse_raises
       Stated.default_isolator Stated.full_report Stated.quiet_world)
  = Some ("import os" ++ Stated.nl2 ++ "LIMIT = 3" ++ Stated.nl2
          ++ "class C: pass" ++ Stated.nl2 ++ "def f(): return LIMIT" ++ PyStr.nl).
Proof.
  destruct (rendered_sections_in_order (fun _ => true) Stated.unparse_raises
              Stated.default_isolator Stated.full_report Stated.quiet_world)
    as (src & E & _ & _ & X).
  rewrite E. f_equal. rewrite X; [reflexivity | | | |]; discriminate.
Defined.

(** C4, as stated, fails: two functions are rendered with one blank line
    between them, not two. *)
Lemma definitions_one_blank_line :
  let f := "def f(): return 1" in
  let g := "def g(): return 2" in
  let res :=
    Stated.source_of
      (Isolator.isolate_from_report (fun _ => true) Stated.unparse_raises
         Stated.default_isolator Stated.two_functions Stated.quiet_world) in
  res = Some (f ++ PyStr.nl ++ PyStr.nl ++ g ++ PyStr.nl)
  /\ res <> Some (f ++ PyStr.nl ++ PyStr.nl ++ PyStr.nl ++ g ++ PyStr.nl).
Proof. split; [reflexivity | discriminate]. Qed.

(** ** isolator.py: the warning *)

Section Warnings.
Import Types Isolator Stated.

(** The names of the message: the names that are not empty. *)
Lemma unbound_names_In (unbound : list string) (n : string) :
  In n (sorted_str (set_of (filter PyStr.truthy unbound)))
  <-> In n unbound /\ n <> "".
Proof.
  unfold sorted_str, set_of.
  rewrite (sort_by_In String.ltb), nodup_In, filter_In, truthy_true.
  reflexivity.
Qed.

Lemma unbound_names_sorted (unbound : list string) :
  StronglySorted (le_of String.ltb)
    (sorted_str (set_of (filter PyStr.truthy unbound))).
Proof.
  apply (sort_by_sorted String.ltb (ltb_of_asym String.compare)
           (ltb_of_negtrans String.compare)).
Qed.

Lemma unbound_names_NoDup (unbound : list string) :
  NoDup (sorted_str (set_of (filter PyStr.truthy unbound))).
Proof.
  eapply Permutation_NoDup; [apply Permutation_sym, sort_by_perm |].
  apply NoDup_nodup.
Qed.

Lemma unbound_names_empty (unbound : list string) :
  existsb PyStr.truthy unbound = false ->
  sorted_str (set_of (filter PyStr.truthy unbound)) = [].
Proof.
  intros H. assert (F : filter PyStr.truthy unbound = []).
  { induction unbound as [| x l IH]; [reflexivity |].
    simpl in H |- *. apply orb_false_iff in H. destruct H as [Hx Hl].
    rewrite Hx. apply IH, Hl. }
  rewrite F. reflexivity.
Qed.

Lemma unbound_names_nonempty (unbound : list string) :
  existsb PyStr.truthy unbound = true ->
  sorted_str (set_of (filter PyStr.truthy unbound)) <> [].
Proof.
  intros H E. apply existsb_exists in H. destruct H as [n [I T]].
  assert (Q : In n (sorted_str (set_of (filter PyStr.truthy unbound))))
    by (apply unbound_names_In; split; [exact I | now apply truthy_true]).
  rewrite E in Q. contradiction.
Qed.

(** Each name of the list has its own [ - name] after a line feed. *)
Lemma warning_lists_name (names : list string) (n : string) :
  In n names ->
  PyStr.infix_of (PyStr.nl ++ " - " ++ n)
    (warning_head ++ PyStr.join (PyStr.nl ++ " - ") names).
Proof.
  intros H. unfold warning_head.
  rewrite !append_assoc.
  do 2 apply infix_of_app_r.
  rewrite <- (append_assoc PyStr.nl " - " n).
  rewrite <- (append_assoc PyStr.nl " - " (PyStr.join _ _)).
  apply infix_of_join_sep, H.
Qed.

(** The two cases of [_collect_warnings]. *)
Lemma collect_warnings_cases (unbound : list string) (w : World) :
  _collect_warnings unbound w
  = if existsb PyStr.truthy unbound
    then
      let msg :=
        warning_head
        ++ PyStr.join (PyStr.nl ++ " - ")
             (sorted_str (set_of (filter PyStr.truthy unbound))) in
      ([msg], print_stderr msg w)
    else ([], w).
Proof.
  unfold _collect_warnings.
  destruct (existsb PyStr.truthy unbound) eqn:E.
  - pose proof (unbound_names_nonempty _ E) as N.
    destruct (sorted_str (set_of (filter PyStr.truthy unbound)));
      [contradiction | reflexivity].
  - now rewrite (unbound_names_empty _ E).
Qed.

End Warnings.

(** C8, as amended.  The renderer returns on every report.  When some
    unbound name is not empty, the warnings are one message, the heading
    followed by the distinct names that are not empty, sorted, each on a
    line of its own after [ - ], and this message and a line feed are
    written to the standard error stream; when no unbound name is other
    than empty, there is no warning and nothing is written. *)
Theorem unbound_names_warning :
  forall (is_stdlib : string -> bool) (ast_unparse : Ast.stmt -> option string)
         (self : Isolator.Isolator) (report : Isolator.Report) (w : Isolator.World),
  exists r w',
    Isolator.isolate_from_report is_stdlib ast_unparse self report w = Some (r, w')
    /\ Isolator.source r
       = PyStr.rstrip (Isolator.final_code ast_unparse self report) ++ PyStr.nl
    /\ Isolator.unbound r = Isolator.rep_unbound report
    /\ if existsb PyStr.truthy (Isolator.rep_unbound report)
       then exists names,
           (forall n, In n names <-> In n (Isolator.rep_unbound report) /\ n <> "")
           /\ NoDup names
           /\ StronglySorted (le_of String.ltb) names
           /\ Isolator.warnings r
              = [Isolator.warning_head ++ PyStr.join (PyStr.nl ++ " - ") names]
           /\ Isolator.stderr w'
              = Isolator.stderr w
                ++ (Isolator.warning_head ++ PyStr.join (PyStr.nl ++ " - ") names)
                ++ PyStr.nl
           /\ (forall n, In n (Isolator.rep_unbound report) -> n <> "" ->
                 PyStr.infix_of (PyStr.nl ++ " - " ++ n)
                   (Isolator.warning_head
                    ++ PyStr.join (PyStr.nl ++ " - ") names))
       else Isolator.warnings r = [] /\ w' = w.
Proof.
  intros is_stdlib ast_unparse self report w.
  rewrite isolate_from_report_returns. cbv zeta.
  rewrite collect_warnings_cases.
  destruct (existsb PyStr.truthy (Isolator.rep_unbound report)) eqn:E.
  - eexists; eexists. split; [reflexivity |].
    split; [reflexivity |]. split; [reflexivity |].
    exists (Isolator.sorted_str
              (Isolator.set_of (filter PyStr.truthy (Isolator.rep_unbound report)))).
    split; [apply unbound_names_In |].
    split; [apply unbound_names_NoDup |].
    split; [apply unbound_names_sorted |].
    split; [reflexivity |]. split; [reflexivity |].
    intros n Hn Hne. apply warning_lists_name, unbound_names_In.
    split; assumption.
  - eexists; eexists. split; [reflexivity |].
    split; [reflexivity |]. split; [reflexivity |]. split; reflexivity.
Qed.

(** C8, as stated, fails: the report whose only unbound name is the
    empty string has a list of unbound names that is not empty, and gets
    no warning. *)
Lemma empty_name_gets_no_warning :
  exists r w',
    Isolator.isolate_from_report (fun _ => true) Stated.unparse_raises
      Stated.default_isolator Stated.empty_name_unbound Stated.quiet_world
    = Some (r, w')
    /\ Isolator.unbound r = [""]
    /\ Isolator.unbound r <> []
    /\ Isolator.warnings r = []
    /\ Isolator.stderr w' = "".
Proof.
  eexists; eexists. split; [reflexivity |]. simpl.
  repeat split. discriminate.
Qed.

(** C2.  The source does not depend on what has been written to the
    standard error stream nor on what the network answers: two calls on
    the same report with the same options return the same source, also
    when the second call starts where the first one ended, and so do two
    calls of [isolate] on the same targets. *)
Theorem isolate_source_deterministic :
  forall (is_stdlib : string -> bool) (ast_unparse : Ast.stmt -> option string)
         (self : Isolator.Isolator) (report : Isolator.Report)
         (w1 w2 : Isolator.World),
    (exists r1 w1' r2 w2',
        Isolator.isolate_from_report is_stdlib ast_unparse self report w1
        = Some (r1, w1')
        /\ Isolator.isolate_from_report is_stdlib ast_unparse self report w2
           = Some (r2, w2')
        /\ Isolator.source r1 = Isolator.source r2)
    /\ (exists r1 w1' r2 w2',
          Isolator.isolate_from_report is_stdlib ast_unparse self report w1
          = Some (r1, w1')
          /\ Isolator.isolate_from_report is_stdlib ast_unparse self report w1'
             = Some (r2, w2')
          /\ Isolator.source r1 = Isolator.source r2)
    /\ (forall (Target : Type) (analyze_many : list Target -> option Isolator.Report)
               (targets : list Target),
          Stated.source_of
            (Isolator.isolate is_stdlib ast_unparse analyze_many self targets w1)
          = Stated.source_of
              (Isolator.isolate is_stdlib ast_unparse analyze_many self targets w2)).
Proof.
  intros is_stdlib ast_unparse self report w1 w2.
  split; [| split].
  - rewrite !isolate_from_report_returns. cbv zeta.
    do 4 eexists. split; [reflexivity |]. split; reflexivity.
  - rewrite isolate_from_report_returns. cbv zeta.
    do 4 eexists. split; [reflexivity |].
    rewrite isolate_from_report_returns. split; reflexivity.
  - intros Target analyze_many targets. unfold Isolator.isolate.
    destruct (analyze_many targets) as [rep |]; [| reflexivity].
    now rewrite !source_of_isolate.
Qed.

(** C1 on a sample: one import of [numpy], found on PyPI, gives the
    list of one set [[{'numpy'}]] and not the list [['numpy']]; the
    report without imports gives [[set()]] and not the empty list. *)
Example reqs_of_numpy_report :
  exists r w',
    Isolator.isolate_from_report (fun _ => false) Stated.unparse_raises
      Stated.default_isolator Stated.numpy_report
      (Isolator.mk_World "" (Stated.answers 200)) = Some (r, w')
    /\ Isolator.reqs_pypi r = [Isolator.VSet [Some "numpy"]]
    /\ Isolator.reqs_unknown r = [Isolator.VSet []].
Proof. eexists; eexists. split; [reflexivity |]. split; reflexivity. Qed.

(* ===================================================================== *)
(** * Part IV: more of the program                                        *)
(* ===================================================================== *)

From Stdlib Require DecimalString.

(** ** helper.py: the installed distributions *)

Module Distributions.
Import Types.

(** The characters below 256 at which [str.splitlines] ends a line. *)
Definition is_linebreak (c : ascii) : bool :=
  let n := nat_of_ascii c in
  (((10 <=? n) && (n <=? 13)) || ((28 <=? n) && (n <=? 30)) || (n =? 133))%nat.

(** [str.splitlines], [cur] being the line read so far; a carriage
    return and the line feed after it end one line. *)
Fixpoint split_lines (cur : string) (s : string) : list string :=
  match s with
  | EmptyString => if PyStr.truthy cur then [cur] else []
  | String c r =>
      if is_linebreak c
      then cur ::
           match r with
           | String d r' =>
               if ((nat_of_ascii c =? 13) && (nat_of_ascii d =? 10))%nat
               then split_lines EmptyString r'
               else split_lines EmptyString r
           | EmptyString => split_lines EmptyString r
           end
      else split_lines (cur ++ String c EmptyString) r
  end.

Definition splitlines (s : string) : list string := split_lines EmptyString s.

(** [s.startswith(p)], [s.endswith(p)] and [s[:-n]]. *)
Definition startswith (p s : string) : bool := String.prefix p s.

Definition endswith (p s : string) : bool :=
  (String.length p <=? String.length s)%nat
  && (String.substring (String.length s - String.length p) (String.length p) s =? p).

Definition drop_last (n : nat) (s : string) : string :=
  String.substring 0 (String.length s - n) s.

(** What the code reads of an installed distribution: [dist.name] and
    [dist.metadata.get('Name')] ([None] also when reading them raises),
    [dist.read_text('top_level.txt')] ([None] also when it raises one
    of the three exceptions caught), and the parts of each path of
    [dist.files]. *)
Record Distribution : Type := mk_Distribution {
  dist_name : option string;
  metadata_name : option string;
  top_level_txt : option string;
  files : option (list (list string))
}.

(** The names that the lines of [top_level.txt] give. *)
Definition modules_of_top_level (txt : string) : list string :=
  map PyStr.strip
    (filter (fun line => PyStr.truthy (PyStr.strip line) && negb (startswith "_" line))
       (splitlines txt)).

(** The name that one file gives, if any. *)
Definition module_of_file (parts : list string) : option string :=
  match parts with
  | [] => None
  | top_part :: _ =>
      if PyStr.contains ".dist-info" top_part || PyStr.contains ".egg-info" top_part
      then None
      else if endswith ".py" top_part then Some (drop_last 3 top_part)
      else if negb (PyStr.contains "." top_part) then Some top_part
      else None
  end.

Definition modules_of_files (fs : list (list string)) : list string :=
  flat_map (fun parts => match module_of_file parts with
                         | Some m => [m]
                         | None => []
                         end) fs.

(** [_get_toplevel_modules_for_dist]; the set is a list without
    repetition. *)
Definition _get_toplevel_modules_for_dist (dist : Distribution) : list string :=
  let modules :=
    match top_level_txt dist with
    | Some txt =>
        if PyStr.truthy txt then Isolator.set_of (modules_of_top_level txt) else []
    | None => []
    end in
  match modules, files dist with
  | [], Some (f :: fs) => Isolator.set_of (modules_of_files (f :: fs))
  | _, _ => modules
  end.

(** The name of a distribution as [packages_distributions] resolves it. *)
Definition dname_of (dist : Distribution) : option string :=
  match dist_name dist with
  | Some n => if PyStr.truthy n then Some n else metadata_name dist
  | None => metadata_name dist
  end.

(** One turn of the outer loop of [packages_distributions]. *)
Definition add_dist (mapping : dict string) (dist : Distribution) : dict string :=
  fold_left
    (fun m mod_ =>
       match dname_of dist with
       | Some d => if PyStr.truthy d then dict_set mod_ d m else m
       | None => m
       end)
    (_get_toplevel_modules_for_dist dist) mapping.

(** [packages_distributions] over what [distributions()] yields. *)
Definition packages_distributions (dists : list Distribution) : dict string :=
  fold_left add_dist dists [].

End Distributions.

(** ** helper.py: [module_classifier] *)

Module Classifier.
Import Types.

Inductive category : Type :=
| stdlib
| builtin
| thirdparty
| extension
| local
| unknown.

(** What the code finds out about the file of a module: whether it is
    under one of the site-packages paths, whether it is under one of the
    two standard-library paths, and its suffix. *)
Record Origin : Type := mk_Origin {
  under_site : bool;
  under_stdlib : bool;
  suffix : string
}.

(** A module object: its [__name__] when it has one, and the origin
    that [_module_origin_path] finds for it, if any. *)
Record ModuleObj : Type := mk_ModuleObj {
  mod_name : option string;
  origin : option Origin
}.

Definition is_extension_suffix (s : string) : bool :=
  (s =? ".so") || (s =? ".pyd") || (s =? ".dll") || (s =? ".dylib").

(** [module_classifier]; [in_notebook] is what [_IN_NOTEBOOK()]
    returns. *)
Definition module_classifier (in_notebook : bool) (is_stdlib : string -> bool)
  (mod_ : option ModuleObj) (packages_dists : option (dict string)) : category :=
  match mod_ with
  | None => unknown
  | Some m =>
      match mod_name m with
      | None => unknown
      | Some name =>
          if negb (PyStr.truthy name) then unknown
          else if (name =? "__main__") && in_notebook then local
          else if name =? "builtins" then builtin
          else
            let top := fst (PyStr.split1 "." name) in
            let overridden :=
              match packages_dists with
              | Some table =>
                  match table with
                  | [] => false
                  | _ :: _ => PyStr.mem top (keys table)
                  end
              | None => false
              end in
            if overridden then thirdparty
            else if is_stdlib name then stdlib
            else
              match origin m with
              | None => builtin
              | Some o =>
                  if under_site o
                  then if top =? "pip" then stdlib else thirdparty
                  else if under_stdlib o then stdlib
                  else if is_extension_suffix (suffix o) then extension
                  else local
              end
      end
  end.

End Classifier.

(** ** utils/log.py *)

Module Log.

Definition DEBUG : Z := 10.
Definition INFO : Z := 20.
Definition WARNING : Z := 30.

Inductive stream : Type :=
| Stdout
| Stderr
| LogFile (path : string).

(** A handler: where it writes, its level, the bound of its
    [_MaxLevelFilter] if it has one, and its format. *)
Record handler : Type := mk_handler {
  h_stream : stream;
  h_level : Z;
  h_max_level : option Z;
  h_format : string
}.

(** [_MaxLevelFilter.filter]. *)
Definition max_level_filter (max_level levelno : Z) : bool :=
  (levelno <? max_level)%Z.

(** What the [logging] module does with a record of level [levelno]
    logged through a logger that has no level and no handler of its
    own.  [Logger.isEnabledFor] lets it pass when its level is above the
    level disabled in the manager, which is 0, and not below the level
    of the root logger; [Logger.callHandlers] then gives it to the
    handlers of the root logger whose level is not above it, and each
    handler writes it when its filter lets it pass. *)
Definition is_enabled_for (root_level levelno : Z) : bool :=
  (0 <? levelno)%Z && (root_level <=? levelno)%Z.

Definition accepts (levelno : Z) (h : handler) : bool :=
  (h_level h <=? levelno)%Z
  && match h_max_level h with
     | Some m => max_level_filter m levelno
     | None => true
     end.

Definition delivered (root_level : Z) (handlers : list handler) (levelno : Z)
  : list handler :=
  if is_enabled_for root_level levelno
  then filter (accepts levelno) handlers
  else [].

(** What [init] does: it hands the dictionary to [dictConfig], raises
    [ValueError], lets the error of [logging.FileHandler] through when
    the log file does not open, or sets the root logger up with a level
    and handlers; [warned] tells whether the warning of the call without
    output is written. *)
Inductive init_outcome : Type :=
| DictConfig
| RaisesValueError
| RaisesOSError
| Configured (root_level : Z) (handlers : list handler) (warned : bool).

Definition opt_truthy (o : option string) : bool :=
  match o with Some s => PyStr.truthy s | None => false end.

Fixpoint minimum (x : Z) (l : list Z) : Z :=
  match l with
  | [] => x
  | y :: r => minimum (Z.min x y) r
  end.

Definition levels_given (level : Z) (console_level file_level : option Z) : list Z :=
  match console_level with Some c => [c] | None => [] end
  ++ match file_level with Some f => [f] | None => [] end.

(** The console handlers of [init]. *)
Definition console_handlers (eff_console_level : Z) : list handler :=
  (if (eff_console_level <=? DEBUG)%Z
   then [mk_handler Stdout DEBUG (Some INFO) "[%(levelname)s] %(message)s"]
   else [])
  ++ (if (eff_console_level <=? INFO)%Z
      then [mk_handler Stdout INFO (Some WARNING) "%(message)s"]
      else [])
  ++ [mk_handler Stderr
        (if (WARNING <=? eff_console_level)%Z then eff_console_level else WARNING)
        None "[%(levelname)-8s] %(name)s: %(message)s"].

(** [init]; [config] tells whether a dictionary that is not empty was
    given, [can_open] whether [logging.FileHandler] opens the file of a
    path for appending. *)
Definition init (can_open : string -> bool) (config : bool) (level : Z)
  (console_level file_level : option Z)
  (log_file : option string) (use_console use_file : bool) : init_outcome :=
  if config then DictConfig
  else
    let use_file := if opt_truthy log_file then true else use_file in
    let root_level := minimum level (levels_given level console_level file_level) in
    let eff_console_level :=
      match console_level with Some c => c | None => level end in
    let handlers := if use_console then console_handlers eff_console_level else [] in
    if use_file
    then
      match log_file with
      | Some path =>
          if PyStr.truthy path
          then
            if can_open path
            then
              Configured root_level
                (handlers
                 ++ [mk_handler (LogFile path)
                       (match file_level with Some f => f | None => level end)
                       None "%(asctime)s [%(levelname)-8s]  %(name)s: %(message)s"])
                false
            else RaisesOSError
          else RaisesValueError
      | None => RaisesValueError
      end
    else
      match handlers with
      | [] =>
          let default := [mk_handler Stderr 0 None "%(message)s"] in
          Configured root_level default
            (match delivered root_level default WARNING with
             | [] => false
             | _ :: _ => true
             end)
      | _ :: _ => Configured root_level handlers false
      end.

Definition is_console (h : handler) : bool :=
  match h_stream h with
  | Stdout => true
  | Stderr => true
  | LogFile _ => false
  end.

(** The message of [emit]: the arguments as strings joined by [sep],
    followed by [end] unless [end] is empty or one line feed. *)
Definition emit_message (args : list string) (sep end_ : string) : string :=
  let message := PyStr.join sep args in
  if PyStr.truthy end_ && negb (end_ =? PyStr.nl) then message ++ end_ else message.

End Log.

(** ** parser.py: the source of a notebook session *)

Module Notebook.
Import Ast.






Section Cells.

Variable ast_parse : string -> Parser.parse_outcome.
Variable dedent : string -> string.



(** [convert_source_to_ast]: the single definition, the module body, or
    the exception. *)
Inductive converted : Type :=
| SingleDef (node : stmt)
| WholeModule (body : list stmt)
| RaisesSyntaxError
| ConvertRaises (e : Parser.exn).

Definition convert_source_to_ast (src : string) : converted :=
  match ast_parse src with
  | Parser.Parsed [node] =>
      if Isolator.is_def_node node then SingleDef node else WholeModule [node]
  | Parser.Parsed body => WholeModule body
  | Parser.ParseSyntaxError => RaisesSyntaxError
  | Parser.ParseRaises e => ConvertRaises e
  end.

End Cells.

End Notebook.

(* ===================================================================== *)
(** * Part V: what the further statements use                             *)
(* ===================================================================== *)

Module Laws.
Import Ast Types.

(** The statements of a tree in document order: a statement and then
    the statements of its children, depth first. *)
Fixpoint preorder (s : stmt) : list stmt :=
  s :: match s with
       | FunctionDef _ body => flat_map preorder body
       | AsyncFunctionDef _ body => flat_map preorder body
       | ClassDef _ body => flat_map preorder body
       | Compound blocks => flat_map preorder blocks
       | Import _ => []
       | ImportFrom _ _ _ => []
       | Assign _ _ => []
       | Simple => []
       end.

Definition preorder_all (body : list stmt) : list stmt := flat_map preorder body.

Section Handlers.

Variable is_stdlib : string -> bool.
Variable table : dict string.
Variable ast_unparse : stmt -> option string.
Variable dedent : string -> string.

(** The handler that [NodeVisitor.visit] picks for one node, without
    the descent into the children. *)
Definition handle (node : stmt) (c : Imported.Collector) : option Imported.Collector :=
  match node with
  | Import _ => Imported.visit_Import is_stdlib table ast_unparse node c
  | ImportFrom _ _ _ => Imported.visit_ImportFrom is_stdlib table ast_unparse node c
  | Assign _ _ => Imported.visit_Assign is_stdlib table ast_unparse dedent node c
  | _ => Some c
  end.

(** The handlers applied to a list of nodes, one after the other. *)
Fixpoint handle_all (nodes : list stmt) (c : Imported.Collector)
  : option Imported.Collector :=
  match nodes with
  | [] => Some c
  | node :: rest =>
      match handle node c with
      | Some c' => handle_all rest c'
      | None => None
      end
  end.

End Handlers.

(** An item as the collector builds it: one alias, no star and no level
    for a dynamic import; a level for a star import, which is static; a
    package name resolved from the module; no alias twice. *)
Definition well_formed (is_stdlib : string -> bool) (table : dict string)
  (it : ImportItem) : Prop :=
  (is_dynamic it = true ->
   List.length (names it) = 1 /\ use_star it = false /\ level it = None
   /\ module it <> None)
  /\ (use_star it = true -> is_dynamic it = false /\ level it <> None)
  /\ package_name it = Imported._package_name is_stdlib table (module it)
  /\ NoDup (keys (names it)).

(** The last item of the list that binds the alias. *)
Definition last_binding (a : string) (items : list ImportItem) : option ImportItem :=
  find (fun it => PyStr.mem a (keys (names it))) (rev items).

(** The name of an alias node belongs to the import machinery. *)
Definition machinery (a : alias) : bool :=
  PyStr.contains "importlib" (alias_name a)
  || PyStr.contains "import_module" (alias_name a).

(** The names bound by a list of alias nodes, added to a dictionary. *)
Definition bind_all (aliases : list alias) (nms : dict string) : dict string :=
  fold_left (fun d a => dict_set (Parser.bound_name a) (alias_name a) d) aliases nms.

(** The collector after the alias nodes of one statement. *)
Definition after_aliases (aliases : list alias) (c : Imported.Collector)
  : Imported.Collector :=
  Imported.mk_Collector
    (Imported._imported_alias c ++ map Parser.bound_name aliases)
    (Imported._import_items c)
    (Imported._dynamic_ref c ++ map Parser.bound_name (filter machinery aliases)).

(** What a collector keeps: every tracked alias is an imported alias,
    and every item is well formed. *)
Definition kept (is_stdlib : string -> bool) (table : dict string)
  (c : Imported.Collector) : Prop :=
  incl (Imported._dynamic_ref c) (Imported._imported_alias c)
  /\ Forall (well_formed is_stdlib table) (Imported._import_items c).

(** A module that imports the machinery under an alias, loads a module
    through it, and has an import inside a function. *)
Definition sample_module : list stmt :=
  [ Import [mk_alias "importlib" (Some "il")];
    Assign [Name "js"] (Call (Name "il") [Constant (CStr "json.decoder")] []);
    FunctionDef "f" [ImportFrom (Some "os.path") [mk_alias "*" None] 0] ].

(** An unparser that returns the same text for every node. *)
Definition unparse_const (node : stmt) : option string := Some "...".







(** The node of a definition that the renderer unparses, if any. *)
Definition chosen_node (di : DefItem) : option stmt :=
  match def_pruned di with
  | Some n => Some n
  | None => def_node di
  end.

Definition placeholder : string := "# <unparseable definition>".

(** The lines that the variables of one module give. *)
Definition var_lines_of (items : list VarsItem) : list string :=
  filter PyStr.truthy (map (fun v => PyStr.rstrip (var_code v)) items).

Definition future_import : string := "from __future__ import annotations".

(** A report with one import, a function, and a type name used only
    in annotations. *)
Definition typed_report : Isolator.Report :=
  Isolator.mk_Report
    [("sample", [("os", mk_ImportItem [("os", "os")] (Some "os") (Some "os")
                          None "import os" None false false)])]
    [("Sequence", "Seq")]
    []
    [mk_DefItem "function" None None "def f(xs: Seq): return os.sep"]
    [].

(** A distribution is named: its resolved name is not empty. *)
Definition named (dist : Distributions.Distribution) : option string :=
  match Distributions.dname_of dist with
  | Some d => if PyStr.truthy d then Some d else None
  | None => None
  end.

(** The top-level name of a module name. *)
Definition top_of (name : string) : string := fst (PyStr.split1 "." name).

(** The caller's table lists the top-level name. *)
Definition overridden (packages_dists : option (dict string)) (top : string) : bool :=
  match packages_dists with
  | Some table => PyStr.mem top (keys table)
  | None => false
  end.

(** The levels of the [logging] module that have a name. *)
Definition standard_level (levelno : Z) : Prop :=
  levelno = 10%Z \/ levelno = 20%Z \/ levelno = 30%Z \/ levelno = 40%Z
  \/ levelno = 50%Z.





End Laws.

(* ===================================================================== *)
(** * Part VI: further properties                                         *)
(* ===================================================================== *)

(** ** Dictionaries *)

Section Dicts.
Import Types.

Context {V : Type}.

Lemma dict_get_set_same (k : string) (v : V) (d : dict V) :
  dict_get k (dict_set k v d) = Some v.
Proof.
  induction d as [| [k' v'] d IH]; simpl.
  - now rewrite String.eqb_refl.
  - destruct (k' =? k) eqn:E; simpl.
    + now rewrite String.eqb_refl.
    + now rewrite E.
Qed.

Lemma dict_get_set_other (k k' : string) (v : V) (d : dict V) :
  k' <> k -> dict_get k' (dict_set k v d) = dict_get k' d.
Proof.
  intros N. induction d as [| [k0 v0] d IH]; simpl.
  - destruct (String.eqb_spec k k'); [congruence | reflexivity].
  - destruct (String.eqb_spec k0 k) as [-> | N0]; simpl.
    + destruct (String.eqb_spec k k'); [congruence | reflexivity].
    + destruct (k0 =? k'); [reflexivity | exact IH].
Qed.

Lemma keys_dict_set (k x : string) (v : V) (d : dict V) :
  In x (keys (dict_set k v d)) <-> x = k \/ In x (keys d).
Proof.
  unfold keys. induction d as [| [k' v'] d IH]; simpl.
  - split; intros [H | H]; auto; contradiction.
  - destruct (String.eqb_spec k' k) as [-> | N]; simpl.
    + split; [intros [H | H]; auto | intros [H | [H | H]]; auto].
    + rewrite IH. split; intros H; intuition.
Qed.

Lemma NoDup_dict_set (k : string) (v : V) (d : dict V) :
  NoDup (keys d) -> NoDup (keys (dict_set k v d)).
Proof.
  unfold keys. induction d as [| [k' v'] d IH]; simpl; intros H.
  - constructor; [intros [] | constructor].
  - inversion H as [| ? ? Hn Hd]; subst.
    destruct (String.eqb_spec k' k) as [-> | N]; simpl.
    + constructor; assumption.
    + constructor; [| apply IH, Hd].
      intros I. apply (keys_dict_set k k' v d) in I.
      destruct I as [I | I]; [congruence | contradiction].
Qed.

Lemma dict_get_In_keys (k : string) (d : dict V) :
  In k (keys d) <-> exists v, dict_get k d = Some v.
Proof.
  unfold keys. induction d as [| [k' v'] d IH]; simpl.
  - split; [contradiction | intros [v H]; discriminate].
  - destruct (String.eqb_spec k' k) as [-> | N].
    + split; [intros _; now exists v' | now left].
    + rewrite <- IH. split; [intros [H | H]; [congruence | exact H] | now right].
Qed.

End Dicts.

(** ** visitors/imported.py: the traversal *)

Section StmtInduction.
Import Ast.

Variable P : stmt -> Prop.
Hypothesis P_Import : forall names, P (Import names).
Hypothesis P_ImportFrom : forall m names lvl, P (ImportFrom m names lvl).
Hypothesis P_Assign : forall targets value, P (Assign targets value).
Hypothesis P_FunctionDef : forall name body, Forall P body -> P (FunctionDef name body).
Hypothesis P_AsyncFunctionDef :
  forall name body, Forall P body -> P (AsyncFunctionDef name body).
Hypothesis P_ClassDef : forall name body, Forall P body -> P (ClassDef name body).
Hypothesis P_Compound : forall blocks, Forall P blocks -> P (Compound blocks).
Hypothesis P_Simple : P Simple.

(** Induction on a statement with the property for all its children. *)
Fixpoint stmt_nested_ind (s : stmt) : P s :=
  let all :=
    fix all (l : list stmt) : Forall P l :=
      match l with
      | [] => Forall_nil P
      | x :: r => Forall_cons x (stmt_nested_ind x) (all r)
      end in
  match s with
  | Import names => P_Import names
  | ImportFrom m names lvl => P_ImportFrom m names lvl
  | Assign targets value => P_Assign targets value
  | FunctionDef name body => P_FunctionDef name body (all body)
  | AsyncFunctionDef name body => P_AsyncFunctionDef name body (all body)
  | ClassDef name body => P_ClassDef name body (all body)
  | Compound blocks => P_Compound blocks (all blocks)
  | Simple => P_Simple
  end.

End StmtInduction.

Section Traversal.
Import Ast Types Imported Laws.

Variable is_stdlib : string -> bool.
Variable table : dict string.
Variable ast_unparse : stmt -> option string.
Variable dedent : string -> string.

#[local] Abbreviation visit := (Imported.visit is_stdlib table ast_unparse dedent).
#[local] Abbreviation visit_body := (Imported.visit_body is_stdlib table ast_unparse dedent).
#[local] Abbreviation handle := (Laws.handle is_stdlib table ast_unparse dedent).
#[local] Abbreviation handle_all := (Laws.handle_all is_stdlib table ast_unparse dedent).

Lemma handle_all_app (l1 l2 : list stmt) (c : Collector) :
  handle_all (l1 ++ l2) c
  = match handle_all l1 c with
    | Some c' => handle_all l2 c'
    | None => None
    end.
Proof.
  revert c. induction l1 as [| n l1 IH]; intros c; simpl; [reflexivity |].
  destruct (handle n c); [apply IH | reflexivity].
Qed.

(** The generic visit of a body is the visit of its statements in
    order. *)
Lemma generic_visit_body (body : list stmt) (c : Collector) :
  visit (Compound body) c = visit_body body c.
Proof.
  cbn [Imported.visit]. revert c.
  induction body as [| s rest IH]; intros c; [reflexivity |].
  cbn [Imported.visit_body]. destruct (visit s c); [apply IH | reflexivity].
Qed.

Lemma visit_children (node : stmt) (c : Collector) :
  visit node c
  = match handle node c with
    | Some c' => visit_body (children node) c'
    | None => None
    end.
Proof.
  destruct node as [nm | m nm lvl | targets value | name body | name body
                    | name body | blocks |];
    try (exact (generic_visit_body _ c));
    simpl children; cbn [Laws.handle Imported.visit_body].
  - change (visit (Import nm) c)
      with (visit_Import is_stdlib table ast_unparse (Import nm) c).
    destruct (visit_Import is_stdlib table ast_unparse (Import nm) c); reflexivity.
  - change (visit (ImportFrom m nm lvl) c)
      with (visit_ImportFrom is_stdlib table ast_unparse (ImportFrom m nm lvl) c).
    destruct (visit_ImportFrom is_stdlib table ast_unparse (ImportFrom m nm lvl) c);
      reflexivity.
  - change (visit (Assign targets value) c)
      with (visit_Assign is_stdlib table ast_unparse dedent (Assign targets value) c).
    destruct (visit_Assign is_stdlib table ast_unparse dedent (Assign targets value) c);
      reflexivity.
  - reflexivity.
Qed.

Lemma visit_body_nodes (body : list stmt) :
  Forall (fun s => forall c, visit s c = handle_all (preorder s) c) body ->
  forall c, visit_body body c = handle_all (preorder_all body) c.
Proof.
  induction 1 as [| s rest Hs _ IH]; intros c; [reflexivity |].
  simpl. unfold preorder_all in *. simpl. rewrite handle_all_app, Hs.
  destruct (handle_all (preorder s) c); [apply IH | reflexivity].
Qed.

Lemma preorder_children (node : stmt) :
  preorder node = node :: preorder_all (children node).
Proof. destruct node; reflexivity. Qed.

(** Visiting a statement handles the statements of its tree in document
    order. *)
Lemma visit_nodes (node : stmt) :
  forall c, visit node c = handle_all (preorder node) c.
Proof.
  induction node using stmt_nested_ind; intros c;
    rewrite visit_children, preorder_children; cbn [Laws.handle_all];
    destruct (handle _ c); try reflexivity;
    try (apply visit_body_nodes; assumption).
Qed.

End Traversal.

(** X1.  The collector handles every statement of the tree, at any
    depth, once and in document order: the statements nested in
    function, class and compound bodies as well as those of the module
    body.  It fails exactly when a handler fails. *)
Theorem collector_handles_every_statement :
  forall (is_stdlib : string -> bool) (table : Types.dict string)
         (ast_unparse : Ast.stmt -> option string) (dedent : string -> string)
         (body : list Ast.stmt),
    Imported.ImportCollector is_stdlib table ast_unparse dedent body
    = Laws.handle_all is_stdlib table ast_unparse dedent
        (Laws.preorder_all body) Imported.init
    /\ (forall name inner c,
          Imported.visit is_stdlib table ast_unparse dedent
            (Ast.FunctionDef name inner) c
          = Imported.visit_body is_stdlib table ast_unparse dedent inner c).
Proof.
  intros is_stdlib table ast_unparse dedent body. split.
  - unfold Imported.ImportCollector. apply visit_body_nodes.
    apply Forall_forall. intros s _. apply visit_nodes.
  - intros name inner c.
    rewrite (visit_children is_stdlib table ast_unparse dedent).
    reflexivity.
Qed.

(** ** visitors/imported.py: what the handlers keep *)

Section AliasLoops.
Import Ast Types Imported Laws.

Lemma parse_alias_spec (a : alias) (c : Collector) :
  _parse_alias a c
  = ((Parser.bound_name a, alias_name a),
     mk_Collector (_imported_alias c ++ [Parser.bound_name a]) (_import_items c)
       (_dynamic_ref c ++ if machinery a then [Parser.bound_name a] else [])).
Proof.
  unfold _parse_alias, machinery, Parser.bound_name. destruct c as [al it dr].
  simpl. destruct (PyStr.contains "importlib" (alias_name a)
                   || PyStr.contains "import_module" (alias_name a)); simpl.
  - reflexivity.
  - now rewrite app_nil_r.
Qed.

Lemma import_loop_spec (aliases : list alias) (i : nat) (nms : dict string)
  (module submodule : option string) (c : Collector) :
  import_loop i aliases nms module submodule c
  = (bind_all aliases nms,
     match i, aliases with
     | 0, a :: _ => Some (fst (PyStr.split1 "." (alias_name a)))
     | _, _ => module
     end,
     match i, aliases with
     | 0, a :: _ => snd (PyStr.split1 "." (alias_name a))
     | _, _ => submodule
     end,
     after_aliases aliases c).
Proof.
  revert i nms module submodule c.
  induction aliases as [| a rest IH]; intros i nms module submodule c.
  - unfold after_aliases. simpl. rewrite !app_nil_r. destruct c, i; reflexivity.
  - cbn [import_loop]. rewrite parse_alias_spec.
    destruct i as [| i]; cbn [Nat.eqb].
    + destruct (PyStr.split1 "." (alias_name a)) as [top sub].
      rewrite IH. unfold after_aliases, bind_all. simpl.
      destruct (machinery a); simpl; rewrite <- !app_assoc; reflexivity.
    + rewrite IH. unfold after_aliases, bind_all. simpl.
      destruct (machinery a); simpl; rewrite <- !app_assoc; reflexivity.
Qed.

Lemma bind_all_keys (aliases : list alias) (nms : dict string) (k : string) :
  In k (keys (bind_all aliases nms))
  <-> In k (keys nms) \/ In k (map Parser.bound_name aliases).
Proof.
  revert nms. induction aliases as [| a rest IH]; intros nms; simpl.
  - intuition.
  - unfold bind_all in *. simpl. rewrite IH, keys_dict_set. intuition.
Qed.

Lemma bind_all_NoDup (aliases : list alias) (nms : dict string) :
  NoDup (keys nms) -> NoDup (keys (bind_all aliases nms)).
Proof.
  revert nms. induction aliases as [| a rest IH]; intros nms H; [exact H |].
  unfold bind_all in *. simpl. apply IH, NoDup_dict_set, H.
Qed.

(** The effect of [from_loop] on the collector and on the names. *)
Lemma from_loop_spec (aliases : list alias) (nms : dict string) (use_star : bool)
  (module submodule : option string) (c : Collector) :
  exists nms' star',
    from_loop aliases nms use_star module submodule c
    = (nms', star', after_aliases aliases c)
    /\ (NoDup (keys nms) -> NoDup (keys nms')).
Proof.
  revert nms use_star c.
  induction aliases as [| a rest IH]; intros nms use_star c.
  - exists nms, use_star. unfold after_aliases. simpl. rewrite !app_nil_r.
    destruct c. split; [reflexivity | auto].
  - cbn [from_loop]. rewrite parse_alias_spec.
    set (c1 := mk_Collector _ _ _).
    assert (E : after_aliases rest c1 = after_aliases (a :: rest) c).
    { unfold after_aliases, c1. simpl.
      destruct (machinery a); simpl; rewrite <- !app_assoc; reflexivity. }
    destruct (negb use_star && PyStr.contains "*" (Parser.bound_name a)).
    + destruct (IH (dict_set
                      (Parser.bound_name a ++ "_" ++ PyStr.str_of_opt module ++ "."
                       ++ PyStr.str_of_opt submodule) (alias_name a) nms) true c1)
        as (nms' & star' & L & N).
      exists nms', star'. rewrite L, E. split; [reflexivity |].
      intros H. apply N, NoDup_dict_set, H.
    + destruct (IH (dict_set (Parser.bound_name a) (alias_name a) nms) use_star c1)
        as (nms' & star' & L & N).
      exists nms', star'. rewrite L, E. split; [reflexivity |].
      intros H. apply N, NoDup_dict_set, H.
Qed.

Lemma after_aliases_incl (aliases : list alias) (c : Collector) :
  incl (_dynamic_ref c) (_imported_alias c) ->
  incl (_dynamic_ref (after_aliases aliases c))
    (_imported_alias (after_aliases aliases c)).
Proof.
  intros H x I. simpl in *. apply in_app_or in I. apply in_or_app.
  destruct I as [I | I]; [left; apply H, I | right].
  apply in_map_iff in I. destruct I as [a [E I]]. apply filter_In in I.
  apply in_map_iff. exists a. split; [exact E | apply I].
Qed.

End AliasLoops.

Section Handlers.
Import Ast Types Imported Laws.

Variable is_stdlib : string -> bool.
Variable table : dict string.
Variable ast_unparse : stmt -> option string.
Variable dedent : string -> string.

#[local] Abbreviation kept := (Laws.kept is_stdlib table).

(** One handled statement keeps the earlier items, adds at most one,
    and keeps the collector as it should be. *)
Lemma handle_keeps (node : stmt) (c c' : Collector) :
  handle is_stdlib table ast_unparse dedent node c = Some c' ->
  (exists new, _import_items c' = (_import_items c ++ new)%list
               /\ (List.length new <= 1)%nat)
  /\ (kept c -> kept c').
Proof.
  destruct node as [nm | m nm lvl | targets value | name body | name body
                    | name body | blocks |]; cbn [handle]; intros H;
    try (injection H as <-; split;
         [exists []; rewrite app_nil_r; split; [reflexivity | simpl; lia] | auto]).
  - unfold visit_Import in H. rewrite import_loop_spec in H.
    destruct (ast_unparse (Import nm)) as [text |]; [| discriminate].
    injection H as <-. split.
    + eexists. split; [reflexivity | simpl; lia].
    + intros [I W]. split; [apply (after_aliases_incl nm c I) |].
      simpl. apply Forall_app. split; [exact W |].
      constructor; [| constructor]. unfold well_formed. simpl.
      repeat split; try discriminate.
      apply bind_all_NoDup. constructor.
  - unfold visit_ImportFrom in H.
    set (parts := match m with
                  | Some m0 =>
                      if PyStr.truthy m0
                      then let (top, sub) := _parse_submodule m0 in (Some top, sub)
                      else (None, None)
                  | None => (None, None)
                  end) in H.
    destruct parts as [module submodule].
    destruct (from_loop_spec nm [] false module submodule c)
      as (nms' & star' & L & N).
    rewrite L in H.
    destruct (ast_unparse (ImportFrom m nm lvl)) as [text |]; [| discriminate].
    injection H as <-. split.
    + eexists. split; [reflexivity | simpl; lia].
    + intros [I W]. split; [apply (after_aliases_incl nm c I) |].
      simpl. apply Forall_app. split; [exact W |].
      constructor; [| constructor]. unfold well_formed. simpl.
      repeat split; try discriminate.
      apply N. constructor.
  - destruct targets as [| [asname | | | |] [| t2 ts]];
      try (injection H as <-; split;
           [exists []; rewrite app_nil_r; split; [reflexivity | simpl; lia] | auto]).
    destruct value as [id | v attr | k | func args keywords | ch];
      try (injection H as <-; split;
           [exists []; rewrite app_nil_r; split; [reflexivity | simpl; lia] | auto]).
    rewrite (visit_Assign_call is_stdlib table ast_unparse dedent) in H.
    destruct args as [| [id | v attr | k | f a kw | ch] rest];
      try (injection H as <-; split;
           [exists []; rewrite app_nil_r; split; [reflexivity | simpl; lia] | auto]).
    destruct k as [lit | p | n | b |];
      try (injection H as <-; split;
           [exists []; rewrite app_nil_r; split; [reflexivity | simpl; lia] | auto]).
    destruct (Stated.name_test c func);
      [| injection H as <-; split;
         [exists []; rewrite app_nil_r; split; [reflexivity | simpl; lia] | auto]].
    destruct (ast_unparse _) as [text |]; [| discriminate].
    injection H as <-. split.
    + eexists. split; [reflexivity | simpl; lia].
    + intros [I W]. split.
      * simpl. intros x Hx. apply in_or_app. left. apply I, Hx.
      * simpl. apply Forall_app. split; [exact W |].
        constructor; [| constructor]. unfold well_formed, Stated.dynamic_item.
        simpl. repeat split; try discriminate.
        constructor; [intros [] | constructor].
Qed.

Lemma handle_all_keeps (nodes : list stmt) (c c' : Collector) :
  handle_all is_stdlib table ast_unparse dedent nodes c = Some c' ->
  (exists new, _import_items c' = (_import_items c ++ new)%list
               /\ (List.length new <= List.length nodes)%nat)
  /\ (kept c -> kept c').
Proof.
  revert c. induction nodes as [| n rest IH]; intros c H; simpl in H.
  - injection H as <-. split; [| auto].
    exists []. rewrite app_nil_r. split; [reflexivity | simpl; lia].
  - destruct (handle is_stdlib table ast_unparse dedent n c) as [c1 |] eqn:E;
      [| discriminate].
    destruct (handle_keeps n c c1 E) as [(new1 & E1 & L1) K1].
    destruct (IH c1 H) as [(new2 & E2 & L2) K2].
    split; [| auto].
    exists (new1 ++ new2)%list. rewrite E2, E1, <- app_assoc.
    split; [reflexivity |]. rewrite length_app. simpl. lia.
Qed.

End Handlers.

(** X2.  Whatever the tree, a collector that returns has only items
    that are well formed (a dynamic import has one alias, no star, no
    level and a module; a star import is static and has a level; the
    package name is the one resolved from the module; no alias twice in
    an item), every alias tracked as import machinery is among the
    imported aliases, and there are at most as many items as
    statements. *)
Theorem collector_items_well_formed :
  forall (is_stdlib : string -> bool) (table : Types.dict string)
         (ast_unparse : Ast.stmt -> option string) (dedent : string -> string)
         (body : list Ast.stmt) (c : Imported.Collector),
    Imported.ImportCollector is_stdlib table ast_unparse dedent body = Some c ->
    incl (Imported._dynamic_ref c) (Imported._imported_alias c)
    /\ Forall (Laws.well_formed is_stdlib table) (Imported._import_items c)
    /\ (List.length (Imported._import_items c)
        <= List.length (Laws.preorder_all body))%nat.
Proof.
  intros is_stdlib table ast_unparse dedent body c H.
  rewrite (proj1 (collector_handles_every_statement _ _ _ _ _)) in H.
  destruct (handle_all_keeps _ _ _ _ _ _ _ H) as [(new & E & L) K].
  destruct K as [I W].
  - split; [intros x [] | constructor].
  - repeat split; try assumption. rewrite E. simpl. exact L.
Qed.

Lemma collector_items_well_formed_witness :
  exists c,
    Imported.ImportCollector (fun _ => true) [] Laws.unparse_const (fun s => s)
      Laws.sample_module = Some c
    /\ List.length (Imported._import_items c) = 3
    /\ Imported._dynamic_ref c = ["il"]
    /\ Forall (Laws.well_formed (fun _ => true) []) (Imported._import_items c).
Proof.
  eexists. split; [reflexivity |]. split; [reflexivity |]. split; [reflexivity |].
  apply (collector_items_well_formed (fun _ => true) [] Laws.unparse_const
           (fun s => s) Laws.sample_module _ eq_refl).
Defined.

(** ** visitors/imported.py: [import] statements and dotted names *)

Section ImportStatements.
Import Ast Types Imported Laws.

Lemma split1_head_no_sep (sep : ascii) (m h : string) (t : option string) :
  PyStr.split1 sep m = (h, t) -> PyStr.contains (String sep EmptyString) h = false.
Proof.
  revert h t. induction m as [| c r IH]; simpl; intros h t E.
  - injection E as <- _. reflexivity.
  - destruct (Ascii.eqb_spec c sep) as [-> | N].
    + injection E as <- _. reflexivity.
    + destruct (PyStr.split1 sep r) as [h' t'] eqn:S. injection E as <- _.
      simpl. rewrite (IH h' t' eq_refl).
      destruct (ascii_dec sep c) as [-> | _]; [contradiction | reflexivity].
Qed.

Lemma split1_none_no_sep (sep : ascii) (m h : string) :
  PyStr.split1 sep m = (h, None) -> PyStr.contains (String sep EmptyString) m = false.
Proof.
  intros E. rewrite <- (split1_none _ _ _ E). eapply split1_head_no_sep, E.
Qed.

End ImportStatements.

(** X3.  [_parse_submodule] splits a dotted name at its first dot and
    loses nothing: with a sub-module, the module, a dot and the
    sub-module give the name back and the module has no dot; without
    one, the module is the whole name and the name has no dot. *)
Theorem parse_submodule_round_trip :
  forall m : string,
    match Imported._parse_submodule m with
    | (top, Some rest) =>
        m = top ++ "." ++ rest /\ PyStr.contains "." top = false
    | (top, None) => top = m /\ PyStr.contains "." m = false
    end.
Proof.
  intros m. unfold Imported._parse_submodule.
  destruct (PyStr.split1 "." m) as [h [t |]] eqn:S.
  - split; [apply (split1_some _ _ _ _ S) | apply (split1_head_no_sep _ _ _ _ S)].
  - split; [reflexivity | apply (split1_none_no_sep _ _ _ S)].
Qed.

(** X4.  An [import] statement with at least one alias gives one static
    item without star and without level whose module and sub-module are
    those of the first alias only, and which binds exactly the aliases of
    the statement, each once; the aliases are recorded in order, and
    those whose name contains [importlib] or [import_module] are
    tracked. *)
Theorem visit_Import_item :
  forall (is_stdlib : string -> bool) (table : Types.dict string)
         (ast_unparse : Ast.stmt -> option string)
         (a : Ast.alias) (rest : list Ast.alias) (c : Imported.Collector),
    let node := Ast.Import (a :: rest) in
    let top := fst (PyStr.split1 "." (Ast.alias_name a)) in
    let sub := snd (PyStr.split1 "." (Ast.alias_name a)) in
    let nms := Laws.bind_all (a :: rest) [] in
    Imported.visit_Import is_stdlib table ast_unparse node c
    = match ast_unparse node with
      | None => None
      | Some text =>
          Some (Imported.mk_Collector
                  (Imported._imported_alias c
                   ++ map Parser.bound_name (a :: rest))
                  (Imported._import_items c
                   ++ [Types.mk_ImportItem nms (Some top)
                         (Imported._package_name is_stdlib table (Some top))
                         sub text None false false])
                  (Imported._dynamic_ref c
                   ++ map Parser.bound_name (filter Laws.machinery (a :: rest))))
      end
    /\ (forall k, In k (Types.keys nms) <-> In k (map Parser.bound_name (a :: rest)))
    /\ NoDup (Types.keys nms)
    /\ Types.dict_get (Parser.bound_name (last rest a)) nms
       = Some (Ast.alias_name (last rest a)).
Proof.
  intros is_stdlib table ast_unparse a rest c node top sub nms.
  split; [| split; [| split]].
  - unfold node, Imported.visit_Import. rewrite import_loop_spec.
    destruct (ast_unparse (Ast.Import (a :: rest))); reflexivity.
  - intros k. unfold nms. rewrite bind_all_keys. simpl.
    split; [intros [[] | H]; exact H | intros H; right; exact H].
  - apply bind_all_NoDup. constructor.
  - unfold nms. clear. generalize (@nil (string * string)) as d.
    revert a. induction rest as [| b rest IH]; intros a d.
    + unfold Laws.bind_all. simpl. apply dict_get_set_same.
    + change (Laws.bind_all (a :: b :: rest) d)
        with (Laws.bind_all (b :: rest)
                (Types.dict_set (Parser.bound_name a) (Ast.alias_name a) d)).
      assert (L : forall (l : list Ast.alias) x y, last (x :: l) y = last l x).
      { induction l as [| z l IHl]; intros x y; [reflexivity |].
        change (last (x :: z :: l) y) with (last (z :: l) y).
        rewrite (IHl z y), (IHl z x). reflexivity. }
      rewrite L. apply IH.
Qed.

(** ** visitors/imported.py: the [imported] property *)

Section ImportedProperty.
Import Types Imported Laws.

Lemma bind_item_get (a : string) (cmd : ImportItem) (ks : list string)
  (acc : dict ImportItem) :
  dict_get a (fold_left (fun acc' k => dict_set k cmd acc') ks acc)
  = if PyStr.mem a ks then Some cmd else dict_get a acc.
Proof.
  revert acc. induction ks as [| k ks IH]; intros acc; simpl; [reflexivity |].
  rewrite IH. rewrite (String.eqb_sym a k).
  destruct (PyStr.mem a ks); simpl; [now rewrite orb_true_r |].
  rewrite orb_false_r.
  destruct (String.eqb_spec k a) as [-> | N].
  - apply dict_get_set_same.
  - apply dict_get_set_other. congruence.
Qed.

Lemma bind_item_NoDup (cmd : ImportItem) (ks : list string) (acc : dict ImportItem) :
  NoDup (keys acc) ->
  NoDup (keys (fold_left (fun acc' k => dict_set k cmd acc') ks acc)).
Proof.
  revert acc. induction ks as [| k ks IH]; intros acc H; [exact H |].
  simpl. apply IH, NoDup_dict_set, H.
Qed.

Lemma find_app {A : Type} (p : A -> bool) (l1 l2 : list A) :
  find p (l1 ++ l2)
  = match find p l1 with
    | Some x => Some x
    | None => find p l2
    end.
Proof.
  induction l1 as [| x l1 IH]; simpl; [reflexivity |].
  destruct (p x); [reflexivity | exact IH].
Qed.

Lemma imported_fold_get (a : string) (items : list ImportItem)
  (acc : dict ImportItem) :
  dict_get a
    (fold_left
       (fun acc cmd =>
          fold_left (fun acc' k => dict_set k cmd acc') (keys (names cmd)) acc)
       items acc)
  = match last_binding a items with
    | Some it => Some it
    | None => dict_get a acc
    end.
Proof.
  unfold last_binding. revert acc.
  induction items as [| cmd rest IH]; intros acc; [reflexivity |].
  simpl. rewrite IH, find_app. simpl.
  destruct (find _ (rev rest)); [reflexivity |].
  rewrite bind_item_get. destruct (PyStr.mem a (keys (names cmd))); reflexivity.
Qed.

Lemma imported_fold_NoDup (items : list ImportItem) (acc : dict ImportItem) :
  NoDup (keys acc) ->
  NoDup (keys
           (fold_left
              (fun acc cmd =>
                 fold_left (fun acc' k => dict_set k cmd acc') (keys (names cmd)) acc)
              items acc)).
Proof.
  revert acc. induction items as [| cmd rest IH]; intros acc H; [exact H |].
  simpl. apply IH, bind_item_NoDup, H.
Qed.

End ImportedProperty.

(** X5.  In the dictionary [imported] an alias is looked up to the last
    item that binds it, an earlier item with the same alias being
    replaced; an alias bound by no item is missing; and no key occurs
    twice. *)
Theorem imported_last_binding_wins :
  forall (c : Imported.Collector) (a : string),
    Types.dict_get a (Imported.imported c)
    = Laws.last_binding a (Imported._import_items c)
    /\ NoDup (Types.keys (Imported.imported c))
    /\ (In a (Types.keys (Imported.imported c))
        <-> exists it, In it (Imported._import_items c)
                       /\ In a (Types.keys (Types.names it))).
Proof.
  intros c a. unfold Imported.imported.
  assert (G : Types.dict_get a
                (fold_left
                   (fun acc cmd =>
                      fold_left (fun acc' k => Types.dict_set k cmd acc')
                        (Types.keys (Types.names cmd)) acc)
                   (Imported._import_items c) [])
              = Laws.last_binding a (Imported._import_items c)).
  { rewrite imported_fold_get.
    destruct (Laws.last_binding a (Imported._import_items c)); reflexivity. }
  split; [exact G |]. split; [apply imported_fold_NoDup; constructor |].
  rewrite dict_get_In_keys, G. unfold Laws.last_binding. split.
  - intros [it F]. apply find_some in F. destruct F as [I M].
    exists it. split; [apply in_rev, I | apply mem_In, M].
  - intros [it [I K]].
    destruct (find (fun it0 => PyStr.mem a (Types.keys (Types.names it0)))
                (rev (Imported._import_items c))) as [x |] eqn:F.
    + now exists x.
    + exfalso.
      pose proof (find_none _ _ F it (proj1 (in_rev _ _) I)) as N.
      simpl in N. apply mem_In in K. rewrite K in N. discriminate.
Qed.

(** ** isolator.py: the requirements *)

Section RequirementBuckets.
Import Types Isolator Laws.

Variable is_stdlib : string -> bool.






End RequirementBuckets.



(** ** isolator.py: definitions, variables and the lines of imports *)

Section Lines.
Import Types Isolator Laws.

Lemma partition_perm {A : Type} (p : A -> bool) (l : list A) :
  Permutation (filter p l ++ filter (fun x => negb (p x)) l) l.
Proof.
  induction l as [| x r IH]; [constructor |].
  simpl. destruct (p x); simpl.
  - now constructor.
  - apply Permutation_sym. eapply Permutation_trans; [| apply Permutation_middle].
    constructor. now apply Permutation_sym.
Qed.

Lemma filter_all {A : Type} (p : A -> bool) (l : list A) :
  Forall (fun x => p x = true) l -> filter p l = l.
Proof.
  induction 1 as [| x r Hx _ IH]; [reflexivity |]. simpl. now rewrite Hx, IH.
Qed.

Lemma filter_none {A : Type} (p : A -> bool) (l : list A) :
  Forall (fun x => p x = false) l -> filter p l = [].
Proof.
  induction 1 as [| x r Hx _ IH]; [reflexivity |]. simpl. now rewrite Hx, IH.
Qed.

(** A string that starts with no blank keeps its first character when
    stripped on the right. *)
Lemma rstrip_head (c : ascii) (r : string) :
  PyStr.isspace c = false -> exists r', PyStr.rstrip (String c r) = String c r'.
Proof.
  intros H. simpl. destruct (PyStr.rstrip r) as [| d r'].
  - rewrite H. now exists EmptyString.
  - now exists (String d r').
Qed.

Lemma lstrip_head (s : string) :
  PyStr.lstrip s = EmptyString
  \/ exists c r, PyStr.lstrip s = String c r /\ PyStr.isspace c = false.
Proof.
  induction s as [| c r IH]; [now left |].
  simpl. destruct (PyStr.isspace c) eqn:E; [exact IH |].
  right. now exists c, r.
Qed.

Lemma lstrip_fixed (c : ascii) (r : string) :
  PyStr.isspace c = false -> PyStr.lstrip (String c r) = String c r.
Proof. intros H. simpl. now rewrite H. Qed.

(** Stripping twice is stripping once. *)
Lemma strip_idem (s : string) : PyStr.strip (PyStr.strip s) = PyStr.strip s.
Proof.
  unfold PyStr.strip. destruct (lstrip_head s) as [E | (c & r & E & W)].
  - rewrite E. reflexivity.
  - rewrite E. destruct (rstrip_head c r W) as [r' R]. rewrite R.
    rewrite (lstrip_fixed c r' W), <- R. apply rstrip_idem.
Qed.


End Lines.

(** X8.  [_collect_def_lines] renders every definition of the report
    exactly once: the result is a rearrangement of the rendered
    definitions, the classes before all the others and each group in its
    order, so a report whose classes come first is rendered in its own
    order. *)
Theorem def_lines_rearranged :
  forall (ast_unparse : Ast.stmt -> option string) (items : list Types.DefItem),
    Permutation (Isolator._collect_def_lines ast_unparse items)
      (map (Isolator._unparse_or_fallback ast_unparse) items)
    /\ List.length (Isolator._collect_def_lines ast_unparse items)
       = List.length items
    /\ (forall classes others,
          Forall (fun d => Isolator.is_class d = true) classes ->
          Forall (fun d => Isolator.is_class d = false) others ->
          Isolator._collect_def_lines ast_unparse (classes ++ others)
          = map (Isolator._unparse_or_fallback ast_unparse) (classes ++ others)).
Proof.
  intros ast_unparse items.
  assert (P : Permutation (Isolator._collect_def_lines ast_unparse items)
                (map (Isolator._unparse_or_fallback ast_unparse) items)).
  { unfold Isolator._collect_def_lines. rewrite <- map_app.
    apply Permutation_map, partition_perm. }
  split; [exact P |]. split.
  - rewrite (Permutation_length P). apply length_map.
  - intros classes others C O. unfold Isolator._collect_def_lines.
    rewrite !filter_app, <- map_app.
    rewrite (filter_all _ classes C), (filter_none _ others O).
    rewrite (filter_none (fun d => negb (Isolator.is_class d)) classes),
      (filter_all (fun d => negb (Isolator.is_class d)) others).
    + now rewrite app_nil_r.
    + eapply Forall_impl; [| exact O]. intros d H. simpl. now rewrite H.
    + eapply Forall_impl; [| exact C]. intros d H. simpl. now rewrite H.
Qed.

Lemma def_lines_rearranged_witness :
  Isolator._collect_def_lines Stated.unparse_raises
    ([Types.mk_DefItem "class" None None "class C: pass"]
     ++ [Types.mk_DefItem "function" None None "def f(): return 1"])
  = ["class C: pass"; "def f(): return 1"].
Proof.
  rewrite (proj2 (proj2 (def_lines_rearranged Stated.unparse_raises [])));
    [reflexivity | |]; repeat constructor.
Defined.

(** X9.  [_unparse_or_fallback] returns what the unparser writes for
    the pruned node, or for the node when there is no pruned one, if
    that node is a definition and the unparser does not raise; in every
    other case it returns a text that is not empty and has no white
    space at either end: the stored code stripped, or the placeholder
    comment when the stored code is blank. *)
Theorem unparse_or_fallback_cases :
  forall (ast_unparse : Ast.stmt -> option string) (di : Types.DefItem),
    let r := Isolator._unparse_or_fallback ast_unparse di in
    (exists n text,
        Laws.chosen_node di = Some n /\ Isolator.is_def_node n = true
        /\ ast_unparse n = Some text /\ r = text)
    \/ ((forall n, Laws.chosen_node di = Some n ->
           Isolator.is_def_node n = false \/ ast_unparse n = None)
        /\ r <> "" /\ PyStr.strip r = r
        /\ ((PyStr.strip (Types.def_code di) <> ""
             /\ r = PyStr.strip (Types.def_code di))
            \/ (PyStr.strip (Types.def_code di) = "" /\ r = Laws.placeholder))).
Proof.
  intros ast_unparse di r.
  assert (F : forall s,
             s = (if PyStr.truthy (PyStr.strip (Types.def_code di))
                  then PyStr.strip (Types.def_code di) else Laws.placeholder) ->
             s <> "" /\ PyStr.strip s = s
             /\ ((PyStr.strip (Types.def_code di) <> ""
                  /\ s = PyStr.strip (Types.def_code di))
                 \/ (PyStr.strip (Types.def_code di) = "" /\ s = Laws.placeholder))).
  { intros s ->. destruct (PyStr.truthy (PyStr.strip (Types.def_code di))) eqn:T.
    - apply truthy_true in T. split; [exact T |]. split; [apply strip_idem |].
      left. split; [exact T | reflexivity].
    - split; [discriminate |]. split; [reflexivity |]. right.
      split; [| reflexivity].
      destruct (PyStr.strip (Types.def_code di)); [reflexivity | discriminate]. }
  unfold r, Isolator._unparse_or_fallback. fold (Laws.chosen_node di).
  destruct (Laws.chosen_node di) as [n |] eqn:C.
  - destruct (Isolator.is_def_node n) eqn:D.
    + destruct (ast_unparse n) as [text |] eqn:U.
      * left. exists n, text. repeat split; assumption.
      * right. split; [| apply F; reflexivity].
        intros n' E. injection E as <-. now right.
    + right. split; [| apply F; reflexivity].
      intros n' E. injection E as <-. now left.
  - right. split; [intros n' E; discriminate | apply F; reflexivity].
Qed.


Section VarsAndTypehints.
Import Types Isolator Laws.

Lemma var_lines_of_spec (items : list VarsItem) (line : string) :
  In line (var_lines_of items)
  <-> exists v, In v items /\ PyStr.rstrip (var_code v) = line /\ line <> "".
Proof.
  unfold var_lines_of. rewrite filter_In, in_map_iff, truthy_true. split.
  - intros [[v [E I]] N]. exists v. auto.
  - intros [v (I & E & N)]. split; [exists v; auto | exact N].
Qed.

Lemma join_head (sep x : string) (l : list string) :
  exists tail, PyStr.join sep (x :: l) = x ++ tail.
Proof.
  rewrite join_cons. destruct l.
  - exists "". now rewrite append_nil_r.
  - eexists. reflexivity.
Qed.

(** A text with a part that is not blank is not blank. *)
Lemma rstrip_not_empty (t s : string) :
  PyStr.infix_of t s -> PyStr.rstrip t <> "" -> PyStr.rstrip s <> "".
Proof.
  intros I N E. apply infix_of_rstrip in I. rewrite E in I.
  destruct I as [pre [post H]]. destruct pre; [| discriminate].
  simpl in H. destruct (PyStr.rstrip t); [now apply N | discriminate].
Qed.

End VarsAndTypehints.

(** X11.  Every line of [_collect_vars_lines] is the code of a variable
    of the report stripped on the right, is not empty, and every such
    code that is not blank is a line; the lines of a module stay
    together and in their order, and the modules follow each other by
    name. *)
Theorem vars_lines_by_module :
  forall (vars_by_module : Types.dict (list Types.VarsItem)),
    let lines := Isolator._collect_vars_lines vars_by_module in
    Forall (fun l => l <> "" /\ PyStr.rstrip l = l) lines
    /\ (forall line,
          In line lines <->
          exists m items v,
            Types.dict_get m vars_by_module = Some items /\ In v items
            /\ PyStr.rstrip (Types.var_code v) = line /\ line <> "")
    /\ (exists ms,
          Permutation ms (Types.keys vars_by_module)
          /\ StronglySorted (le_of String.ltb) ms
          /\ lines
             = flat_map
                 (fun m => match Types.dict_get m vars_by_module with
                           | Some items => Laws.var_lines_of items
                           | None => []
                           end) ms).
Proof.
  intros vars_by_module lines.
  assert (M : forall line,
             In line lines <->
             exists m items v,
               Types.dict_get m vars_by_module = Some items /\ In v items
               /\ PyStr.rstrip (Types.var_code v) = line /\ line <> "").
  { intros line. unfold lines, Isolator._collect_vars_lines.
    rewrite in_flat_map. split.
    - intros [m [_ H]].
      destruct (Types.dict_get m vars_by_module) as [items |] eqn:G;
        [| contradiction].
      apply (var_lines_of_spec items line) in H. destruct H as [v H].
      exists m, items, v. tauto.
    - intros (m & items & v & G & I & E & N). exists m. split.
      + apply (proj2 (sort_by_In String.ltb m _)).
        apply dict_get_In_keys. now exists items.
      + rewrite G. apply (var_lines_of_spec items line). exists v. auto. }
  split; [| split; [exact M |]].
  - apply Forall_forall. intros l H. apply M in H.
    destruct H as (m & items & v & _ & _ & E & N).
    split; [exact N |]. rewrite <- E. apply rstrip_idem.
  - exists (Isolator.sorted_str (Types.keys vars_by_module)).
    split; [apply sort_by_perm |]. split; [| reflexivity].
    apply (sort_by_sorted String.ltb (ltb_of_asym String.compare)
             (ltb_of_negtrans String.compare)).
Qed.

(** X12.  When the report has type hints, the source begins with the
    line [from __future__ import annotations], and it has the line
    [from typing import TYPE_CHECKING] followed by the guard
    [if TYPE_CHECKING:] and, indented by four blanks, the import of the
    type names from [typing]. *)
Theorem typehints_header :
  forall (is_stdlib : string -> bool) (ast_unparse : Ast.stmt -> option string)
         (self : Isolator.Isolator) (report : Isolator.Report) (w : Isolator.World),
    Isolator.typehints report <> [] ->
    exists src rest,
      Stated.source_of
        (Isolator.isolate_from_report is_stdlib ast_unparse self report w) = Some src
      /\ src = Laws.future_import ++ PyStr.nl ++ rest
      /\ PyStr.infix_of
           ("from typing import TYPE_CHECKING" ++ PyStr.nl
            ++ "if TYPE_CHECKING:" ++ PyStr.nl ++ "    from typing import")
           src.
Proof.
  intros is_stdlib ast_unparse self report w H.
  rewrite source_of_isolate, final_code_parts.
  unfold Stated.imports_text.
  destruct (Isolator.typehints report) as [| th ths] eqn:T; [contradiction |].
  set (L := Isolator._collect_import_lines self (Isolator.imports report)).
  set (tail3 := [ "from typing import TYPE_CHECKING"; "if TYPE_CHECKING:";
                  "    " ++ "from typing import "
                  ++ PyStr.join ", " (map Isolator.typehint_import (th :: ths)) ]).
  assert (W : Isolator.with_typehints (th :: ths) L
              = (Laws.future_import :: (L ++ tail3))%list) by reflexivity.
  rewrite W.
  set (J := PyStr.join PyStr.nl (L ++ tail3)).
  assert (I1 : PyStr.join PyStr.nl (Laws.future_import :: L ++ tail3)
               = Laws.future_import ++ PyStr.nl ++ J).
  { rewrite join_cons. destruct (L ++ tail3)%list eqn:E; [| reflexivity].
    destruct L; discriminate. }
  rewrite I1.
  set (block := "from typing import TYPE_CHECKING" ++ PyStr.nl
                ++ "if TYPE_CHECKING:" ++ PyStr.nl ++ "    from typing import").
  assert (Block : PyStr.infix_of block J).
  { assert (B3 : PyStr.infix_of block (PyStr.join PyStr.nl tail3)).
    { exists "", (" " ++ PyStr.join ", " (map Isolator.typehint_import (th :: ths))).
      reflexivity. }
    unfold J. destruct L as [| l0 L0].
    - exact B3.
    - rewrite join_app by discriminate.
      apply infix_of_app_r, infix_of_app_r, B3. }
  set (V := Stated.vars_text report).
  set (D := PyStr.join Stated.nl2
              (Stated.class_lines ast_unparse report
               ++ Stated.func_lines ast_unparse report)).
  assert (FC : exists tail,
             PyStr.join Stated.nl2
               (filter PyStr.truthy [Laws.future_import ++ PyStr.nl ++ J; V; D])
             = Laws.future_import ++ (PyStr.nl ++ (J ++ tail))).
  { change (filter PyStr.truthy [Laws.future_import ++ PyStr.nl ++ J; V; D])
      with ((Laws.future_import ++ PyStr.nl ++ J) :: filter PyStr.truthy [V; D]).
    destruct (join_head Stated.nl2 (Laws.future_import ++ PyStr.nl ++ J)
                (filter PyStr.truthy [V; D])) as [tail Hj].
    exists tail. rewrite Hj. now rewrite !append_assoc. }
  destruct FC as [tail FC]. rewrite FC. clear FC.
  assert (Y : PyStr.infix_of block (J ++ tail)) by (apply infix_of_app_l, Block).
  assert (NE : PyStr.rstrip (J ++ tail) <> "")
    by (eapply rstrip_not_empty; [exact Y | discriminate]).
  assert (R : PyStr.rstrip (PyStr.nl ++ (J ++ tail))
              = PyStr.nl ++ PyStr.rstrip (J ++ tail)).
  { simpl. destruct (PyStr.rstrip (J ++ tail)); [contradiction | reflexivity]. }
  exists (Laws.future_import ++ PyStr.nl ++ PyStr.rstrip (J ++ tail) ++ PyStr.nl).
  exists (PyStr.rstrip (J ++ tail) ++ PyStr.nl).
  assert (S : PyStr.rstrip (Laws.future_import ++ PyStr.nl ++ J ++ tail) ++ PyStr.nl
              = Laws.future_import ++ PyStr.nl ++ PyStr.rstrip (J ++ tail) ++ PyStr.nl).
  { rewrite rstrip_app, R.
    destruct (PyStr.rstrip (J ++ tail)) as [| y ys]; [contradiction |].
    simpl (PyStr.nl ++ String y ys). cbv iota.
    now rewrite !append_assoc. }
  split; [now rewrite S |]. split; [reflexivity |].
  apply infix_of_app_r, infix_of_app_r, infix_of_app_l.
  apply (infix_of_rstrip _ _ Y).
Qed.

Lemma typehints_header_witness :
  exists src rest,
    Stated.source_of
      (Isolator.isolate_from_report (fun _ => true) Stated.unparse_raises
         Stated.default_isolator Laws.typed_report Stated.quiet_world) = Some src
    /\ src = Laws.future_import ++ PyStr.nl ++ rest.
Proof.
  destruct (typehints_header (fun _ => true) Stated.unparse_raises
              Stated.default_isolator Laws.typed_report Stated.quiet_world)
    as (src & rest & E & S & _); [discriminate |].
  exists src, rest. split; assumption.
Defined.

(** ** helper.py: the probe, the distributions, the classifier *)

(** X13.  [is_on_pypi] returns [True] exactly when the request to
    [https://pypi.org/pypi/<pkg>/json] returns a response whose status
    is below 400 or at least 600, and [False] for every other status and
    for every exception; only the answer to that one address counts. *)
Theorem pypi_probe_answer :
  forall (requests_get : string -> Helper.get_outcome) (pkg : string),
    (Helper.is_on_pypi requests_get pkg = true <->
     exists status_code,
       requests_get ("https://pypi.org/pypi/" ++ pkg ++ "/json")
       = Helper.Response status_code
       /\ (status_code < 400 \/ 600 <= status_code)%Z)
    /\ (forall other : string -> Helper.get_outcome,
          other (Helper.pypi_url pkg) = requests_get (Helper.pypi_url pkg) ->
          Helper.is_on_pypi other pkg = Helper.is_on_pypi requests_get pkg).
Proof.
  intros requests_get pkg. split.
  - unfold Helper.is_on_pypi, Helper.pypi_url, Helper.raise_for_status.
    destruct (requests_get ("https://pypi.org/pypi/" ++ pkg ++ "/json"))
      as [st | | |]; split; try discriminate;
      try (intros [st' [E _]]; discriminate).
    + intros H. exists st. split; [reflexivity |].
      destruct (400 <=? st)%Z eqn:A; destruct (st <? 600)%Z eqn:B;
        simpl in H; try discriminate; lia.
    + intros [st' [E R]]. injection E as <-.
      destruct (400 <=? st)%Z eqn:A; destruct (st <? 600)%Z eqn:B;
        simpl; try reflexivity; lia.
  - intros other E. unfold Helper.is_on_pypi. now rewrite E.
Qed.

Section Substrings.



End Substrings.

Section Toplevel.
Import Types Distributions Laws.





End Toplevel.



Section DistributionTable.
Import Types Distributions Laws.

Lemma add_dist_get (mapping : dict string) (dist : Distribution) (m : string) :
  dict_get m (add_dist mapping dist)
  = match named dist with
    | Some d =>
        if PyStr.mem m (_get_toplevel_modules_for_dist dist) then Some d
        else dict_get m mapping
    | None => dict_get m mapping
    end.
Proof.
  unfold add_dist, named.
  generalize (_get_toplevel_modules_for_dist dist) as ms. intros ms.
  destruct (dname_of dist) as [d |].
  - destruct (PyStr.truthy d).
    + revert mapping. induction ms as [| k ks IH]; intros mapping; [reflexivity |].
      simpl. rewrite IH. rewrite (String.eqb_sym m k).
      destruct (PyStr.mem m ks); simpl; [now rewrite orb_true_r |].
      rewrite orb_false_r.
      destruct (String.eqb_spec k m) as [-> | N].
      * apply dict_get_set_same.
      * apply dict_get_set_other. congruence.
    + revert mapping. induction ms as [| k ks IH]; intros mapping;
        [reflexivity | apply IH].
  - revert mapping. induction ms as [| k ks IH]; intros mapping;
      [reflexivity | apply IH].
Qed.

Lemma add_dist_NoDup (mapping : dict string) (dist : Distribution) :
  NoDup (keys mapping) -> NoDup (keys (add_dist mapping dist)).
Proof.
  unfold add_dist.
  generalize (_get_toplevel_modules_for_dist dist) as ms. intros ms.
  revert mapping. induction ms as [| k ks IH]; intros mapping H; [exact H |].
  simpl. apply IH. destruct (dname_of dist) as [d |]; [| exact H].
  destruct (PyStr.truthy d); [apply NoDup_dict_set, H | exact H].
Qed.

Lemma packages_distributions_snoc (dists : list Distribution) (dist : Distribution) :
  packages_distributions (dists ++ [dist])
  = add_dist (packages_distributions dists) dist.
Proof. unfold packages_distributions. now rewrite fold_left_app. Qed.

End DistributionTable.

(** X15.  In the table of [packages_distributions] a later distribution
    replaces an earlier one: after one more distribution a module is
    looked up to the name of that distribution if it has a name and the
    module among its top-level modules, and as before otherwise.  So
    every value of the table is the name, not empty, of a distribution
    that has the key among its top-level modules; and no key is there
    twice. *)
Theorem packages_distributions_last_wins :
  forall (dists : list Distributions.Distribution) (m : string),
    (forall dist,
        Types.dict_get m (Distributions.packages_distributions (dists ++ [dist]))
        = match Laws.named dist with
          | Some d =>
              if PyStr.mem m (Distributions._get_toplevel_modules_for_dist dist)
              then Some d
              else Types.dict_get m (Distributions.packages_distributions dists)
          | None => Types.dict_get m (Distributions.packages_distributions dists)
          end)
    /\ (forall d,
          Types.dict_get m (Distributions.packages_distributions dists) = Some d ->
          d <> ""
          /\ exists dist,
              In dist dists /\ Distributions.dname_of dist = Some d
              /\ In m (Distributions._get_toplevel_modules_for_dist dist))
    /\ NoDup (Types.keys (Distributions.packages_distributions dists)).
Proof.
  intros dists m. split; [| split].
  - intros dist. rewrite packages_distributions_snoc. apply add_dist_get.
  - induction dists as [| dist rest IH] using rev_ind; intros d H.
    + discriminate.
    + rewrite packages_distributions_snoc, add_dist_get in H.
      assert (Old : Types.dict_get m (Distributions.packages_distributions rest)
                    = Some d ->
                    d <> ""
                    /\ exists dist0,
                        In dist0 (rest ++ [dist])
                        /\ Distributions.dname_of dist0 = Some d
                        /\ In m (Distributions._get_toplevel_modules_for_dist dist0)).
      { intros G. destruct (IH d G) as [N [dist0 (I & E & M)]].
        split; [exact N |]. exists dist0. split; [| split; assumption].
        apply in_or_app. now left. }
      unfold Laws.named in H.
      destruct (Distributions.dname_of dist) as [d0 |] eqn:DN; [| now apply Old].
      destruct (PyStr.truthy d0) eqn:T; [| now apply Old].
      destruct (PyStr.mem m (Distributions._get_toplevel_modules_for_dist dist)) eqn:M;
        [| now apply Old].
      injection H as <-. split; [now apply truthy_true |].
      exists dist. split; [apply in_or_app; right; now left |].
      split; [exact DN | now apply mem_In].
  - induction dists as [| dist rest IH] using rev_ind; [constructor |].
    rewrite packages_distributions_snoc. apply add_dist_NoDup, IH.
Qed.

(** ** helper.py: [module_classifier] *)

Section ClassifierFacts.
Import Types Classifier Laws.

Lemma overridden_spec (packages_dists : option (dict string)) (top : string) :
  match packages_dists with
  | Some table =>
      match table with
      | [] => false
      | _ :: _ => PyStr.mem top (keys table)
      end
  | None => false
  end = overridden packages_dists top.
Proof. destruct packages_dists as [[| e t] |]; reflexivity. Qed.

End ClassifierFacts.

(** X16.  [module_classifier] answers [thirdparty] only for a module
    whose top-level name the caller's table lists, or whose name is not
    of the standard library and whose file is under a site-packages
    path; a module whose top-level name is [pip] is never [thirdparty]
    unless the table lists it; and a name listed in the table (other
    than an empty name, [builtins], or [__main__] in a notebook) is
    [thirdparty] even if it is of the standard library. *)
Theorem classifier_thirdparty :
  forall (in_notebook : bool) (is_stdlib : string -> bool)
         (m : Classifier.ModuleObj) (name : string)
         (packages_dists : option (Types.dict string)),
    Classifier.mod_name m = Some name ->
    let result :=
      Classifier.module_classifier in_notebook is_stdlib (Some m) packages_dists in
    (result = Classifier.thirdparty ->
     Laws.overridden packages_dists (Laws.top_of name) = true
     \/ (is_stdlib name = false
         /\ exists o, Classifier.origin m = Some o
                      /\ Classifier.under_site o = true
                      /\ Laws.top_of name <> "pip"))
    /\ (Laws.top_of name = "pip" ->
        Laws.overridden packages_dists "pip" = false ->
        result <> Classifier.thirdparty)
    /\ (name <> "" -> name <> "builtins" ->
        (name = "__main__" -> in_notebook = false) ->
        Laws.overridden packages_dists (Laws.top_of name) = true ->
        result = Classifier.thirdparty).
Proof.
  intros in_notebook is_stdlib m name packages_dists N result.
  unfold result, Classifier.module_classifier. rewrite N.
  rewrite overridden_spec. fold (Laws.top_of name).
  assert (Third : (if Laws.overridden packages_dists (Laws.top_of name)
                   then Classifier.thirdparty
                   else if is_stdlib name then Classifier.stdlib
                   else match Classifier.origin m with
                        | Some o =>
                            if Classifier.under_site o
                            then if Laws.top_of name =? "pip"
                                 then Classifier.stdlib else Classifier.thirdparty
                            else if Classifier.under_stdlib o then Classifier.stdlib
                            else if Classifier.is_extension_suffix (Classifier.suffix o)
                                 then Classifier.extension else Classifier.local
                        | None => Classifier.builtin
                        end) = Classifier.thirdparty ->
                  Laws.overridden packages_dists (Laws.top_of name) = true
                  \/ (is_stdlib name = false
                      /\ exists o, Classifier.origin m = Some o
                                   /\ Classifier.under_site o = true
                                   /\ Laws.top_of name <> "pip")).
  { destruct (Laws.overridden packages_dists (Laws.top_of name)); [now left |].
    destruct (is_stdlib name); [discriminate |].
    destruct (Classifier.origin m) as [o |]; [| discriminate].
    destruct (Classifier.under_site o) eqn:S.
    - destruct (String.eqb_spec (Laws.top_of name) "pip") as [P | P];
        [discriminate |].
      intros _. right. split; [reflexivity |]. now exists o.
    - destruct (Classifier.under_stdlib o); [discriminate |].
      destruct (Classifier.is_extension_suffix (Classifier.suffix o)); discriminate. }
  split; [| split].
  - destruct (PyStr.truthy name); simpl; [| discriminate].
    destruct ((name =? "__main__") && in_notebook); [discriminate |].
    destruct (name =? "builtins"); [discriminate |].
    exact Third.
  - intros P O H.
    assert (T : Laws.overridden packages_dists (Laws.top_of name) = true
                \/ (is_stdlib name = false
                    /\ exists o, Classifier.origin m = Some o
                                 /\ Classifier.under_site o = true
                                 /\ Laws.top_of name <> "pip")).
    { destruct (PyStr.truthy name); simpl in H; [| discriminate].
      destruct ((name =? "__main__") && in_notebook); [discriminate |].
      destruct (name =? "builtins"); [discriminate |].
      now apply Third. }
    destruct T as [T | (_ & o & _ & _ & T)].
    + rewrite P, O in T. discriminate.
    + now apply T.
  - intros NE NB NM O.
    apply truthy_true in NE. rewrite NE. simpl.
    destruct (String.eqb_spec name "__main__") as [M | M].
    + rewrite (NM M). simpl.
      destruct (String.eqb_spec name "builtins"); [contradiction |].
      now rewrite O.
    + simpl. destruct (String.eqb_spec name "builtins"); [contradiction |].
      now rewrite O.
Qed.

Lemma classifier_thirdparty_witness :
  Classifier.module_classifier false (fun _ => false)
    (Some (Classifier.mk_ModuleObj (Some "pip._internal")
             (Some (Classifier.mk_Origin true false ".py"))))
    None
  <> Classifier.thirdparty
  /\ Classifier.module_classifier false (fun _ => true)
       (Some (Classifier.mk_ModuleObj (Some "json.decoder") None))
       (Some [("json", "my-json")])
     = Classifier.thirdparty.
Proof.
  split.
  - apply (classifier_thirdparty false (fun _ => false)
             (Classifier.mk_ModuleObj (Some "pip._internal")
                (Some (Classifier.mk_Origin true false ".py")))
             "pip._internal" None eq_refl); reflexivity.
  - apply (classifier_thirdparty false (fun _ => true)
             (Classifier.mk_ModuleObj (Some "json.decoder") None)
             "json.decoder" (Some [("json", "my-json")]) eq_refl);
      try discriminate; reflexivity.
Defined.

(** ** utils/log.py: where a record goes *)

Section LogFacts.
Import Log.

Lemma minimum_le (l : list Z) (x : Z) :
  (minimum x l <= x)%Z /\ Forall (fun y => (minimum x l <= y)%Z) l.
Proof.
  revert x. induction l as [| y r IH]; intros x; simpl.
  - split; [lia | constructor].
  - destruct (IH (Z.min x y)) as [A B]. split; [lia |].
    constructor; [lia | exact B].
Qed.

Lemma root_level_le (level : Z) (console_level file_level : option Z) :
  let root := minimum level (levels_given level console_level file_level) in
  (root <= level)%Z
  /\ (root <= match console_level with Some c => c | None => level end)%Z
  /\ (root <= match file_level with Some f => f | None => level end)%Z.
Proof.
  intros root.
  destruct (minimum_le (levels_given level console_level file_level) level)
    as [A B].
  fold root in A, B. split; [exact A |].
  unfold levels_given in B.
  destruct console_level as [c |], file_level as [f |]; simpl in B;
    repeat match goal with
           | H : Forall _ (_ :: _) |- _ => inversion H; subst; clear H
           end; split; lia.
Qed.

(** The console handlers that take a record. *)
Lemma console_taken (eff levelno : Z) :
  filter (accepts levelno) (console_handlers eff)
  = if (levelno <? 30)%Z
    then
      if ((eff <=? 10) && (10 <=? levelno) && (levelno <? 20))%Z
      then [mk_handler Stdout DEBUG (Some INFO) "[%(levelname)s] %(message)s"]
      else if ((eff <=? 20) && (20 <=? levelno))%Z
           then [mk_handler Stdout INFO (Some WARNING) "%(message)s"]
           else []
    else
      if (eff <=? levelno)%Z
      then [mk_handler Stderr (if (WARNING <=? eff)%Z then eff else WARNING) None
              "[%(levelname)-8s] %(name)s: %(message)s"]
      else [].
Proof.
  unfold console_handlers, accepts, max_level_filter, DEBUG, INFO, WARNING.
  destruct (Z.leb_spec eff 10), (Z.leb_spec eff 20), (Z.leb_spec 30 eff);
    try lia; simpl;
    destruct (Z.ltb_spec levelno 30), (Z.leb_spec 10 levelno),
      (Z.ltb_spec levelno 20), (Z.leb_spec 20 levelno), (Z.leb_spec eff levelno),
      (Z.leb_spec 30 levelno);
    try lia; simpl; reflexivity.
Qed.

End LogFacts.

(** X17.  After [init] without dictionary and with the console in use, a
    record goes to at most one console handler: below [WARNING] to the
    standard output, from [WARNING] on to the standard error stream; a
    record of a standard level goes to the console exactly when its
    level is not below the console level (the [level] when no
    [console_level] is given); no warning is logged; and the level of
    the root logger is above neither [level] nor the console level. *)
Theorem log_console_routing :
  forall (can_open : string -> bool)
         (level : Z) (console_level file_level : option Z)
         (log_file : option string) (use_file : bool)
         (root : Z) (handlers : list Log.handler) (warned : bool) (levelno : Z),
    Log.init can_open false level console_level file_level log_file true use_file
    = Log.Configured root handlers warned ->
    let eff := match console_level with Some c => c | None => level end in
    let got := filter Log.is_console (Log.delivered root handlers levelno) in
    (List.length got <= 1)%nat
    /\ (forall h, In h got ->
          (Log.h_stream h = Log.Stdout /\ (levelno < Log.WARNING)%Z)
          \/ (Log.h_stream h = Log.Stderr /\ (Log.WARNING <= levelno)%Z))
    /\ (Laws.standard_level levelno ->
        ((eff <= levelno)%Z -> List.length got = 1%nat)
        /\ ((levelno < eff)%Z -> got = []))
    /\ warned = false
    /\ (root <= level)%Z /\ (root <= eff)%Z.
Proof.
  intros can_open level console_level file_level log_file use_file root handlers
    warned levelno H eff got.
  destruct (root_level_le level console_level file_level) as (R1 & R2 & R3).
  cbv zeta in R1, R2, R3. fold eff in R2.
  assert (G : exists extra,
             handlers = (Log.console_handlers eff ++ extra)%list
             /\ Forall (fun h => Log.is_console h = false) extra
             /\ root = Log.minimum level
                         (Log.levels_given level console_level file_level)
             /\ warned = false).
  { unfold Log.init in H. fold eff in H.
    destruct (if Log.opt_truthy log_file then true else use_file).
    - destruct log_file as [path |]; [| discriminate].
      destruct (PyStr.truthy path); [| discriminate].
      destruct (can_open path); [| discriminate].
      injection H as <- <- <-. eexists. split; [reflexivity |].
      split; [repeat constructor | split; reflexivity].
    - destruct (Log.console_handlers eff) as [| h0 hs] eqn:C.
      + unfold Log.console_handlers in C.
        destruct (eff <=? Log.DEBUG)%Z, (eff <=? Log.INFO)%Z; discriminate.
      + injection H as <- <- <-. exists []. rewrite app_nil_r.
        split; [reflexivity |]. split; [constructor | split; reflexivity]. }
  destruct G as (extra & -> & NC & -> & ->).
  set (root := Log.minimum level
                 (Log.levels_given level console_level file_level)) in *.
  assert (E : got = if Log.is_enabled_for root levelno
                    then filter (Log.accepts levelno) (Log.console_handlers eff)
                    else []).
  { unfold got, Log.delivered.
    destruct (Log.is_enabled_for root levelno); [| reflexivity].
    rewrite filter_app, filter_app.
    assert (X : filter Log.is_console (filter (Log.accepts levelno) extra) = []).
    { clear - NC. induction NC as [| h r Hh _ IH]; [reflexivity |].
      simpl. destruct (Log.accepts levelno h); simpl; [rewrite Hh |]; exact IH. }
    rewrite X, app_nil_r.
    apply filter_all. apply Forall_forall. intros h I.
    apply filter_In in I. destruct I as [I _].
    unfold Log.console_handlers in I.
    destruct (eff <=? Log.DEBUG)%Z, (eff <=? Log.INFO)%Z; simpl in I;
      repeat destruct I as [<- | I]; try reflexivity; contradiction. }
  rewrite E, console_taken. unfold Log.WARNING.
  split; [| split; [| split; [| split; [reflexivity | split; assumption]]]].
  - destruct (Log.is_enabled_for root levelno); [| simpl; lia].
    destruct (levelno <? 30)%Z.
    + destruct ((eff <=? 10) && (10 <=? levelno) && (levelno <? 20))%Z; [simpl; lia |].
      destruct ((eff <=? 20) && (20 <=? levelno))%Z; simpl; lia.
    + destruct (eff <=? levelno)%Z; simpl; lia.
  - intros h I.
    destruct (Log.is_enabled_for root levelno); [| contradiction].
    destruct (Z.ltb_spec levelno 30).
    + left.
      destruct ((eff <=? 10) && (10 <=? levelno) && (levelno <? 20))%Z.
      * destruct I as [<- | []]. split; [reflexivity | lia].
      * destruct ((eff <=? 20) && (20 <=? levelno))%Z; [| contradiction].
        destruct I as [<- | []]. split; [reflexivity | lia].
    + right. destruct (eff <=? levelno)%Z; [| contradiction].
      destruct I as [<- | []]. split; [reflexivity | lia].
  - intros S. split; intros C.
    + assert (On : Log.is_enabled_for root levelno = true).
      { unfold Log.is_enabled_for. apply andb_true_iff. split.
        - apply Z.ltb_lt. destruct S as [-> | [-> | [-> | [-> | ->]]]]; lia.
        - apply Z.leb_le. lia. }
      rewrite On.
      destruct S as [-> | [-> | [-> | [-> | ->]]]]; simpl;
        destruct (Z.leb_spec eff 10), (Z.leb_spec eff 20), (Z.leb_spec eff 30),
          (Z.leb_spec eff 40), (Z.leb_spec eff 50); try lia; reflexivity.
    + destruct (Log.is_enabled_for root levelno); [| reflexivity].
      destruct S as [-> | [-> | [-> | [-> | ->]]]]; simpl;
        destruct (Z.leb_spec eff 10), (Z.leb_spec eff 20), (Z.leb_spec eff 30),
          (Z.leb_spec eff 40), (Z.leb_spec eff 50); try lia; reflexivity.
Qed.

Lemma log_console_routing_witness :
  Log.init (fun _ => true) false 20 None None None true false
  = Log.Configured 20 (Log.console_handlers 20) false
  /\ filter Log.is_console (Log.delivered 20 (Log.console_handlers 20) 10) = [].
Proof.
  assert (E : Log.init (fun _ => true) false 20 None None None true false
              = Log.Configured 20 (Log.console_handlers 20) false)
    by reflexivity.
  split; [exact E |].
  pose proof (log_console_routing (fun _ => true) 20 None None None false 20
                (Log.console_handlers 20) false 10 E) as T.
  cbv zeta in T. destruct T as (_ & _ & S & _).
  apply (proj2 (S (or_introl eq_refl))). reflexivity.
Defined.



(** ** parser.py: the source of a notebook session *)



